(** * The tiered match-outcome predictor (server/optimizedPredictor.ts)

    A shallow embedding of the class [OptimizedCricketPredictor]: its
    prediction cache (a JavaScript [Map], whose iteration order is the
    order of first insertion), the three tier operations, the mode
    dispatcher and the static fallback, followed by the properties the
    specification states about them.

    Conventions.
    - A JavaScript [number] that carries a probability or a confidence is
      a rational [Q]; decimal literals denote their exact value.  Clock
      readings and integer constants are [Z] (milliseconds).
    - A [string] is a sequence of characters; a text outside ASCII is
      held in its UTF-8 encoding (an unpaired surrogate as the three
      bytes of its code point), on which comparison, the search for an
      ASCII word and concatenation next to an ASCII character act as
      they do on the text.
    - [String.prototype.toLowerCase] is the Unicode case conversion of
      the host.  It is a variable, [toLowerCase], of everything that
      lower-cases a text, and nothing is assumed of it except, where
      said, what it does to a text of ASCII characters.
    - The collaborators whose source is not part of the class (the clock
      [Date.now], the Elo service and the features service) are
      variables of the section: an oracle indexed by the number of
      external interactions performed so far, so that successive calls
      may read different times, succeed or throw independently. *)

From Stdlib Require Import List String Ascii Bool Arith ZArith QArith Lia Lqa.
From Stdlib Require Import NArith DecimalString.
Import ListNotations.

Local Open Scope string_scope.
Local Open Scope Z_scope.

(** A proof depends on the section variables its statement names. *)
Set Default Proof Using "Type".

(** ** JavaScript primitives used by the class *)

Module JS.

(** [c.toLowerCase()] on one ASCII character: only A-Z change. *)
Definition lowerAscii (c : ascii) : ascii :=
  let n := nat_of_ascii c in
  if ((65 <=? n) && (n <=? 90))%nat then ascii_of_nat (n + 32) else c.

(** The type of [String.prototype.toLowerCase], as a function of the
    text it is called on. *)
Definition CaseConversion : Type := string -> string.

(** [s.toLowerCase()] on a text of ASCII characters. *)
Fixpoint lowerAsciiText (s : string) : string :=
  match s with
  | EmptyString => EmptyString
  | String c s' => String (lowerAscii c) (lowerAsciiText s')
  end.

(** Every character of the text is an ASCII character. *)
Fixpoint isAscii (s : string) : bool :=
  match s with
  | EmptyString => true
  | String c s' => (nat_of_ascii c <? 128)%nat && isAscii s'
  end.

(** What [String.prototype.toLowerCase] does to a text of ASCII
    characters; what it does to any other text (U+0130 becomes the
    letter i followed by U+0307, a final sigma depends on its
    neighbours, ...) is left open. *)
Definition lowersAscii (toLowerCase : string -> string) : Prop :=
  forall s, isAscii s = true -> toLowerCase s = lowerAsciiText s.

(** A JavaScript [number]: a finite value, [NaN] or an infinity. *)
Inductive Number :=
| Finite (q : Q)
| NaN
| Infinity (negative : bool).

(** [s.includes(sub)]: [sub] occurs in [s] as a contiguous substring. *)
Fixpoint includes (s sub : string) : bool :=
  if String.prefix sub s then true
  else match s with
       | EmptyString => false
       | String _ s' => includes s' sub
       end.

(** [x || d] on numbers: [0] is falsy, every other rational is truthy. *)
Definition orNum (x d : Q) : Q := if Qeq_bool x 0 then d else x.

(** [a || b] where the operands are [undefined], [false] or [true]
    (the values an optional chain ending in [includes] can take):
    [None] stands for [undefined]. *)
Definition orOpt (a b : option bool) : option bool :=
  match a with
  | Some true => a
  | _ => b
  end.

(** Truthiness of such a value in an [if]. *)
Definition truthy (a : option bool) : bool :=
  match a with
  | Some true => true
  | _ => false
  end.

(** [this.m.get / set / delete / size / keys] on a [Map<string, V>]:
    an association list in iteration order.  [set] overwrites the
    value of a key that is present without moving it and appends a
    key that is absent; [delete] removes the key. *)
Section MapOps.
Context {V : Type}.

Definition Map := list (string * V).

Fixpoint mapGet (k : string) (m : Map) : option V :=
  match m with
  | [] => None
  | (k', v) :: m' => if String.eqb k k' then Some v else mapGet k m'
  end.

Fixpoint mapSet (k : string) (v : V) (m : Map) : Map :=
  match m with
  | [] => [(k, v)]
  | (k', v') :: m' =>
      if String.eqb k k' then (k', v) :: m' else (k', v') :: mapSet k v m'
  end.

Definition mapDelete (k : string) (m : Map) : Map :=
  filter (fun kv => negb (String.eqb k (fst kv))) m.

Definition mapSize (m : Map) : Z := Z.of_nat (List.length m).

Definition mapKeys (m : Map) : list string := map fst m.

Definition mapHas (k : string) (m : Map) : bool :=
  match mapGet k m with Some _ => true | None => false end.
End MapOps.
Arguments Map : clear implicits.

End JS.

(** ** Data model *)

(** [PredictionInput.format]: the union ['t20' | 'odi' | 'test']. *)
Inductive Format := T20 | ODI | Test.

Definition formatText (f : Format) : string :=
  match f with T20 => "t20" | ODI => "odi" | Test => "test" end.

(** The fields of [PredictionInput] the predictor reads.  [tournament]
    and [seriesContext] are read through an optional chain, so they may
    be absent. *)
Record PredictionInput := {
  team1Id : string;
  team2Id : string;
  venue : string;
  format : Format;
  tournament : option string;
  seriesContext : option string
}.

Record FastPredictionResult := {
  team1WinProb : Q;
  team2WinProb : Q;
  drawProb : Q;
  confidence : Q;
  keyFactors : list string;
  riskFactors : list string;
  modelVersion : string;
  processingTimeMs : Z;
  engineUsed : string;
  accuracy : Z;
  fromCache : option bool
}.

(** [{ ...r, fromCache: true }] *)
Definition markFromCache (r : FastPredictionResult) : FastPredictionResult :=
  {| team1WinProb := team1WinProb r;
     team2WinProb := team2WinProb r;
     drawProb := drawProb r;
     confidence := confidence r;
     keyFactors := keyFactors r;
     riskFactors := riskFactors r;
     modelVersion := modelVersion r;
     processingTimeMs := processingTimeMs r;
     engineUsed := engineUsed r;
     accuracy := accuracy r;
     fromCache := Some true |}.

(** What [eloService.calculateWinProbability] resolves to. *)
Record EloResult := {
  eloTeam1WinProb : Q;
  eloTeam2WinProb : Q;
  eloDrawProb : Q
}.

(** The third argument of [mlService.generateEnhancedPrediction]. *)
Record BaseProbs := { team1 : Q; team2 : Q; draw : Q }.

(** The fields of [ComprehensivePrediction] the predictor reads. *)
Record ComprehensivePrediction := {
  enhancedTeam1WinProb : Q;
  enhancedTeam2WinProb : Q;
  enhancedDrawProb : Q;
  confidenceLevel : Q;
  enhancedModelVersion : string
}.

Record CacheEntry := { result : FastPredictionResult; timestamp : Z }.

Definition Cache := JS.Map CacheEntry.

(** The mutable state of a predictor instance together with the number
    of external interactions (clock readings, provider calls) so far. *)
Record PState := { predictionCache : Cache; tick : nat }.

Definition advance (s : PState) : PState :=
  {| predictionCache := predictionCache s; tick := S (tick s) |}.

Definition withCache (c : Cache) (s : PState) : PState :=
  {| predictionCache := c; tick := tick s |}.

(** A call either returns or throws. *)
Inductive Outcome (A : Type) :=
| Ok (a : A)
| Throw (e : string).
Arguments Ok {A} a.
Arguments Throw {A} e.

(** Computations of the class: they may update the state and may throw;
    state updates made before a throw persist. *)
Definition M (A : Type) := PState -> Outcome A * PState.

Definition ret {A} (a : A) : M A := fun s => (Ok a, s).

Definition bind {A B} (m : M A) (f : A -> M B) : M B :=
  fun s => match m s with
           | (Ok a, s') => f a s'
           | (Throw e, s') => (Throw e, s')
           end.

(** [try { body } catch (error) { handler }] *)
Definition tryCatch {A} (body : M A) (handler : string -> M A) : M A :=
  fun s => match body s with
           | (Ok a, s') => (Ok a, s')
           | (Throw e, s') => handler e s'
           end.

Declare Scope pred_scope.
Delimit Scope pred_scope with pred.
Notation "x <- c1 ;; c2" := (bind c1 (fun x => c2))
  (at level 61, c1 at next level, right associativity) : pred_scope.
Notation "c1 ;;; c2" := (bind c1 (fun _ => c2))
  (at level 61, right associativity) : pred_scope.

(** [CACHE_TTL = 5 * 60 * 1000] *)
Definition CACHE_TTL : Z := 5 * 60 * 1000.

(** The size above which [cacheResult] evicts. *)
Definition CACHE_CAPACITY : Z := 100.

(** [timeConstraint] of [generateSmartPrediction]. *)
Inductive TimeConstraint := TCFast | TCBalanced | TCAccurate.

(** [mode] of [predict]. *)
Inductive Mode := ModeFast | ModeBalanced | ModeSmart.

(** *** Pure parts *)

(** [generateBasicFallback(input, processingTime)] *)
Definition generateBasicFallback (input : PredictionInput) (processingTime : Z)
  : FastPredictionResult :=
  {| team1WinProb := 0.52;
     team2WinProb := 0.46;
     drawProb := 0.02;
     confidence := 0.60;
     keyFactors := ["Basic statistical analysis"];
     riskFactors := ["Limited data available"; "Fallback prediction"];
     modelVersion := "fallback-v1.0";
     processingTimeMs := processingTime;
     engineUsed := "Basic Fallback";
     accuracy := 65;
     fromCache := None |}.

(** [input.format === 't20' ? 78 : input.format === 'odi' ? 75 : 72] *)
Definition fastAccuracy (f : Format) : Z :=
  match f with T20 => 78 | ODI => 75 | Test => 72 end.

(** [input.format === 't20' ? 82 : input.format === 'odi' ? 79 : 75] *)
Definition balancedAccuracy (f : Format) : Z :=
  match f with T20 => 82 | ODI => 79 | Test => 75 end.

(** The object literal built in the [try] block of the fast tier. *)
Definition fastResult (input : PredictionInput) (eloResult : EloResult)
    (elapsed : Z) : FastPredictionResult :=
  {| team1WinProb := eloTeam1WinProb eloResult;
     team2WinProb := eloTeam2WinProb eloResult;
     drawProb := JS.orNum (eloDrawProb eloResult) 0.02;
     confidence := 0.75;
     keyFactors := ["Team strength (Elo ratings)"; "Historical performance"];
     riskFactors := match format input with
                    | Test => ["Weather dependency"; "Match duration"]
                    | _ => []
                    end;
     modelVersion := "fast-v1.0";
     processingTimeMs := elapsed;
     engineUsed := "Elo Rating System";
     accuracy := fastAccuracy (format input);
     fromCache := None |}.

(** The object literal built in the [try] block of the balanced tier. *)
Definition balancedResult (input : PredictionInput)
    (enhancedResult : ComprehensivePrediction) (elapsed : Z)
  : FastPredictionResult :=
  {| team1WinProb := enhancedTeam1WinProb enhancedResult;
     team2WinProb := enhancedTeam2WinProb enhancedResult;
     drawProb := JS.orNum (enhancedDrawProb enhancedResult) 0.02;
     confidence := JS.orNum (confidenceLevel enhancedResult) 0.82;
     keyFactors := ["Team strength"; "Venue factors"; "Recent form";
                    "Player analysis"];
     riskFactors := [];
     modelVersion := enhancedModelVersion enhancedResult;
     processingTimeMs := elapsed;
     engineUsed := "Elo + ML Ensemble";
     accuracy := balancedAccuracy (format input);
     fromCache := None |}.

(** The two cache keys (template literals). *)
Definition fastKey (input : PredictionInput) : string :=
  "fast_" ++ team1Id input ++ "_" ++ team2Id input ++ "_"
  ++ formatText (format input).

Definition balancedKey (input : PredictionInput) : string :=
  "balanced_" ++ team1Id input ++ "_" ++ team2Id input ++ "_"
  ++ formatText (format input) ++ "_" ++ venue input.

(** [s?.toLowerCase().includes(w)] *)
Definition optIncludes (toLowerCase : string -> string) (s : option string)
    (w : string) : option bool :=
  match s with
  | Some t => Some (JS.includes (toLowerCase t) w)
  | None => None
  end.

(** The expression bound to [isImportantMatch], as a condition. *)
Definition isImportantMatch (toLowerCase : string -> string)
    (input : PredictionInput) : bool :=
  JS.truthy
    (JS.orOpt (JS.orOpt (JS.orOpt
       (optIncludes toLowerCase (tournament input) "world")
       (optIncludes toLowerCase (tournament input) "final"))
       (optIncludes toLowerCase (seriesContext input) "final"))
       (optIncludes toLowerCase (seriesContext input) "semi")).

(** [getCacheStats()]'s return type. *)
Record CacheStats := { size : Z; hitRate : Q }.

(** *** The cache write, as a function of the clock reading it takes *)

(** [cacheResult(key, result)] with [Date.now()] read as [now]. *)
Definition cacheResultAt (key : string) (r : FastPredictionResult) (now : Z)
    (c : Cache) : Cache :=
  let c1 := JS.mapSet key {| result := r; timestamp := now |} c in
  if CACHE_CAPACITY <? JS.mapSize c1 then
    match JS.mapKeys c1 with
    | oldestKey :: _ => JS.mapDelete oldestKey c1
    | [] => c1
    end
  else c1.

(** The lookup of [getCachedPrediction(key)] with [Date.now()] read as
    [now] (the clock is read only when the key is present). *)
Definition lookupAt (key : string) (now : Z) (c : Cache)
  : option FastPredictionResult :=
  match JS.mapGet key c with
  | Some cached =>
      if now - timestamp cached <? CACHE_TTL
      then Some (markFromCache (result cached))
      else None
  | None => None
  end.

(** *** Histories of cache operations

    The three ways the class touches [predictionCache], as a small
    command language, to state properties of every sequence of
    cache operations. *)
Inductive CacheOp :=
| OpGet (key : string)
| OpPut (key : string) (r : FastPredictionResult)
| OpClear.

(** For each key that is present, the index of the operation that
    inserted it, that is, made it present: a write to a key that is
    already present does not count, and a key that is absent has no
    index. *)
Definition Births := string -> option nat.

Definition noBirths : Births := fun _ => None.

(** The indices after the n-th operation, from the cache before and
    after it: a key present on both sides keeps its index, a key that
    appeared gets [n], a key that is gone loses its index. *)

Definition stepBirths (n : nat) (before after : Cache) (b : Births)
  : Births :=
  fun k =>
    if JS.mapHas k after
    then (if JS.mapHas k before then b k else Some n)
    else None.

(** A freshly constructed predictor. *)
Definition initialState : PState := {| predictionCache := []; tick := 0 |}.

(** ** Properties named by the specification *)

(** The invariant of a probability triple: the sum lies in
    [[0.99, 1.01]] and each term lies in [[0, 1]]. *)
Definition validDistribution (p1 p2 d : Q) : Prop :=
  (0.99 <= p1 + p2 + d /\ p1 + p2 + d <= 1.01)%Q /\
  (0 <= p1 /\ p1 <= 1)%Q /\ (0 <= p2 /\ p2 <= 1)%Q /\ (0 <= d /\ d <= 1)%Q.

Definition validResult (r : FastPredictionResult) : Prop :=
  validDistribution (team1WinProb r) (team2WinProb r) (drawProb r).

(** The vocabulary of the properties that lower-case a text. *)
Section Markers.

Variable toLowerCase : string -> string.

(** [s] is present and its lower-cased text contains [w]. *)
Definition mentions (s : option string) (w : string) : bool :=
  match s with
  | Some t => JS.includes (toLowerCase t) w
  | None => false
  end.

(** The importance test as the specification words it: each of the
    three vocabulary words is looked for in both fields. *)
Definition claimedImportant (input : PredictionInput) : bool :=
  mentions (tournament input) "world" || mentions (tournament input) "final"
  || mentions (tournament input) "semi"
  || mentions (seriesContext input) "world"
  || mentions (seriesContext input) "final"
  || mentions (seriesContext input) "semi".

(** The importance test with the words each field is searched for. *)
Definition markedImportant (input : PredictionInput) : bool :=
  mentions (tournament input) "world" || mentions (tournament input) "final"
  || mentions (seriesContext input) "final"
  || mentions (seriesContext input) "semi".

End Markers.

(** The cache holds [r] under [key], stored at [ts]. *)
Definition storedUnder (key : string) (r : FastPredictionResult) (ts : Z)
    (c : Cache) : Prop :=
  exists e, JS.mapGet key c = Some e /\ timestamp e = ts /\
            markFromCache (result e) = markFromCache r.

(** A write under [key] makes the cache evict: the cache is full and
    [key] is not one of its keys. *)
Definition writeEvicts (key : string) (c : Cache) : bool :=
  (JS.mapSize c =? CACHE_CAPACITY) && negb (JS.mapHas key c).

(** [k] is the first key of the cache in iteration order. *)
Definition isOldestKey (k : string) (c : Cache) : bool :=
  match JS.mapKeys c with
  | oldest :: _ => String.eqb oldest k
  | [] => false
  end.

(** The births of the keys of a cache, in iteration order, increase
    strictly and lie in [[lo, hi)]. *)
Fixpoint bornInOrder (b : string -> option nat) (lo hi : nat)
    (ks : list string) : Prop :=
  match ks with
  | [] => True
  | k :: ks' =>
      exists n, b k = Some n /\ (lo <= n < hi)%nat /\ bornInOrder b (S n) hi ks'
  end.

(** ** The public operations, as a command language *)

Inductive ApiCall :=
| CallFast (input : PredictionInput)
| CallBalanced (input : PredictionInput)
| CallSmart (input : PredictionInput) (timeConstraint : TimeConstraint)
| CallPredict (input : PredictionInput) (mode : Mode)
| CallClear
| CallStats.

(** ** Where cached and served results come from *)

(** [r] was built by the fast tier for an input whose fast key is [k]. *)
Definition fastEntry (k : string) (r : FastPredictionResult) : Prop :=
  exists i el elapsed, k = fastKey i /\ r = fastResult i el elapsed.

(** [r] was built by the balanced tier for an input whose balanced key
    is [k]. *)
Definition balancedEntry (k : string) (r : FastPredictionResult) : Prop :=
  exists i en elapsed, k = balancedKey i /\ r = balancedResult i en elapsed.

(** Every entry of the cache was built by the tier that owns its key. *)
Definition cacheProvenance (c : Cache) : Prop :=
  forall k e, In (k, e) c ->
    fastEntry k (result e) \/ balancedEntry k (result e).

(** The ways a result handed to a caller for [input] can have come
    about: the static fallback, a result just computed by a tier for
    [input], or a flagged copy of a result a tier computed earlier for
    an input with the same key. *)
Inductive Origin (input : PredictionInput) (r : FastPredictionResult)
  : Prop :=
| FromFallback (elapsed : Z) :
    r = generateBasicFallback input elapsed -> Origin input r
| FreshFast (el : EloResult) (elapsed : Z) :
    r = fastResult input el elapsed -> Origin input r
| FreshBalanced (en : ComprehensivePrediction) (elapsed : Z) :
    r = balancedResult input en elapsed -> Origin input r
| CachedFast (i : PredictionInput) (el : EloResult) (elapsed : Z) :
    fastKey i = fastKey input ->
    r = markFromCache (fastResult i el elapsed) -> Origin input r
| CachedBalanced (i : PredictionInput) (en : ComprehensivePrediction)
    (elapsed : Z) :
    balancedKey i = balancedKey input ->
    r = markFromCache (balancedResult i en elapsed) -> Origin input r.

(** The ways a result handed out by the fast tier for [input] can have
    come about. *)
Definition fastOrigin (input : PredictionInput) (r : FastPredictionResult)
  : Prop :=
  (exists elapsed, r = generateBasicFallback input elapsed)
  \/ (exists el elapsed, r = fastResult input el elapsed)
  \/ (exists i el elapsed,
        fastKey i = fastKey input
        /\ r = markFromCache (fastResult i el elapsed)).

(** The accuracy constants of the three engines. *)
Definition accuracyTable : list Z := [65; 72; 75; 78; 79; 82].


(** The computation returns, and what it returns satisfies [P]. *)
Definition returns {A S : Type} (P : A -> Prop) (o : Outcome A * S) : Prop :=
  match fst o with
  | Ok a => P a
  | Throw _ => False
  end.

(** The last character of a string. *)
Fixpoint lastAscii (s : string) : option ascii :=
  match s with
  | EmptyString => None
  | String c s' =>
      match lastAscii s' with
      | Some d => Some d
      | None => Some c
      end
  end.


(** ** Concrete collaborators and inputs used in the examples *)

Module Scenario.

(** A clock that advances one second per external interaction. *)
Definition clock (n : nat) : Z := 1000 * Z.of_nat n.

(** A clock that advances one second per interaction, then jumps
    ahead by ten minutes at interaction [k]. *)
Definition clockJump (k n : nat) : Z :=
  if (n <? k)%nat then 1000 * Z.of_nat n
  else 1000 * Z.of_nat n + 10 * 60 * 1000.

Definition eloOf (p1 p2 d : Q) : Outcome EloResult :=
  Ok {| eloTeam1WinProb := p1; eloTeam2WinProb := p2; eloDrawProb := d |}.

(** A rating provider for a format without draws. *)
Definition eloZeroDraw (n : nat) (a b : string) (f : Format)
  : Outcome EloResult := eloOf 0.6 0.4 0.

(** A rating provider that reserves draw mass. *)
Definition eloSteady (n : nat) (a b : string) (f : Format)
  : Outcome EloResult := eloOf 0.6 0.38 0.02.

(** A rating provider that is down. *)
Definition eloDown (n : nat) (a b : string) (f : Format)
  : Outcome EloResult := Throw "ratings unavailable".

(** A rating provider that works for the first [k] interactions and
    is down afterwards. *)
Definition eloUntil (k n : nat) (a b : string) (f : Format)
  : Outcome EloResult :=
  if (n <? k)%nat then eloOf 0.6 0.38 0.02 else Throw "ratings unavailable".

Definition enhanced : ComprehensivePrediction :=
  {| enhancedTeam1WinProb := 0.65;
     enhancedTeam2WinProb := 0.33;
     enhancedDrawProb := 0.02;
     confidenceLevel := 0.85;
     enhancedModelVersion := "ensemble-v2" |}.

Definition mlSteady (n : nat) (i : PredictionInput) (b : BaseProbs)
  : Outcome ComprehensivePrediction := Ok enhanced.

Definition mlDown (n : nat) (i : PredictionInput) (b : BaseProbs)
  : Outcome ComprehensivePrediction := Throw "features unavailable".

(** A features provider that is down for the first [k] interactions
    and works afterwards. *)
Definition mlFrom (k n : nat) (i : PredictionInput) (b : BaseProbs)
  : Outcome ComprehensivePrediction :=
  if (n <? k)%nat then Throw "features unavailable" else Ok enhanced.

Definition matchWith (t s : option string) : PredictionInput :=
  {| team1Id := "cricket_india";
     team2Id := "cricket_australia";
     venue := "Eden Gardens";
     format := T20;
     tournament := t;
     seriesContext := s |}.

Definition friendly : PredictionInput :=
  matchWith (Some "Friendly T20") None.

Definition worldCupFinal : PredictionInput :=
  matchWith (Some "ICC World Cup Final") None.

(** "semi" occurs in the tournament text only. *)
Definition semiTournament : PredictionInput :=
  matchWith (Some "Asia Cup Semi 1") None.

(** Distinct keys [k], [kk], [kkk], ... *)
Fixpoint unaryKey (n : nat) : string :=
  match n with
  | O => "k"
  | S m => String "k" (unaryKey m)
  end.

Definition sample : FastPredictionResult := generateBasicFallback friendly 0.

(** Insertions under [n] distinct keys. *)
Definition distinctPuts (n : nat) : list CacheOp :=
  map (fun i => OpPut (unaryKey i) sample) (seq 0 n).

(** A features provider for a format without draws. *)
Definition enhancedZeroDraw : ComprehensivePrediction :=
  {| enhancedTeam1WinProb := 0.65;
     enhancedTeam2WinProb := 0.35;
     enhancedDrawProb := 0;
     confidenceLevel := 0.85;
     enhancedModelVersion := "ensemble-v2" |}.

Definition mlZeroDraw (n : nat) (i : PredictionInput) (b : BaseProbs)
  : Outcome ComprehensivePrediction := Ok enhancedZeroDraw.

(** A cache whose only entry was stored at time 0, read by a clock
    that is already ten minutes ahead. *)
Definition staleEntry : CacheEntry := {| result := sample; timestamp := 0 |}.

Definition staleState : PState :=
  {| predictionCache := [("k", staleEntry)]; tick := 0 |}.

(** A fast-tier request for a match of the team [unaryKey n]. *)
Definition teamMatch (n : nat) : PredictionInput :=
  {| team1Id := unaryKey n;
     team2Id := "cricket_australia";
     venue := "Eden Gardens";
     format := T20;
     tournament := Some "Friendly T20";
     seriesContext := None |}.

(** Fast predictions for [n] different teams. *)
Definition distinctCalls (n : nat) : list ApiCall :=
  map (fun i => CallFast (teamMatch i)) (seq 0 n).

(** A request for a match of two given teams. *)
Definition pairMatch (t1 t2 : string) : PredictionInput :=
  {| team1Id := t1;
     team2Id := t2;
     venue := "Eden Gardens";
     format := T20;
     tournament := Some "Friendly T20";
     seriesContext := None |}.

End Scenario.

(** ** Fixtures (shared/schema.ts, [fixtures]) *)

Module Fx.

(** A row of the [fixtures] table; [series], [externalId], [createdAt]
    and [updatedAt] are nullable. *)
Record Fixture := {
  id : string;
  sport : string;
  category : string;
  series : option string;
  team1 : string;
  team2 : string;
  venue : string;
  date : string;
  time : string;
  status : string;
  tournament : string;
  externalId : option string;
  createdAt : option Z;
  updatedAt : option Z
}.

End Fx.

(** [`${n}`] for a non-negative integer. *)
Definition decimal (n : nat) : string :=
  NilZero.string_of_uint (Nat.to_uint n).

(** ** Dashboard statistics (server/routes.ts, GET /api/dashboard/stats) *)

Module Dashboard.

Record Stats := {
  totalFixtures : Z;
  liveMatches : Z;
  upcomingMatches : Z;
  completedMatches : Z;
  cricketFixtures : Z;
  tennisFixtures : Z;
  lastUpdated : string
}.

(** [allFixtures.filter(p).length] *)
Definition countWhere (p : Fx.Fixture -> bool) (l : list Fx.Fixture) : Z :=
  Z.of_nat (List.length (filter p l)).

(** The object bound to [stats]; [isoNow] is [new Date().toISOString()]. *)
Definition stats (allFixtures : list Fx.Fixture) (isoNow : string) : Stats :=
  {| totalFixtures := Z.of_nat (List.length allFixtures);
     liveMatches :=
       countWhere (fun f => String.eqb (Fx.status f) "live") allFixtures;
     upcomingMatches :=
       countWhere (fun f => String.eqb (Fx.status f) "upcoming") allFixtures;
     completedMatches :=
       countWhere (fun f => String.eqb (Fx.status f) "completed") allFixtures;
     cricketFixtures :=
       countWhere (fun f => String.eqb (Fx.sport f) "cricket") allFixtures;
     tennisFixtures :=
       countWhere (fun f => String.eqb (Fx.sport f) "tennis") allFixtures;
     lastUpdated := isoNow |}.

(** What the handler sends. *)
Inductive Response :=
| Json (s : Stats)
| Failed (code : Z) (error : string).

(** The handler, given what [storage.getFixtures()] resolves to. *)
Definition statsRoute (getFixtures : Outcome (list Fx.Fixture))
    (isoNow : string) : Response :=
  match getFixtures with
  | Ok allFixtures => Json (stats allFixtures isoNow)
  | Throw _ => Failed 500 "Failed to fetch stats"
  end.

(** A status the dashboard counts. *)
Definition countedStatus (f : Fx.Fixture) : bool :=
  String.eqb (Fx.status f) "live" || String.eqb (Fx.status f) "upcoming"
  || String.eqb (Fx.status f) "completed".

End Dashboard.

(** ** Request logging (server/index.ts, the logging middleware) *)

Module RequestLog.

(** A JavaScript string as its UTF-16 code units: the log line is cut
    by length and closed with U+2026, which is one code unit. *)
Definition CodeUnits := list N.

Definition ofText (s : string) : CodeUnits :=
  map N_of_ascii (list_ascii_of_string s).

(** ["…"] *)
Definition ellipsis : CodeUnits := [8230%N].

(** [s.startsWith(p)] *)
Fixpoint startsWith (s p : CodeUnits) : bool :=
  match p, s with
  | [], _ => true
  | _ :: _, [] => false
  | a :: p', b :: s' => N.eqb a b && startsWith s' p'
  end.

(** The line before it is cut: the method, path, status code and
    duration as the template renders them, and [JSON.stringify] of the
    captured body when a truthy body was sent. *)
Definition fullLine (method path statusCode duration : CodeUnits)
    (captured : option CodeUnits) : CodeUnits :=
  let logLine :=
    (method ++ ofText " " ++ path ++ ofText " " ++ statusCode
     ++ ofText " in " ++ duration ++ ofText "ms")%list in
  match captured with
  | Some body => (logLine ++ ofText " :: " ++ body)%list
  | None => logLine
  end.

(** [if (logLine.length > 80) logLine = logLine.slice(0, 79) + "…"] *)
Definition clip (logLine : CodeUnits) : CodeUnits :=
  if (80 <? List.length logLine)%nat
  then (firstn 79 logLine ++ ellipsis)%list
  else logLine.

(** What the [finish] listener passes to [log], if anything. *)
Definition logged (method path statusCode duration : CodeUnits)
    (captured : option CodeUnits) : option CodeUnits :=
  if startsWith path (ofText "/api")
  then Some (clip (fullLine method path statusCode duration captured))
  else None.

End RequestLog.

(** ** The sports API service (class [ApiSportsService]) *)

Module Sports.

(** The fields of [EntitySportMatch] the service reads; every object
    and every text read through [?.] or [||] may be absent.  [mid],
    the match number of the EntitySport API, is read only to be
    printed. *)
Module Competition.
Record t := {
  category : option string;
  title : option string;
  abbr : option string
}.
End Competition.

Module Team.
Record t := { title : option string; abbr : option string }.
End Team.

Module Venue.
Record t := { name : option string }.
End Venue.

Record EntitySportMatch := {
  mid : JS.Number;
  competition : option Competition.t;
  date_start : string;
  status : string;
  teama : option Team.t;
  teamb : option Team.t;
  venue : option Venue.t
}.

(** What the service takes from its surroundings: the clock, the
    calendar arithmetic of [Date], the case conversion and the number
    printing of the host, the prototype chain of object literals, the
    EntitySport client and the prediction service. *)
Record Env := {
  (** [s.toLowerCase()] *)
  toLowerCase : string -> string;
  (** [`${n}`] and [n.toString()] of a number, which are the same
      text ([1e+21] from ten to the 21 on, a fraction part when the
      number is not whole, [NaN], ...). *)
  numberText : JS.Number -> string;
  (** [new Date()] at the n-th reading of the clock. *)
  newDate : nat -> Z;
  (** The instant moved by so many days with [setDate], then
      [toISOString().split('T')[0]]. *)
  dayText : Z -> Z -> string;
  (** [new Date(s).toISOString().split('T')[0]]; [None] when [s] is
      not a date, where [toISOString] throws a [RangeError]. *)
  isoDateOf : string -> option string;
  (** [new Date(s).toTimeString().slice(0, 5)] *)
  timeOfDay : string -> string;
  (** The text names a property every object literal inherits
      ([constructor], [toString], ...). *)
  inherited : string -> bool;
  (** [entitySportService.getUpcomingMatches()] *)
  getUpcomingMatches : Outcome (list EntitySportMatch);
  (** [predictionService.enhanceFixtureWithPredictions(fixture)] *)
  enhanceFixtureWithPredictions : Fx.Fixture -> Outcome Fx.Fixture
}.

(** [o?.f] *)
Definition opt {A B : Type} (o : option A) (f : A -> option B) : option B :=
  match o with
  | Some a => f a
  | None => None
  end.

(** Truthiness of an optional text: [undefined] and [""] are falsy. *)
Definition truthyText (x : option string) : bool :=
  match x with
  | None => false
  | Some EmptyString => false
  | Some _ => true
  end.

(** [a || b] on optional texts. *)
Definition orElse (a b : option string) : option string :=
  if truthyText a then a else b.

(** [a || 'literal'] *)
Definition orText (a : option string) (d : string) : string :=
  match orElse a (Some d) with
  | Some s => s
  | None => d
  end.

(** [x === 'literal'] on an optional text. *)
Definition isText (x : option string) (s : string) : bool :=
  match x with
  | Some t => String.eqb t s
  | None => false
  end.

(** The category chosen for a match. *)
Definition categoryOf (env : Env) (m : EntitySportMatch) : string :=
  if truthyText (opt (competition m) Competition.category) then
    match competition m with
    | Some c =>
        if isText (Competition.category c) "domestic" then "domestic"
        else if JS.truthy
                  (JS.orOpt
                     (optIncludes (toLowerCase env) (Competition.title c)
                        "t20")
                     (optIncludes (toLowerCase env) (Competition.abbr c)
                        "t20"))
        then "t20"
        else "international"
    | None => "international"
    end
  else "international".

(** The status chosen for a match. *)
Definition statusOf (m : EntitySportMatch) : string :=
  if String.eqb (status m) "live" then "live"
  else if String.eqb (status m) "result" then "completed"
  else "upcoming".

(** The object the [map] callback returns for [m], given the two texts
    computed from its date and the two clock readings. *)
Definition toFixture (env : Env) (m : EntitySportMatch) (date time : string)
    (created updated : Z) : Fx.Fixture :=
  {| Fx.id := "entitysport_" ++ numberText env (mid m);
     Fx.sport := "cricket";
     Fx.category := categoryOf env m;
     Fx.series :=
       Some (orText (opt (competition m) Competition.title) "Unknown Series");
     Fx.team1 :=
       orText (orElse (opt (teama m) Team.title) (opt (teama m) Team.abbr))
         "Team A";
     Fx.team2 :=
       orText (orElse (opt (teamb m) Team.title) (opt (teamb m) Team.abbr))
         "Team B";
     Fx.venue := orText (opt (venue m) Venue.name) "Unknown Venue";
     Fx.date := date;
     Fx.time := time;
     Fx.status := statusOf m;
     Fx.tournament :=
       orText (orElse (opt (competition m) Competition.abbr)
                      (opt (competition m) Competition.title))
         "Unknown Tournament";
     Fx.externalId := Some (numberText env (mid m));
     Fx.createdAt := Some created;
     Fx.updatedAt := Some updated |}.

Section Service.

Variable env : Env.

(** [convertEntitySportMatchesToFixtures(entityMatches)], reading the
    clock from reading [t] on; the second component is the next
    reading.  The callback of a match whose date is invalid throws, and
    so does the whole [map]. *)
Fixpoint convertEntitySportMatchesToFixtures (t : nat)
    (entityMatches : list EntitySportMatch)
  : Outcome (list Fx.Fixture) * nat :=
  match entityMatches with
  | [] => (Ok [], t)
  | m :: rest =>
      match isoDateOf env (date_start m) with
      | None => (Throw "RangeError: Invalid time value", t)
      | Some d =>
          let f := toFixture env m d (timeOfDay env (date_start m))
                     (newDate env t) (newDate env (S t)) in
          match convertEntitySportMatchesToFixtures (S (S t)) rest with
          | (Ok fs, t') => (Ok (f :: fs), t')
          | (Throw e, t') => (Throw e, t')
          end
      end
  end.

(** [table[key]] on an object literal: an own property, a property of
    the prototype, or [undefined]. *)
Inductive Lookup (A : Type) :=
| Own (a : A)
| Inherited
| Missing.
Arguments Own {A} a.
Arguments Inherited {A}.
Arguments Missing {A}.

Definition lookup {A : Type} (table : JS.Map A) (key : string) : Lookup A :=
  match JS.mapGet key table with
  | Some a => Own a
  | None => if inherited env key then Inherited else Missing
  end.

(** [list[i % list.length]] *)
Definition cyclic {A : Type} (d : A) (l : list A) (i : nat) : A :=
  nth (i mod List.length l) l d.

Definition cricketTeams : JS.Map (list (string * string)) :=
  [("international",
    [("India", "Australia"); ("England", "New Zealand");
     ("Pakistan", "South Africa"); ("Bangladesh", "Sri Lanka");
     ("West Indies", "Afghanistan")]);
   ("domestic",
    [("Mumbai Indians", "Chennai Super Kings");
     ("Royal Challengers", "Delhi Capitals");
     ("Yorkshire", "Lancashire"); ("Victoria", "New South Wales")]);
   ("t20",
    [("Barbados Royals", "Guyana Amazon Warriors");
     ("Jamaica Tallawahs", "St Lucia Kings");
     ("Melbourne Stars", "Sydney Sixers");
     ("Perth Scorchers", "Adelaide Strikers")])].

Definition cricketVenues : list string :=
  ["Lord's Cricket Ground"; "Eden Gardens"; "MCG"; "Oval";
   "Wankhede Stadium"; "Old Trafford"; "Headingley"; "WACA"].

Definition cricketTournaments : JS.Map (list string) :=
  [("international", ["Test Championship"; "ODI Series"; "T20I Series"]);
   ("domestic", ["IPL"; "County Championship"; "Sheffield Shield"]);
   ("t20", ["CPL"; "BBL"; "Vitality Blast"; "IPL"])].

(** [table[category] || table.fallback], for tables of arrays: an own
    array or the fallback array; [None] when the key names an
    inherited property, which is truthy and is not an array. *)
Definition orDefault {A : Type} (table : JS.Map A) (category fallback : string)
    (d : A) : option A :=
  match lookup table category with
  | Own a => Some a
  | Inherited => None
  | Missing =>
      match JS.mapGet fallback table with
      | Some a => Some a
      | None => Some d
      end
  end.

(** The object pushed in round [i] of [generateMockCricketFixtures]. *)
Definition mockCricketFixture (t : nat) (category : string)
    (categoryTeams : list (string * string))
    (categoryTournaments : list string) (i : nat) : Fx.Fixture :=
  let teamPair := cyclic ("", "") categoryTeams i in
  let date := newDate env (t + 3 * i) in
  let shown :=
    dayText env date (if (i <? 3)%nat then 0 else Z.of_nat i - 2) in
  let tournamentName := cyclic "" categoryTournaments i in
  {| Fx.id := "cricket_" ++ category ++ "_" ++ decimal i;
     Fx.sport := "cricket";
     Fx.category := category;
     Fx.series :=
       Some (fst teamPair ++ " vs " ++ snd teamPair ++ " " ++ tournamentName
             ++ " Series 2024");
     Fx.team1 := fst teamPair;
     Fx.team2 := snd teamPair;
     Fx.venue := cyclic "" cricketVenues i;
     Fx.date := shown;
     Fx.time := decimal (14 + i mod 6) ++ ":00";
     Fx.status := if (i =? 0)%nat then "live" else "upcoming";
     Fx.tournament := tournamentName;
     Fx.externalId := Some ("ext_cricket_" ++ decimal i);
     Fx.createdAt := Some (newDate env (t + 3 * i + 1));
     Fx.updatedAt := Some (newDate env (t + 3 * i + 2)) |}.

(** [generateMockCricketFixtures(category)].  A category that names an
    inherited property selects a value without elements: the first
    round reads the clock once and throws on [teamPair.team1]. *)
Definition generateMockCricketFixtures (t : nat) (category : string)
  : Outcome (list Fx.Fixture) * nat :=
  match orDefault cricketTeams category "international" [],
        orDefault cricketTournaments category "international" [] with
  | Some categoryTeams, Some categoryTournaments =>
      (Ok (map (mockCricketFixture t category categoryTeams
                  categoryTournaments) (seq 0 8)),
       t + 24)%nat
  | _, _ =>
      (Throw "TypeError: Cannot read properties of undefined", S t)
  end.

Definition tennisPlayers : JS.Map (list (string * string)) :=
  [("atp",
    [("Novak Djokovic", "Rafael Nadal"); ("Carlos Alcaraz", "Jannik Sinner");
     ("Daniil Medvedev", "Alexander Zverev");
     ("Stefanos Tsitsipas", "Taylor Fritz")]);
   ("wta",
    [("Iga Swiatek", "Aryna Sabalenka"); ("Coco Gauff", "Jessica Pegula");
     ("Elena Rybakina", "Ons Jabeur"); ("Caroline Garcia", "Petra Kvitova")]);
   ("itf",
    [("Alex Johnson", "Maria Rodriguez"); ("David Chen", "Sophie Williams");
     ("Luis Martinez", "Anna Kowalski"); ("Tom Anderson", "Lisa Zhang")])].

Definition tennisVenues : list string :=
  ["Centre Court"; "Arthur Ashe Stadium"; "Court Philippe-Chatrier";
   "Rod Laver Arena"; "Court Central"; "Stadium 1"; "Court 1"; "Grandstand"].

Definition tennisTournaments : JS.Map (list string) :=
  [("atp", ["ATP Masters 1000"; "ATP 500"; "ATP 250"; "Grand Slam"]);
   ("wta", ["WTA 1000"; "WTA 500"; "WTA 250"; "Grand Slam"]);
   ("itf", ["ITF Men's"; "ITF Women's"; "ITF Junior"; "ITF Futures"])].

(** The object pushed in round [i] of [generateMockTennisFixtures]. *)
Definition mockTennisFixture (t : nat) (category : string)
    (categoryPlayers : list (string * string))
    (categoryTournaments : list string) (i : nat) : Fx.Fixture :=
  let playerPair := cyclic ("", "") categoryPlayers i in
  let date := newDate env (t + 3 * i) in
  let tournamentName := cyclic "" categoryTournaments i in
  {| Fx.id := "tennis_" ++ category ++ "_" ++ decimal i;
     Fx.sport := "tennis";
     Fx.category := category;
     Fx.series := Some (tournamentName ++ " 2024");
     Fx.team1 := fst playerPair;
     Fx.team2 := snd playerPair;
     Fx.venue := cyclic "" tennisVenues i;
     Fx.date := dayText env date (Z.of_nat i);
     Fx.time := decimal (12 + i mod 8) ++ ":00";
     Fx.status := if (i =? 0)%nat then "live" else "upcoming";
     Fx.tournament := tournamentName;
     Fx.externalId := Some ("ext_tennis_" ++ decimal i);
     Fx.createdAt := Some (newDate env (t + 3 * i + 1));
     Fx.updatedAt := Some (newDate env (t + 3 * i + 2)) |}.

(** [generateMockTennisFixtures(category)] *)
Definition generateMockTennisFixtures (t : nat) (category : string)
  : Outcome (list Fx.Fixture) * nat :=
  match orDefault tennisPlayers category "atp" [],
        orDefault tennisTournaments category "atp" [] with
  | Some categoryPlayers, Some categoryTournaments =>
      (Ok (map (mockTennisFixture t category categoryPlayers
                  categoryTournaments) (seq 0 6)),
       t + 18)%nat
  | _, _ =>
      (Throw "TypeError: Cannot read properties of undefined", S t)
  end.

(** [fetchTennisFixtures(category)] *)
Definition fetchTennisFixtures (t : nat) (category : string)
  : Outcome (list Fx.Fixture) * nat :=
  generateMockTennisFixtures t category.

(** The callback mapped over the filtered fixtures: the enhanced
    fixture, or the fixture itself when the enhancement throws. *)
Definition enhanceOrKeep (fixture : Fx.Fixture) : Fx.Fixture :=
  match enhanceFixtureWithPredictions env fixture with
  | Ok enhanced => enhanced
  | Throw _ => fixture
  end.

(** The outer [try] block of [fetchCricketFixtures].  The two services
    are constructed at its start; a throw there has the effect of a
    throw of [getUpcomingMatches]: control moves to the [catch]
    block.  What is written to the console is left out. *)
Definition fetchCricketAttempt (t : nat) (category : string)
  : Outcome (list Fx.Fixture) * nat :=
  match getUpcomingMatches env with
  | Throw e => (Throw e, t)
  | Ok entityMatches =>
      match convertEntitySportMatchesToFixtures t entityMatches with
      | (Throw e, t') => (Throw e, t')
      | (Ok allFixtures, t') =>
          let filteredFixtures :=
            if String.eqb category "all" then allFixtures
            else filter (fun fixture =>
                           String.eqb (Fx.category fixture) category)
                   allFixtures in
          if (0 <? List.length filteredFixtures)%nat
          then (Ok (map enhanceOrKeep filteredFixtures), t')
          else generateMockCricketFixtures t' category
      end
  end.

(** [fetchCricketFixtures(category)]: the attempt, and the mock
    fixtures when it throws. *)
Definition fetchCricketFixtures (t : nat) (category : string)
  : Outcome (list Fx.Fixture) * nat :=
  match fetchCricketAttempt t category with
  | (Ok fixtures, t') => (Ok fixtures, t')
  | (Throw _, t') => generateMockCricketFixtures t' category
  end.

End Service.

End Sports.

(** ** The dashboard pages (client: [TodaysMatches], [FixtureCard]) *)

Module Client.

(** [getTodaysMatches()], with [todayStr] the date text of today. *)
Definition getTodaysMatches (todayStr : string)
    (allFixtures : list Fx.Fixture) : list Fx.Fixture :=
  filter (fun fixture =>
            let isToday := String.eqb (Fx.date fixture) todayStr in
            let isUpcomingOrLive :=
              String.eqb (Fx.status fixture) "upcoming"
              || String.eqb (Fx.status fixture) "live" in
            isToday && isUpcomingOrLive)
    allFixtures.

Definition cricketMatches (todaysMatches : list Fx.Fixture)
  : list Fx.Fixture :=
  filter (fun f => String.eqb (Fx.sport f) "cricket") todaysMatches.

Definition tennisMatches (todaysMatches : list Fx.Fixture)
  : list Fx.Fixture :=
  filter (fun f => String.eqb (Fx.sport f) "tennis") todaysMatches.

(** The [format] of the quick-prediction request. *)
Definition quickFormat (category : string) : Format :=
  if String.eqb category "t20" then T20
  else if String.eqb category "international" then ODI
  else T20.

(** The fields of [predictionInput] the predictor reads; [slug] is
    [s => s.toLowerCase().replace(/\s+/g, '_')]. *)
Definition quickPredictInput (slug : string -> string)
    (fixture : Fx.Fixture) : PredictionInput :=
  {| team1Id := Fx.sport fixture ++ "_" ++ slug (Fx.team1 fixture);
     team2Id := Fx.sport fixture ++ "_" ++ slug (Fx.team2 fixture);
     venue := Fx.venue fixture;
     format := quickFormat (Fx.category fixture);
     tournament := Some (Fx.tournament fixture);
     seriesContext := Fx.series fixture |}.

End Client.

(** ** A concrete setting for the sports API service *)

Module SportsScenario.

Definition league : Sports.Competition.t :=
  {| Sports.Competition.category := Some "domestic";
     Sports.Competition.title := Some "Indian T20 League";
     Sports.Competition.abbr := Some "IPL" |}.

Definition upstreamMatch (n : Z) (start : string)
  : Sports.EntitySportMatch :=
  {| Sports.mid := JS.Finite (inject_Z n);
     Sports.competition := Some league;
     Sports.date_start := start;
     Sports.status := "live";
     Sports.teama := None;
     Sports.teamb :=
       Some {| Sports.Team.title := Some ""; Sports.Team.abbr := Some "CSK" |};
     Sports.venue := None |}.

(** The text of a whole number from 0 on that has fewer than 22
    digits, which is all the match ids of this setting are: its
    decimal digits. *)
Definition wholeNumberText (x : JS.Number) : string :=
  match x with
  | JS.Finite q => decimal (Z.to_nat (Qnum q / Zpos (Qden q)))
  | JS.NaN => "NaN"
  | JS.Infinity negative => if negative then "-Infinity" else "Infinity"
  end.

(** A runtime in which every text is made of ASCII characters, the
    text [""] is the only invalid date, the only inherited name asked
    about is [constructor], and the prediction service is down. *)
Definition envWith (upstream : Outcome (list Sports.EntitySportMatch))
  : Sports.Env :=
  {| Sports.toLowerCase := JS.lowerAsciiText;
     Sports.numberText := wholeNumberText;
     Sports.newDate := fun n => 1000 * Z.of_nat n;
     Sports.dayText := fun _ k => String.append "day+" (decimal (Z.to_nat k));
     Sports.isoDateOf :=
       fun s => if String.eqb s "" then None else Some s;
     Sports.timeOfDay := fun _ => "10:00";
     Sports.inherited := fun k => String.eqb k "constructor";
     Sports.getUpcomingMatches := upstream;
     Sports.enhanceFixtureWithPredictions :=
       fun _ => Throw "prediction service unavailable" |}.

Definition twoMatches : list Sports.EntitySportMatch :=
  [upstreamMatch 101 "2024-05-01 14:00:00";
   upstreamMatch 102 "2024-05-02 14:00:00"].

Definition oneBadDate : list Sports.EntitySportMatch :=
  [upstreamMatch 101 "2024-05-01 14:00:00"; upstreamMatch 102 ""].

End SportsScenario.

(** ** The class, over its collaborators *)

Section Predictor.

(** [s.toLowerCase()] *)
Variable toLowerCase : JS.CaseConversion.

(** [Date.now()] at the n-th external interaction. *)
Variable dateNow : nat -> Z.

(** [eloService.calculateWinProbability(team1Id, team2Id, format)]
    when called as the n-th external interaction. *)
Variable calculateWinProbability :
  nat -> string -> string -> Format -> Outcome EloResult.

(** [mlService.generateEnhancedPrediction(storage, input, base)]
    when called as the n-th external interaction. *)
Variable generateEnhancedPrediction :
  nat -> PredictionInput -> BaseProbs -> Outcome ComprehensivePrediction.

Local Open Scope pred_scope.

Definition DateNow : M Z :=
  fun s => (Ok (dateNow (tick s)), advance s).

Definition callElo (a b : string) (f : Format) : M EloResult :=
  fun s => (calculateWinProbability (tick s) a b f, advance s).

Definition callMl (input : PredictionInput) (base : BaseProbs)
  : M ComprehensivePrediction :=
  fun s => (generateEnhancedPrediction (tick s) input base, advance s).

Definition readCache : M Cache := fun s => (Ok (predictionCache s), s).

Definition writeCache (c : Cache) : M unit :=
  fun s => (Ok tt, withCache c s).

(** [getCachedPrediction(key)] *)
Definition getCachedPrediction (key : string)
  : M (option FastPredictionResult) :=
  c <- readCache ;;
  match JS.mapGet key c with
  | Some cached =>
      now <- DateNow ;;
      if now - timestamp cached <? CACHE_TTL
      then ret (Some (markFromCache (result cached)))
      else ret None
  | None => ret None
  end.

(** [cacheResult(key, result)] *)
Definition cacheResult (key : string) (r : FastPredictionResult) : M unit :=
  now <- DateNow ;;
  c <- readCache ;;
  writeCache (cacheResultAt key r now c).

(** The [try] block of [generateFastPrediction]. *)
Definition fastAttempt (input : PredictionInput) (cacheKey : string)
    (startTime : Z) : M FastPredictionResult :=
  eloResult <- callElo (team1Id input) (team2Id input) (format input) ;;
  t <- DateNow ;;
  let r := fastResult input eloResult (t - startTime) in
  cacheResult cacheKey r ;;;
  ret r.

(** [generateFastPrediction] after its cache check missed: read
    [startTime], run the [try] block, and on a throw return the
    static fallback. *)
Definition fastCompute (input : PredictionInput) (cacheKey : string)
  : M FastPredictionResult :=
  startTime <- DateNow ;;
  tryCatch (fastAttempt input cacheKey startTime)
           (fun _ =>
              t <- DateNow ;;
              ret (generateBasicFallback input (t - startTime))).

(** [generateFastPrediction(storage, input)] *)
Definition generateFastPrediction (input : PredictionInput)
  : M FastPredictionResult :=
  let cacheKey := fastKey input in
  cached <- getCachedPrediction cacheKey ;;
  match cached with
  | Some r => ret r
  | None => fastCompute input cacheKey
  end.

(** The [try] block of [generateBalancedPrediction]. *)
Definition balancedAttempt (input : PredictionInput) (cacheKey : string)
    (startTime : Z) : M FastPredictionResult :=
  baseProbs <- callElo (team1Id input) (team2Id input) (format input) ;;
  enhancedResult <-
    callMl input {| team1 := eloTeam1WinProb baseProbs;
                    team2 := eloTeam2WinProb baseProbs;
                    draw := eloDrawProb baseProbs |} ;;
  t <- DateNow ;;
  let r := balancedResult input enhancedResult (t - startTime) in
  cacheResult cacheKey r ;;;
  ret r.

(** [generateBalancedPrediction] after its cache check missed: read
    [startTime], run the [try] block, and on a throw hand over to the
    fast tier. *)
Definition balancedCompute (input : PredictionInput) (cacheKey : string)
  : M FastPredictionResult :=
  startTime <- DateNow ;;
  tryCatch (balancedAttempt input cacheKey startTime)
           (fun _ => generateFastPrediction input).

(** [generateBalancedPrediction(storage, input)] *)
Definition generateBalancedPrediction (input : PredictionInput)
  : M FastPredictionResult :=
  let cacheKey := balancedKey input in
  cached <- getCachedPrediction cacheKey ;;
  match cached with
  | Some r => ret r
  | None => balancedCompute input cacheKey
  end.

(** [generateSmartPrediction(storage, input, timeConstraint)] *)
Definition generateSmartPrediction (input : PredictionInput)
    (timeConstraint : TimeConstraint) : M FastPredictionResult :=
  match timeConstraint with
  | TCFast => generateFastPrediction input
  | TCAccurate => generateBalancedPrediction input
  | TCBalanced =>
      if isImportantMatch toLowerCase input
      then generateBalancedPrediction input
      else generateFastPrediction input
  end.

(** [predict(storage, input, mode)]; [generateSmartPrediction] is
    called without a time constraint, so its default ['balanced']
    applies. *)
Definition predict (input : PredictionInput) (mode : Mode)
  : M FastPredictionResult :=
  match mode with
  | ModeFast => generateFastPrediction input
  | ModeBalanced => generateBalancedPrediction input
  | ModeSmart => generateSmartPrediction input TCBalanced
  end.

(** [clearCache()] *)
Definition clearCache : M unit := writeCache [].

(** [getCacheStats()] *)
Definition getCacheStats : M CacheStats :=
  c <- readCache ;;
  ret {| size := JS.mapSize c; hitRate := 0.85 |}.

(** *** Running a history of cache operations *)

Definition stepOp (op : CacheOp) : M unit :=
  match op with
  | OpGet key => getCachedPrediction key ;;; ret tt
  | OpPut key r => cacheResult key r
  | OpClear => clearCache
  end.

Fixpoint runOps (ops : list CacheOp) (s : PState) : PState :=
  match ops with
  | [] => s
  | op :: ops' => runOps ops' (snd (stepOp op s))
  end.

(** A sequence of insertions only. *)
Definition insertAll (ins : list (string * FastPredictionResult))
    (s : PState) : PState :=
  runOps (map (fun kr => OpPut (fst kr) (snd kr)) ins) s.

(** Run a history whose first operation has index [n], keeping next to
    the state the insertion index of every key that is present. *)
Fixpoint runHistory (ops : list CacheOp) (n : nat) (s : PState)
    (b : Births) : PState * Births :=
  match ops with
  | [] => (s, b)
  | op :: ops' =>
      let s' := snd (stepOp op s) in
      runHistory ops' (S n) s'
        (stepBirths n (predictionCache s) (predictionCache s') b)
  end.

(** *** Vocabulary for the statements about the tiers *)

(** The rating provider throws at every interaction from [t] on. *)
Definition ratingsDownFrom (t : nat) : Prop :=
  forall n a b f, (t <= n)%nat ->
    exists e, calculateWinProbability n a b f = Throw e.

(** No entry stored under [key] is served at any clock reading taken
    from interaction [t] on: the key is absent, or its entry has
    expired at each of those readings. *)
Definition notServedFrom (t : nat) (key : string) (c : Cache) : Prop :=
  forall n, (t <= n)%nat -> lookupAt key (dateNow n) c = None.

(** The two tiers that own a cache key. *)
Inductive Tier := FastTier | BalancedTier.

Definition tierKey (t : Tier) (input : PredictionInput) : string :=
  match t with
  | FastTier => fastKey input
  | BalancedTier => balancedKey input
  end.

Definition runTier (t : Tier) (input : PredictionInput)
  : M FastPredictionResult :=
  match t with
  | FastTier => generateFastPrediction input
  | BalancedTier => generateBalancedPrediction input
  end.

(** What a tier does once its cache check has missed. *)
Definition tierCompute (t : Tier) (input : PredictionInput)
  : M FastPredictionResult :=
  match t with
  | FastTier => fastCompute input (fastKey input)
  | BalancedTier => balancedCompute input (balancedKey input)
  end.

(** The tier [predict] hands the request to. *)
Definition tierOf (mode : Mode) (input : PredictionInput) : Tier :=
  match mode with
  | ModeFast => FastTier
  | ModeBalanced => BalancedTier
  | ModeSmart =>
      if isImportantMatch toLowerCase input then BalancedTier else FastTier
  end.

(** *** Running the public operations *)

Definition runCall (c : ApiCall) : M unit :=
  match c with
  | CallFast input => generateFastPrediction input ;;; ret tt
  | CallBalanced input => generateBalancedPrediction input ;;; ret tt
  | CallSmart input tc => generateSmartPrediction input tc ;;; ret tt
  | CallPredict input mode => predict input mode ;;; ret tt
  | CallClear => clearCache
  | CallStats => getCacheStats ;;; ret tt
  end.

(** The state a predictor is in after a sequence of calls. *)
Fixpoint runCalls (cs : list ApiCall) (s : PState) : PState :=
  match cs with
  | [] => s
  | c :: cs' => runCalls cs' (snd (runCall c s))
  end.

(** What holds of the cache of every predictor in use: entries come
    from the tier that owns their key, keys are distinct, and the size
    is within capacity. *)
Definition cacheInvariant (s : PState) : Prop :=
  cacheProvenance (predictionCache s)
  /\ NoDup (JS.mapKeys (predictionCache s))
  /\ JS.mapSize (predictionCache s) <= CACHE_CAPACITY.


(** * Properties *)

(** ** The [Map] model *)

Section MapFacts.
Import JS.
Context {V : Type}.
Implicit Types (m : Map V) (k : string) (v : V).

Lemma mapGet_mapSet_same k v m : mapGet k (mapSet k v m) = Some v.
Proof.
  induction m as [|[k' v'] m IH]; simpl.
  - now rewrite String.eqb_refl.
  - destruct (String.eqb k k') eqn:E; simpl; rewrite E; auto.
Qed.

Lemma mapGet_mapSet_other k k' v m :
  k <> k' -> mapGet k (mapSet k' v m) = mapGet k m.
Proof.
  intros Hne. induction m as [|[k0 v0] m IH]; simpl.
  - apply String.eqb_neq in Hne. now rewrite Hne.
  - destruct (String.eqb k' k0) eqn:E; simpl.
    + apply String.eqb_eq in E. subst k0.
      apply String.eqb_neq in Hne. now rewrite Hne.
    + now rewrite IH.
Qed.

Lemma mapGet_mapDelete_other k k' m :
  k <> k' -> mapGet k (mapDelete k' m) = mapGet k m.
Proof.
  intros Hne. induction m as [|[k0 v0] m IH]; simpl; auto.
  destruct (String.eqb k' k0) eqn:E; simpl.
  - apply String.eqb_eq in E. subst k0.
    apply String.eqb_neq in Hne. now rewrite Hne.
  - now rewrite IH.
Qed.

Lemma mapGet_mapDelete_same k m : mapGet k (mapDelete k m) = None.
Proof.
  induction m as [|[k0 v0] m IH]; simpl; auto.
  destruct (String.eqb k k0) eqn:E; simpl; auto. now rewrite E.
Qed.

Lemma mapGet_None_notin k m :
  mapGet k m = None <-> ~ In k (mapKeys m).
Proof.
  induction m as [|[k0 v0] m IH]; simpl.
  - tauto.
  - destruct (String.eqb k k0) eqn:E.
    + apply String.eqb_eq in E. subst. split; [discriminate | tauto].
    + apply String.eqb_neq in E. rewrite IH. split.
      * intros H [H1|H1]; [congruence | tauto].
      * tauto.
Qed.

Lemma mapHas_true_in k m : mapHas k m = true <-> In k (mapKeys m).
Proof.
  unfold mapHas. destruct (mapGet k m) eqn:E.
  - split; auto. intros _.
    destruct (in_dec string_dec k (mapKeys m)) as [H|H]; auto.
    apply mapGet_None_notin in H. congruence.
  - split; [discriminate|]. intros H.
    apply mapGet_None_notin in E. contradiction.
Qed.

Lemma mapHas_false_notin k m : mapHas k m = false <-> ~ In k (mapKeys m).
Proof.
  rewrite <- mapHas_true_in. destruct (mapHas k m); split; congruence.
Qed.

(** [set] on a present key keeps the keys and their order. *)
Lemma mapKeys_mapSet_present k v m :
  In k (mapKeys m) -> mapKeys (mapSet k v m) = mapKeys m.
Proof.
  induction m as [|[k0 v0] m IH]; simpl; [tauto|].
  intros [H|H].
  - subst. now rewrite String.eqb_refl.
  - destruct (String.eqb k k0); simpl; auto. now rewrite IH.
Qed.

(** [set] on an absent key appends it. *)
Lemma mapKeys_mapSet_absent k v m :
  ~ In k (mapKeys m) -> mapKeys (mapSet k v m) = (mapKeys m ++ [k])%list.
Proof.
  induction m as [|[k0 v0] m IH]; simpl; auto.
  intros H. destruct (String.eqb k k0) eqn:E.
  - apply String.eqb_eq in E. subst. tauto.
  - simpl. rewrite IH; tauto.
Qed.

Lemma mapKeys_mapDelete k m :
  mapKeys (mapDelete k m)
  = filter (fun k' => negb (String.eqb k k')) (mapKeys m).
Proof.
  induction m as [|[k0 v0] m IH]; simpl; auto.
  destruct (String.eqb k k0); simpl; now rewrite IH.
Qed.

Lemma filter_notin_id (k : string) (ks : list string) :
  ~ In k ks -> filter (fun k' => negb (String.eqb k k')) ks = ks.
Proof.
  induction ks as [|k0 ks IH]; simpl; auto.
  intros H. destruct (String.eqb k k0) eqn:E.
  - apply String.eqb_eq in E. subst. tauto.
  - simpl. rewrite IH; tauto.
Qed.

(** Deleting the first key of a map with distinct keys drops
    exactly the first entry. *)
Lemma mapKeys_mapDelete_head k ks m :
  mapKeys m = k :: ks -> ~ In k ks -> mapKeys (mapDelete k m) = ks.
Proof.
  intros Hk Hn. rewrite mapKeys_mapDelete, Hk. simpl.
  rewrite String.eqb_refl. simpl. now apply filter_notin_id.
Qed.

Lemma length_mapSet_le k v m :
  (List.length (mapSet k v m) <= S (List.length m))%nat.
Proof.
  induction m as [|[k0 v0] m IH]; simpl; auto.
  destruct (String.eqb k k0); simpl; lia.
Qed.

Lemma length_mapSet_present k v m :
  In k (mapKeys m) -> List.length (mapSet k v m) = List.length m.
Proof.
  intros H. apply (mapKeys_mapSet_present k v) in H.
  unfold mapKeys in H.
  rewrite <- (length_map fst (mapSet k v m)), H. apply length_map.
Qed.

Lemma length_mapDelete_head k v m :
  (List.length (mapDelete k ((k, v) :: m)) <= List.length m)%nat.
Proof.
  unfold mapDelete. simpl. rewrite String.eqb_refl. simpl.
  apply filter_length_le.
Qed.
End MapFacts.

(** ** The substring test *)

Lemma prefix_split (sub s : string) :
  String.prefix sub s = true <-> exists b, s = sub ++ b.
Proof.
  revert s. induction sub as [|c sub IH]; intros s.
  - split; [intros _; now exists s | intros _; destruct s; reflexivity].
  - destruct s as [|c' s]; simpl.
    + split; [discriminate | intros [b Hb]; discriminate].
    + destruct (ascii_dec c c') as [->|Hne].
      * rewrite IH. split; intros [b Hb]; exists b.
        -- now rewrite Hb.
        -- now injection Hb.
      * split; [discriminate|]. intros [b Hb]. injection Hb as Hc _.
        congruence.
Qed.

Lemma includes_unfold (s sub : string) :
  JS.includes s sub
  = if String.prefix sub s then true
    else match s with
         | EmptyString => false
         | String _ s' => JS.includes s' sub
         end.
Proof. destruct s; reflexivity. Qed.

(** [JS.includes s sub] holds exactly when [sub] occurs in [s]. *)
Lemma includes_split (s sub : string) :
  JS.includes s sub = true <-> exists a b, s = a ++ sub ++ b.
Proof.
  induction s as [|c s IH]; rewrite includes_unfold.
  - destruct (String.prefix sub "") eqn:E.
    + split; [intros _|reflexivity].
      apply prefix_split in E. destruct E as [b Hb]. now exists "", b.
    + split; [discriminate|]. intros (a & b & H).
      destruct a; [|discriminate]. simpl in H.
      assert (String.prefix sub "" = true)
        by (apply prefix_split; now exists b).
      congruence.
  - destruct (String.prefix sub (String c s)) eqn:E.
    + split; [intros _|reflexivity].
      apply prefix_split in E. destruct E as [b Hb]. now exists "", b.
    + rewrite IH. split; intros (a & b & H).
      * exists (String c a), b. simpl. now rewrite H.
      * destruct a as [|c' a]; simpl in H.
        -- assert (String.prefix sub (String c s) = true)
             by (apply prefix_split; now exists b).
           congruence.
        -- injection H as _ H. now exists a, b.
Qed.

(** ** The static fallback and the cache statistics *)

(** C8.  [generateBasicFallback] is a total function of its two
  arguments that does not look at the input: it returns the fixed
  distribution 0.52 / 0.46 / 0.02 with confidence 0.60, passes the
  elapsed time through, reports accuracy 65, which is strictly below
  the accuracy constant of the fast and of the balanced engine for
  every format, and lists the two risk factors that flag degraded
  data. *)
Theorem basic_fallback_fixed (input input' : PredictionInput) (elapsed : Z) :
let r := generateBasicFallback input elapsed in
team1WinProb r = 0.52%Q /\ team2WinProb r = 0.46%Q /\ drawProb r = 0.02%Q /\
confidence r = 0.60%Q /\
processingTimeMs r = elapsed /\
accuracy r = 65 /\
(forall f, accuracy r < fastAccuracy f /\ accuracy r < balancedAccuracy f) /\
riskFactors r = ["Limited data available"; "Fallback prediction"] /\
engineUsed r = "Basic Fallback" /\
validResult r /\
generateBasicFallback input' elapsed = r.
Proof.
cbv zeta. repeat split; try reflexivity;
  try (destruct f; simpl; lia);
  try (simpl; lra).
Qed.

(** *** What the cache operations do to the state *)

Lemma getCached_run key s :
  getCachedPrediction key s
  = match JS.mapGet key (predictionCache s) with
    | Some cached =>
        (Ok (if dateNow (tick s) - timestamp cached <? CACHE_TTL
             then Some (markFromCache (result cached)) else None),
         advance s)
    | None => (Ok None, s)
    end.
Proof.
  cbv [getCachedPrediction bind readCache DateNow ret].
  destruct (JS.mapGet key (predictionCache s)); auto.
  destruct (_ <? _); reflexivity.
Qed.

(** A read leaves the cache exactly as it was. *)
Lemma getCached_keeps_cache key s :
  predictionCache (snd (getCachedPrediction key s)) = predictionCache s.
Proof.
  rewrite getCached_run.
  destruct (JS.mapGet key (predictionCache s)); reflexivity.
Qed.

Lemma putCached_run key r s :
  cacheResult key r s
  = (Ok tt,
     {| predictionCache :=
          cacheResultAt key r (dateNow (tick s)) (predictionCache s);
        tick := S (tick s) |}).
Proof. reflexivity. Qed.

(** C10.  [getCacheStats] reads nothing but the number of entries of
    the map: the hit rate it reports is the literal 0.85 in every
    state, and the size is the count of all stored entries; an entry
    whose age has reached the TTL, which [getCachedPrediction]
    answers with [null], is still stored and still counted. *)
Theorem cache_stats_static_hit_rate (s : PState) :
  getCacheStats s
  = (Ok {| size := Z.of_nat (List.length (predictionCache s));
           hitRate := 0.85 |}, s)
  /\ forall key e,
      JS.mapGet key (predictionCache s) = Some e ->
      CACHE_TTL <= dateNow (tick s) - timestamp e ->
      fst (getCachedPrediction key s) = Ok None
      /\ predictionCache (snd (getCachedPrediction key s)) = predictionCache s
      /\ exists st, fst (getCacheStats (snd (getCachedPrediction key s))) = Ok st
                    /\ size st = Z.of_nat (List.length (predictionCache s))
                    /\ 1 <= size st.
Proof.
  split; [reflexivity|].
  intros key e Hget Hold.
  rewrite getCached_run, Hget.
  assert (Hlt : (dateNow (tick s) - timestamp e <? CACHE_TTL) = false)
    by (apply Z.ltb_ge; exact Hold).
  rewrite Hlt. simpl. repeat split.
  eexists. split; [reflexivity|]. simpl. split; [reflexivity|].
  unfold JS.mapSize. destruct (predictionCache s); [discriminate|]. simpl. lia.
Qed.

(** *** Routing *)

Lemma isImportantMatch_markers input :
  isImportantMatch toLowerCase input = markedImportant toLowerCase input.
Proof.
  unfold isImportantMatch, markedImportant, optIncludes, mentions.
  destruct (tournament input) as [t|], (seriesContext input) as [c|]; simpl.
  - destruct (JS.includes (toLowerCase t) "world"),
             (JS.includes (toLowerCase t) "final"),
             (JS.includes (toLowerCase c) "final"),
             (JS.includes (toLowerCase c) "semi"); reflexivity.
  - destruct (JS.includes (toLowerCase t) "world"),
             (JS.includes (toLowerCase t) "final"); reflexivity.
  - destruct (JS.includes (toLowerCase c) "final"),
             (JS.includes (toLowerCase c) "semi"); reflexivity.
  - reflexivity.
Qed.

(** C2, as the code has it.  Whatever [toLowerCase] does, smart mode
    (the default time constraint) runs the balanced tier exactly when
    the lower-cased tournament text contains "world" or "final", or
    the lower-cased series context contains "final" or "semi", and
    runs the fast tier otherwise.  With a [toLowerCase] that turns the
    ASCII letters A-Z into a-z, a tournament "ICC World Cup Final" goes
    to the balanced tier, a tournament "Friendly T20" goes to the
    fast tier unless the series context carries "final" or "semi", and
    a tournament "Asia Cup Semi 1" without series context goes to the
    fast tier although its text contains "semi". *)
Theorem smart_mode_routes_on_field_markers (input : PredictionInput) :
  isImportantMatch toLowerCase input = markedImportant toLowerCase input
  /\ predict input ModeSmart
     = (if markedImportant toLowerCase input
        then generateBalancedPrediction input
        else generateFastPrediction input)
  /\ (JS.lowersAscii toLowerCase ->
      (forall a b v f sc,
         let i := {| team1Id := a; team2Id := b; venue := v; format := f;
                     tournament := Some "ICC World Cup Final";
                     seriesContext := sc |} in
         predict i ModeSmart = generateBalancedPrediction i)
      /\ (forall a b v f sc,
            let i := {| team1Id := a; team2Id := b; venue := v; format := f;
                        tournament := Some "Friendly T20";
                        seriesContext := sc |} in
            predict i ModeSmart
            = if mentions toLowerCase sc "final"
                 || mentions toLowerCase sc "semi"
              then generateBalancedPrediction i
              else generateFastPrediction i)
      /\ (forall a b v f,
            let i := {| team1Id := a; team2Id := b; venue := v; format := f;
                        tournament := Some "Asia Cup Semi 1";
                        seriesContext := None |} in
            claimedImportant toLowerCase i = true
            /\ predict i ModeSmart = generateFastPrediction i)).
Proof.
  split; [apply isImportantMatch_markers|].
  split.
  { unfold predict, generateSmartPrediction.
    now rewrite isImportantMatch_markers. }
  intros Hascii.
  split; [|split]; [intros a b v f sc i | intros a b v f sc i
                    | intros a b v f i; split];
    unfold predict, generateSmartPrediction;
    try rewrite isImportantMatch_markers;
    unfold claimedImportant, markedImportant, mentions, i;
    cbn [tournament seriesContext]; rewrite Hascii by reflexivity;
    reflexivity.
Qed.

(** C4, as the code has it.  The time constraint ['fast'] runs
    exactly the fast tier and ['accurate'] runs exactly the balanced
    tier, whatever the input says; ['balanced'], which is also the
    default, applies the importance test, whatever [toLowerCase] makes
    of the two texts, and runs the balanced tier for an important
    match and the fast tier otherwise.  With a [toLowerCase] that
    turns the ASCII letters A-Z into a-z, the constraint ['balanced']
    runs the fast tier for a tournament "Friendly T20" without series
    context. *)
Theorem time_constraint_dispatch (input : PredictionInput) :
  generateSmartPrediction input TCFast = generateFastPrediction input
  /\ generateSmartPrediction input TCAccurate = generateBalancedPrediction input
  /\ generateSmartPrediction input TCBalanced
     = (if markedImportant toLowerCase input
        then generateBalancedPrediction input
        else generateFastPrediction input)
  /\ predict input ModeSmart = generateSmartPrediction input TCBalanced
  /\ (JS.lowersAscii toLowerCase ->
      forall a b v f,
        let i := {| team1Id := a; team2Id := b; venue := v; format := f;
                    tournament := Some "Friendly T20";
                    seriesContext := None |} in
        generateSmartPrediction i TCBalanced = generateFastPrediction i).
Proof.
  split; [reflexivity|]. split; [reflexivity|]. split.
  { unfold generateSmartPrediction. now rewrite isImportantMatch_markers. }
  split; [reflexivity|].
  intros Hascii a b v f i. unfold generateSmartPrediction.
  rewrite isImportantMatch_markers. unfold markedImportant, mentions, i.
  cbn [tournament seriesContext]. rewrite Hascii by reflexivity.
  reflexivity.
Qed.

(** ** Capacity *)

Lemma cacheResultAt_size key r now (c : Cache) :
  JS.mapSize c <= CACHE_CAPACITY ->
  JS.mapSize (cacheResultAt key r now c) <= CACHE_CAPACITY.
Proof.
  unfold cacheResultAt, JS.mapSize, CACHE_CAPACITY. intros Hc.
  set (e := {| result := r; timestamp := now |}).
  pose proof (length_mapSet_le key e c) as Hle.
  destruct (100 <? Z.of_nat (List.length (JS.mapSet key e c))) eqn:E.
  - destruct (JS.mapSet key e c) as [|[k0 v0] m'] eqn:Em; [simpl; lia|].
    pose proof (length_mapDelete_head k0 v0 m') as Hd.
    cbn [JS.mapKeys map fst].
    simpl List.length in Hle. lia.
  - apply Z.ltb_ge in E. exact E.
Qed.

Lemma stepOp_size op s :
  JS.mapSize (predictionCache s) <= CACHE_CAPACITY ->
  JS.mapSize (predictionCache (snd (stepOp op s))) <= CACHE_CAPACITY.
Proof.
  intros Hs. destruct op as [key|key r|]; simpl.
  - unfold bind. rewrite getCached_run.
    destruct (JS.mapGet key (predictionCache s)); simpl; exact Hs.
  - now apply cacheResultAt_size.
  - unfold JS.mapSize, CACHE_CAPACITY. simpl. lia.
Qed.

Lemma runOps_size ops : forall s,
  JS.mapSize (predictionCache s) <= CACHE_CAPACITY ->
  JS.mapSize (predictionCache (runOps ops s)) <= CACHE_CAPACITY.
Proof.
  induction ops as [|op ops IH]; intros s Hs; simpl; auto.
  apply IH. now apply stepOp_size.
Qed.

(** C7.  Start from a predictor whose cache is empty and perform any
    sequence of [cacheResult] calls, with any keys, results and clock
    readings: after each insertion of the sequence has completed, the
    cache holds at most 100 entries. *)
Theorem cache_size_within_capacity
    (ins : list (string * FastPredictionResult)) (n t : nat) :
  JS.mapSize
    (predictionCache
       (insertAll (firstn n ins) {| predictionCache := []; tick := t |}))
  <= 100.
Proof.
  unfold insertAll.
  apply (runOps_size _ {| predictionCache := []; tick := t |}).
  unfold JS.mapSize, CACHE_CAPACITY. simpl. lia.
Qed.

(** ** Executing the tiers *)

Lemma getCached_lookupAt key s :
  fst (getCachedPrediction key s)
  = Ok (lookupAt key (dateNow (tick s)) (predictionCache s)).
Proof.
  rewrite getCached_run. unfold lookupAt.
  destruct (JS.mapGet key (predictionCache s)); reflexivity.
Qed.

Lemma getCached_tick key s :
  (tick s <= tick (snd (getCachedPrediction key s)))%nat.
Proof.
  rewrite getCached_run.
  destruct (JS.mapGet key (predictionCache s)); simpl; lia.
Qed.

(** The fast tier after a cache miss: one clock reading, the rating
    call, then either two more readings and the cache write, or one
    more reading and the fallback. *)
Lemma fastCompute_run input key s :
  fastCompute input key s
  = match calculateWinProbability (S (tick s)) (team1Id input)
            (team2Id input) (format input) with
    | Ok el =>
        let r := fastResult input el
                   (dateNow (S (S (tick s))) - dateNow (tick s)) in
        (Ok r,
         {| predictionCache :=
              cacheResultAt key r (dateNow (S (S (S (tick s)))))
                (predictionCache s);
            tick := 4 + tick s |})
    | Throw _ =>
        (Ok (generateBasicFallback input
               (dateNow (S (S (tick s))) - dateNow (tick s))),
         {| predictionCache := predictionCache s; tick := 3 + tick s |})
    end.
Proof.
  cbv [fastCompute fastAttempt bind tryCatch DateNow callElo cacheResult
       readCache writeCache ret advance withCache tick predictionCache].
  destruct s as [c t]; simpl.
  destruct (calculateWinProbability (S t) _ _ _); reflexivity.
Qed.

(** The balanced tier after a cache miss. *)
Lemma balancedCompute_run input key s :
  balancedCompute input key s
  = match calculateWinProbability (S (tick s)) (team1Id input)
            (team2Id input) (format input) with
    | Ok base =>
        match generateEnhancedPrediction (S (S (tick s))) input
                {| team1 := eloTeam1WinProb base;
                   team2 := eloTeam2WinProb base;
                   draw := eloDrawProb base |} with
        | Ok en =>
            let r := balancedResult input en
                       (dateNow (S (S (S (tick s)))) - dateNow (tick s)) in
            (Ok r,
             {| predictionCache :=
                  cacheResultAt key r (dateNow (4 + tick s))
                    (predictionCache s);
                tick := 5 + tick s |})
        | Throw _ =>
            generateFastPrediction input
              {| predictionCache := predictionCache s; tick := 3 + tick s |}
        end
    | Throw _ =>
        generateFastPrediction input
          {| predictionCache := predictionCache s; tick := 2 + tick s |}
    end.
Proof.
  cbv [balancedCompute balancedAttempt bind tryCatch DateNow callElo callMl
       cacheResult readCache writeCache ret advance withCache tick
       predictionCache].
  destruct s as [c t]; simpl.
  destruct (calculateWinProbability (S t) _ _ _) as [base|e]; [|reflexivity].
  destruct (generateEnhancedPrediction (S (S t)) _ _); reflexivity.
Qed.

Lemma fastTier_run input s :
  generateFastPrediction input s
  = match lookupAt (fastKey input) (dateNow (tick s)) (predictionCache s) with
    | Some r => (Ok r, snd (getCachedPrediction (fastKey input) s))
    | None =>
        fastCompute input (fastKey input)
          (snd (getCachedPrediction (fastKey input) s))
    end.
Proof.
  unfold generateFastPrediction, bind.
  pose proof (getCached_lookupAt (fastKey input) s) as H.
  destruct (getCachedPrediction (fastKey input) s) as [[o|e] s1];
    simpl in *; [|discriminate].
  inversion H; subst. destruct (lookupAt _ _ _); reflexivity.
Qed.

Lemma balancedTier_run input s :
  generateBalancedPrediction input s
  = match lookupAt (balancedKey input) (dateNow (tick s))
            (predictionCache s) with
    | Some r => (Ok r, snd (getCachedPrediction (balancedKey input) s))
    | None =>
        balancedCompute input (balancedKey input)
          (snd (getCachedPrediction (balancedKey input) s))
    end.
Proof.
  unfold generateBalancedPrediction, bind.
  pose proof (getCached_lookupAt (balancedKey input) s) as H.
  destruct (getCachedPrediction (balancedKey input) s) as [[o|e] s1];
    simpl in *; [|discriminate].
  inversion H; subst. destruct (lookupAt _ _ _); reflexivity.
Qed.

(** Neither tier throws, whatever the providers do. *)
Lemma fastTier_total input s :
  exists r s', generateFastPrediction input s = (Ok r, s').
Proof.
  rewrite fastTier_run. destruct (lookupAt _ _ _); [eauto|].
  rewrite fastCompute_run.
  destruct (calculateWinProbability _ _ _ _); eauto.
Qed.

Lemma balancedTier_total input s :
  exists r s', generateBalancedPrediction input s = (Ok r, s').
Proof.
  rewrite balancedTier_run. destruct (lookupAt _ _ _); [eauto|].
  rewrite balancedCompute_run.
  destruct (calculateWinProbability _ _ _ _);
    [destruct (generateEnhancedPrediction _ _ _); eauto|];
    apply fastTier_total.
Qed.

(** ** Fresh results and the probability invariant *)

Lemma orNum_nonzero (x d : Q) : ~ (x == 0)%Q -> JS.orNum x d = x.
Proof.
  intros H. unfold JS.orNum. destruct (Qeq_bool x 0) eqn:E; auto.
  apply Qeq_bool_iff in E. contradiction.
Qed.

Lemma orNum_zero (x d : Q) : (x == 0)%Q -> JS.orNum x d = d.
Proof.
  intros H. unfold JS.orNum. apply Qeq_bool_iff in H. now rewrite H.
Qed.

(** A fresh fast result passes the rating provider's triple through
    unchanged when its draw probability is not zero. *)
Lemma fastResult_valid input el elapsed :
  validDistribution (eloTeam1WinProb el) (eloTeam2WinProb el) (eloDrawProb el) ->
  ~ (eloDrawProb el == 0)%Q ->
  validResult (fastResult input el elapsed).
Proof.
  intros Hv Hd. unfold validResult. simpl. now rewrite orNum_nonzero.
Qed.

Lemma balancedResult_valid input en elapsed :
  validDistribution (enhancedTeam1WinProb en) (enhancedTeam2WinProb en)
    (enhancedDrawProb en) ->
  ~ (enhancedDrawProb en == 0)%Q ->
  validResult (balancedResult input en elapsed).
Proof.
  intros Hv Hd. unfold validResult. simpl. now rewrite orNum_nonzero.
Qed.

(** With a zero draw probability the fresh fast result carries 0.02
    on top of the provider's win probabilities. *)
Lemma fastResult_zero_draw_sum input el elapsed :
  (eloDrawProb el == 0)%Q ->
  let r := fastResult input el elapsed in
  (team1WinProb r + team2WinProb r + drawProb r
   == eloTeam1WinProb el + eloTeam2WinProb el + 0.02)%Q.
Proof.
  intros Hd r. subst r. simpl. rewrite (orNum_zero _ _ Hd). reflexivity.
Qed.

(** ** Degradation of the balanced tier *)

(** C6.  When the balanced tier misses its cache, the rating call
    succeeds and the call to the features provider throws, the balanced
    tier returns exactly what the fast tier returns when run for the
    same input in the handler (same cache, three interactions later).
    In particular, when that fast run computes from the ratings, the
    result carries the fast tier's engine name and accuracy constant
    and nothing of the balanced tier's. *)
Theorem balanced_degrades_to_fast input s s1 base err :
  getCachedPrediction (balancedKey input) s = (Ok None, s1) ->
  calculateWinProbability (S (tick s1)) (team1Id input) (team2Id input)
    (format input) = Ok base ->
  generateEnhancedPrediction (S (S (tick s1))) input
    {| team1 := eloTeam1WinProb base; team2 := eloTeam2WinProb base;
       draw := eloDrawProb base |} = Throw err ->
  let handlerState :=
    {| predictionCache := predictionCache s; tick := 3 + tick s1 |} in
  generateBalancedPrediction input s
  = generateFastPrediction input handlerState
  /\ forall el,
      lookupAt (fastKey input) (dateNow (tick handlerState))
        (predictionCache s) = None ->
      calculateWinProbability
        (S (tick (snd (getCachedPrediction (fastKey input) handlerState))))
        (team1Id input) (team2Id input) (format input) = Ok el ->
      exists elapsed s',
        generateBalancedPrediction input s
        = (Ok (fastResult input el elapsed), s')
        /\ engineUsed (fastResult input el elapsed) = "Elo Rating System"
        /\ accuracy (fastResult input el elapsed) = fastAccuracy (format input)
        /\ accuracy (fastResult input el elapsed)
           < balancedAccuracy (format input).
Proof.
  intros Hmiss Helo Hml handlerState.
  assert (Hbal : generateBalancedPrediction input s
                 = generateFastPrediction input handlerState).
  { rewrite balancedTier_run.
    pose proof (getCached_lookupAt (balancedKey input) s) as Hl.
    pose proof (getCached_keeps_cache (balancedKey input) s) as Hc.
    rewrite Hmiss in Hl, Hc |- *. simpl in Hl, Hc. injection Hl as Hl'.
    rewrite <- Hl'. simpl.
    rewrite balancedCompute_run, Helo, Hml. now rewrite Hc. }
  split; [exact Hbal|].
  intros el Hfast Hel. rewrite Hbal, fastTier_run.
  change (predictionCache handlerState) with (predictionCache s).
  rewrite Hfast, fastCompute_run, Hel. cbv zeta.
  do 2 eexists. repeat split.
  simpl. destruct (format input); simpl; lia.
Qed.

(** ** No failure reaches the caller *)

Lemma ratingsDownFrom_later t t' :
  (t <= t')%nat -> ratingsDownFrom t -> ratingsDownFrom t'.
Proof. intros Hle H n a b f Hn. apply H. lia. Qed.

Lemma notServedFrom_later t t' key c :
  (t <= t')%nat -> notServedFrom t key c -> notServedFrom t' key c.
Proof. intros Hle H n Hn. apply H. lia. Qed.

Lemma fast_fallback_when_ratings_down input s :
  ratingsDownFrom (tick s) ->
  notServedFrom (tick s) (fastKey input) (predictionCache s) ->
  exists elapsed s',
    generateFastPrediction input s
    = (Ok (generateBasicFallback input elapsed), s').
Proof.
  intros Hdown Hmiss. rewrite fastTier_run, (Hmiss (tick s)) by lia.
  rewrite fastCompute_run.
  pose proof (getCached_tick (fastKey input) s) as Ht.
  destruct (Hdown (S (tick (snd (getCachedPrediction (fastKey input) s))))
              (team1Id input) (team2Id input) (format input)) as [e He];
    [lia|].
  rewrite He. eauto.
Qed.

Lemma balanced_fallback_when_ratings_down input s :
  ratingsDownFrom (tick s) ->
  notServedFrom (tick s) (fastKey input) (predictionCache s) ->
  notServedFrom (tick s) (balancedKey input) (predictionCache s) ->
  exists elapsed s',
    generateBalancedPrediction input s
    = (Ok (generateBasicFallback input elapsed), s').
Proof.
  intros Hdown Hf Hb. rewrite balancedTier_run, (Hb (tick s)) by lia.
  rewrite balancedCompute_run.
  pose proof (getCached_tick (balancedKey input) s) as Ht.
  pose proof (getCached_keeps_cache (balancedKey input) s) as Hc.
  set (s1 := snd (getCachedPrediction (balancedKey input) s)) in *.
  destruct (Hdown (S (tick s1)) (team1Id input) (team2Id input)
              (format input)) as [e He]; [lia|].
  rewrite He, Hc.
  apply fast_fallback_when_ratings_down; simpl.
  - apply (ratingsDownFrom_later (tick s)); [lia | exact Hdown].
  - apply (notServedFrom_later (tick s)); [lia | exact Hf].
Qed.

(** With the rating provider down, the fast tier returns what its
    lookup finds, and the static fallback when it finds nothing. *)
Lemma fast_when_ratings_down input s :
  ratingsDownFrom (tick s) ->
  match lookupAt (fastKey input) (dateNow (tick s)) (predictionCache s) with
  | Some r => generateFastPrediction input s = (Ok r, advance s)
  | None =>
      exists elapsed s',
        generateFastPrediction input s
        = (Ok (generateBasicFallback input elapsed), s')
  end.
Proof.
  intros Hdown. rewrite fastTier_run.
  pose proof (getCached_tick (fastKey input) s) as Ht.
  destruct (lookupAt (fastKey input) (dateNow (tick s)) (predictionCache s))
    as [r|] eqn:L.
  - unfold lookupAt in L. rewrite getCached_run.
    destruct (JS.mapGet (fastKey input) (predictionCache s));
      [reflexivity | discriminate].
  - rewrite fastCompute_run.
    destruct (Hdown (S (tick (snd (getCachedPrediction (fastKey input) s))))
                (team1Id input) (team2Id input) (format input)) as [e He];
      [lia|].
    rewrite He. eauto.
Qed.

(** With the rating provider down, the balanced tier returns what its
    own lookup finds; when that finds nothing, it reads the clock, has
    the rating call fail and hands over to the fast tier, whose lookup
    under the fast key happens two interactions later (three when an
    expired entry under the balanced key made the first lookup read the
    clock). *)
Lemma balanced_when_ratings_down input s :
  ratingsDownFrom (tick s) ->
  match lookupAt (balancedKey input) (dateNow (tick s))
          (predictionCache s) with
  | Some r => generateBalancedPrediction input s = (Ok r, advance s)
  | None =>
      let t := ((if JS.mapHas (balancedKey input) (predictionCache s)
                 then 3 else 2) + tick s)%nat in
      match lookupAt (fastKey input) (dateNow t) (predictionCache s) with
      | Some r =>
          generateBalancedPrediction input s
          = (Ok r, {| predictionCache := predictionCache s; tick := S t |})
      | None =>
          exists elapsed s',
            generateBalancedPrediction input s
            = (Ok (generateBasicFallback input elapsed), s')
      end
  end.
Proof.
  intros Hdown. rewrite balancedTier_run.
  destruct (lookupAt (balancedKey input) (dateNow (tick s))
              (predictionCache s)) as [r|] eqn:L.
  - unfold lookupAt in L. rewrite getCached_run.
    destruct (JS.mapGet (balancedKey input) (predictionCache s));
      [reflexivity | discriminate].
  - cbv zeta. rewrite balancedCompute_run.
    assert (Hs1 : snd (getCachedPrediction (balancedKey input) s)
                  = {| predictionCache := predictionCache s;
                       tick := ((if JS.mapHas (balancedKey input)
                                      (predictionCache s)
                                 then 1 else 0) + tick s)%nat |}).
    { rewrite getCached_run. unfold JS.mapHas.
      destruct (JS.mapGet (balancedKey input) (predictionCache s));
        [reflexivity | now destruct s]. }
    rewrite Hs1. cbn [tick predictionCache].
    destruct (Hdown (S ((if JS.mapHas (balancedKey input) (predictionCache s)
                         then 1 else 0) + tick s))
                (team1Id input) (team2Id input) (format input)) as [e He];
      [lia|].
    rewrite He.
    assert (Ht : (2 + ((if JS.mapHas (balancedKey input) (predictionCache s)
                        then 1 else 0) + tick s)
                  = (if JS.mapHas (balancedKey input) (predictionCache s)
                     then 3 else 2) + tick s)%nat)
      by (destruct (JS.mapHas _ _); lia).
    rewrite Ht.
    set (t := ((if JS.mapHas (balancedKey input) (predictionCache s)
                then 3 else 2) + tick s)%nat).
    assert (Hle : (tick s <= t)%nat)
      by (unfold t; destruct (JS.mapHas _ _); lia).
    pose proof (fast_when_ratings_down input
                  {| predictionCache := predictionCache s; tick := t |}
                  (ratingsDownFrom_later (tick s) t Hle Hdown)) as Hfast.
    cbn [tick predictionCache] in Hfast.
    destruct (lookupAt (fastKey input) (dateNow t) (predictionCache s));
      exact Hfast.
Qed.

(** C3, as the code has it.  In every state, for every input and mode
    and whatever the two providers do, [predict] returns a result and
    does not throw.  When the rating provider throws at every call
    (the features provider is then never reached) and the cache serves
    no unexpired entry under the input's fast-tier key or balanced-tier
    key, the result is the static fallback: accuracy 65, below 70,
    with a non-empty list of risk factors, as every fallback result
    has.  More precisely, with the rating provider down the result is
    decided by the lookups of the tier the mode selects.  The fast tier looks under the fast key
    only: it returns the unexpired entry it finds there, flagged
    [fromCache], and the fallback otherwise, whatever is stored under
    the balanced key.  The balanced tier looks under the balanced key
    and returns the unexpired entry it finds; otherwise it hands over
    to the fast tier, which looks under the fast key two or three
    interactions later. *)
Theorem predict_never_throws input mode s :
  (exists r s', predict input mode s = (Ok r, s'))
  /\ (ratingsDownFrom (tick s) ->
      notServedFrom (tick s) (fastKey input) (predictionCache s) ->
      notServedFrom (tick s) (balancedKey input) (predictionCache s) ->
      exists elapsed s',
        predict input mode s = (Ok (generateBasicFallback input elapsed), s')
        /\ accuracy (generateBasicFallback input elapsed) < 70
        /\ riskFactors (generateBasicFallback input elapsed) <> []
        /\ engineUsed (generateBasicFallback input elapsed)
           = "Basic Fallback")
  /\ (ratingsDownFrom (tick s) ->
      let c := predictionCache s in
      match tierOf mode input with
      | FastTier =>
          match lookupAt (fastKey input) (dateNow (tick s)) c with
          | Some r => predict input mode s = (Ok r, advance s)
          | None =>
              exists elapsed s',
                predict input mode s
                = (Ok (generateBasicFallback input elapsed), s')
          end
      | BalancedTier =>
          match lookupAt (balancedKey input) (dateNow (tick s)) c with
          | Some r => predict input mode s = (Ok r, advance s)
          | None =>
              let t := ((if JS.mapHas (balancedKey input) c then 3 else 2)
                        + tick s)%nat in
              match lookupAt (fastKey input) (dateNow t) c with
              | Some r =>
                  predict input mode s
                  = (Ok r, {| predictionCache := c; tick := S t |})
              | None =>
                  exists elapsed s',
                    predict input mode s
                    = (Ok (generateBasicFallback input elapsed), s')
              end
          end
      end)
  /\ (forall key now r,
        lookupAt key now (predictionCache s) = Some r
        <-> exists e,
              JS.mapGet key (predictionCache s) = Some e
              /\ now - timestamp e < CACHE_TTL
              /\ r = markFromCache (result e))
  /\ (forall elapsed,
        accuracy (generateBasicFallback input elapsed) = 65
        /\ riskFactors (generateBasicFallback input elapsed) <> []
        /\ engineUsed (generateBasicFallback input elapsed)
           = "Basic Fallback").
Proof.
  split.
  { destruct mode; simpl;
      [apply fastTier_total | apply balancedTier_total |].
    unfold generateSmartPrediction.
    destruct (isImportantMatch toLowerCase input);
      [apply balancedTier_total | apply fastTier_total]. }
  split.
  { intros Hdown Hf Hb.
    assert (Hfast := fast_fallback_when_ratings_down input s Hdown Hf).
    assert (Hbal := balanced_fallback_when_ratings_down input s Hdown Hf Hb).
    assert (H : exists elapsed s',
               predict input mode s
               = (Ok (generateBasicFallback input elapsed), s')).
    { destruct mode; simpl; auto.
      unfold generateSmartPrediction.
      destruct (isImportantMatch toLowerCase input); auto. }
    destruct H as (elapsed & s' & H). exists elapsed, s'.
    split; [exact H|]. simpl.
    split; [lia|]. split; [discriminate | reflexivity]. }
  split.
  { intros Hdown. cbv zeta.
    pose proof (fast_when_ratings_down input s Hdown) as Hfast.
    pose proof (balanced_when_ratings_down input s Hdown) as Hbal.
    cbv zeta in Hbal.
    destruct mode; cbn [tierOf predict]; auto.
    unfold generateSmartPrediction.
    destruct (isImportantMatch toLowerCase input); auto. }
  split.
  { intros key now r. unfold lookupAt.
    destruct (JS.mapGet key (predictionCache s)) as [e|].
    - destruct (Z.ltb_spec (now - timestamp e) CACHE_TTL) as [Hlt|Hge].
      + split.
        * intros H. injection H as <-. exists e. auto.
        * intros (e' & He & _ & ->). injection He as <-. reflexivity.
      + split; [discriminate|].
        intros (e' & He & Hlt & _). injection He as <-. lia.
    - split; [discriminate|]. intros (e' & He & _). discriminate. }
  intros elapsed. simpl. split; [reflexivity|].
  split; [discriminate | reflexivity].
Qed.

(** ** Replaying a cached result *)

(** A write stores the result under its key, eviction included. *)
Lemma cacheResultAt_stores key r now (c : Cache) :
  JS.mapSize c <= CACHE_CAPACITY ->
  storedUnder key r now (cacheResultAt key r now c).
Proof.
  intros Hc. unfold storedUnder, cacheResultAt.
  set (e := {| result := r; timestamp := now |}).
  exists e. split; [|split; reflexivity].
  destruct (CACHE_CAPACITY <? JS.mapSize (JS.mapSet key e c)) eqn:E;
    [|apply mapGet_mapSet_same].
  apply Z.ltb_lt in E.
  destruct (in_dec string_dec key (JS.mapKeys c)) as [Hin|Hnin].
  - exfalso. unfold JS.mapSize in *.
    rewrite (length_mapSet_present key e c Hin) in E. lia.
  - rewrite (mapKeys_mapSet_absent key e c Hnin).
    destruct c as [|[k0 v0] c']; simpl.
    + unfold JS.mapSize, CACHE_CAPACITY in E. simpl in E. lia.
    + assert (Hne : key <> k0) by (intros ->; apply Hnin; now left).
      rewrite mapGet_mapDelete_other by exact Hne.
      apply (mapGet_mapSet_same key e ((k0, v0) :: c')).
Qed.

(** A fast result computed from the ratings is stored under the fast
    key, stamped with the clock reading of the write. *)
Lemma fresh_fast_result_stored input s el :
  JS.mapSize (predictionCache s) <= CACHE_CAPACITY ->
  JS.mapGet (fastKey input) (predictionCache s) = None ->
  calculateWinProbability (S (tick s)) (team1Id input) (team2Id input)
    (format input) = Ok el ->
  exists r s',
    generateFastPrediction input s = (Ok r, s')
    /\ r = fastResult input el (dateNow (S (S (tick s))) - dateNow (tick s))
    /\ tick s' = (4 + tick s)%nat
    /\ storedUnder (fastKey input) r (dateNow (S (S (S (tick s)))))
         (predictionCache s').
Proof.
  intros Hsz Habs Hel.
  rewrite fastTier_run. unfold lookupAt. rewrite getCached_run, Habs. simpl.
  rewrite fastCompute_run, Hel. cbv zeta.
  do 2 eexists. split; [reflexivity|]. split; [reflexivity|].
  split; [reflexivity|]. simpl. now apply cacheResultAt_stores.
Qed.

(** A balanced result computed from both providers is stored under
    the balanced key. *)
Lemma fresh_balanced_result_stored input s el en :
  JS.mapSize (predictionCache s) <= CACHE_CAPACITY ->
  JS.mapGet (balancedKey input) (predictionCache s) = None ->
  calculateWinProbability (S (tick s)) (team1Id input) (team2Id input)
    (format input) = Ok el ->
  generateEnhancedPrediction (S (S (tick s))) input
    {| team1 := eloTeam1WinProb el; team2 := eloTeam2WinProb el;
       draw := eloDrawProb el |} = Ok en ->
  exists r s',
    generateBalancedPrediction input s = (Ok r, s')
    /\ r = balancedResult input en
             (dateNow (S (S (S (tick s)))) - dateNow (tick s))
    /\ storedUnder (balancedKey input) r (dateNow (4 + tick s))
         (predictionCache s').
Proof.
  intros Hsz Habs Hel Hen.
  rewrite balancedTier_run. unfold lookupAt. rewrite getCached_run, Habs. simpl.
  rewrite balancedCompute_run, Hel, Hen. cbv zeta.
  do 2 eexists. split; [reflexivity|]. split; [reflexivity|].
  simpl. now apply cacheResultAt_stores.
Qed.

(** Whatever the fast tier returns, other than the static fallback, is
    in the cache under the fast key when the call returns. *)
Lemma fast_result_stored_unless_fallback input s0 r1 s1 :
  JS.mapSize (predictionCache s0) <= CACHE_CAPACITY ->
  generateFastPrediction input s0 = (Ok r1, s1) ->
  engineUsed r1 <> "Basic Fallback" ->
  exists ts, storedUnder (fastKey input) r1 ts (predictionCache s1).
Proof.
  intros Hsz Hrun Hengine. rewrite fastTier_run in Hrun.
  pose proof (getCached_keeps_cache (fastKey input) s0) as Hkeep.
  destruct (lookupAt (fastKey input) (dateNow (tick s0)) (predictionCache s0))
    as [r|] eqn:L.
  - injection Hrun as <- <-. unfold lookupAt in L.
    destruct (JS.mapGet (fastKey input) (predictionCache s0)) as [e|] eqn:G;
      [|discriminate].
    destruct (_ <? _); [|discriminate]. injection L as <-.
    exists (timestamp e), e. rewrite Hkeep. repeat split. exact G.
  - rewrite fastCompute_run in Hrun.
    destruct (calculateWinProbability _ _ _ _) as [el|err].
    + cbv zeta in Hrun. injection Hrun as <- <-. eexists. simpl.
      apply cacheResultAt_stores. now rewrite Hkeep.
    + injection Hrun as <- _. simpl in Hengine. congruence.
Qed.

(** On a cache miss, a rating triple that satisfies the probability
    invariant and has a non-zero draw probability yields a fast result
    that satisfies it. *)
Lemma fresh_fast_result_valid input s el :
  lookupAt (fastKey input) (dateNow (tick s)) (predictionCache s) = None ->
  calculateWinProbability
    (S (tick (snd (getCachedPrediction (fastKey input) s))))
    (team1Id input) (team2Id input) (format input) = Ok el ->
  validDistribution (eloTeam1WinProb el) (eloTeam2WinProb el)
    (eloDrawProb el) ->
  ~ (eloDrawProb el == 0)%Q ->
  exists r s', generateFastPrediction input s = (Ok r, s') /\ validResult r.
Proof.
  intros Hmiss Hel Hv Hd. rewrite fastTier_run, Hmiss, fastCompute_run, Hel.
  cbv zeta. do 2 eexists. split; [reflexivity|].
  now apply fastResult_valid.
Qed.

(** A write never makes a key appear, other than the key it writes. *)
Lemma cacheResultAt_keeps_absent key r now (c : Cache) k :
  k <> key -> JS.mapGet k c = None ->
  JS.mapGet k (cacheResultAt key r now c) = None.
Proof.
  intros Hne Habs. unfold cacheResultAt.
  set (written := JS.mapSet key {| result := r; timestamp := now |} c).
  assert (Hw : JS.mapGet k written = None)
    by (unfold written; now rewrite mapGet_mapSet_other).
  destruct (CACHE_CAPACITY <? JS.mapSize written); [|exact Hw].
  destruct (JS.mapKeys written) as [|oldest rest]; [exact Hw|].
  destruct (string_dec k oldest) as [->|Hko].
  - apply mapGet_mapDelete_same.
  - now rewrite mapGet_mapDelete_other.
Qed.

(** The fast tier never makes a key appear, other than its own. *)
Lemma fastTier_keeps_absent input s k :
  k <> fastKey input ->
  JS.mapGet k (predictionCache s) = None ->
  JS.mapGet k (predictionCache (snd (generateFastPrediction input s))) = None.
Proof.
  intros Hne Habs. rewrite fastTier_run.
  pose proof (getCached_keeps_cache (fastKey input) s) as Hkeep.
  destruct (lookupAt _ _ _); simpl; [now rewrite Hkeep|].
  rewrite fastCompute_run.
  destruct (calculateWinProbability _ _ _ _); simpl; rewrite Hkeep;
    [now apply cacheResultAt_keeps_absent | exact Habs].
Qed.

(** C5, as the code has it.  Whenever the cache holds [r1] under a
    tier's own key for [input] with timestamp [ts], in particular
    after a call to the tier that returned [r1] and stored it and for
    as long as that entry stays in the cache, whatever else the cache
    holds by then, a call to that tier with [input] behaves as
    follows.  If its clock reading is strictly less than 5 minutes
    after [ts], it returns [r1] with [fromCache] set to true, every
    other field equal, and calls no provider.  If the reading is 5
    minutes or more after [ts], the lookup is a miss and the call runs
    the tier's computation again.  A balanced call that finds no entry
    under the balanced key and degrades to the fast tier (the rating
    call succeeds, the features call throws) leaves no entry under the
    balanced key, what it computed being stored under the fast key
    only, so that a repeated balanced call misses the cache and runs
    the balanced computation again. *)
Theorem repeated_call_replays_cached_result tier input r1 ts s2 :
  (storedUnder (tierKey tier input) r1 ts (predictionCache s2) ->
   (dateNow (tick s2) - ts < CACHE_TTL ->
    runTier tier input s2 = (Ok (markFromCache r1), advance s2))
   /\ (CACHE_TTL <= dateNow (tick s2) - ts ->
       fst (getCachedPrediction (tierKey tier input) s2) = Ok None
       /\ runTier tier input s2 = tierCompute tier input (advance s2)))
  /\ (forall s el err,
        JS.mapSize (predictionCache s) <= CACHE_CAPACITY ->
        JS.mapGet (balancedKey input) (predictionCache s) = None ->
        calculateWinProbability (S (tick s)) (team1Id input) (team2Id input)
          (format input) = Ok el ->
        generateEnhancedPrediction (S (S (tick s))) input
          {| team1 := eloTeam1WinProb el; team2 := eloTeam2WinProb el;
             draw := eloDrawProb el |} = Throw err ->
        exists r s',
          generateBalancedPrediction input s = (Ok r, s')
          /\ JS.mapGet (balancedKey input) (predictionCache s') = None
          /\ (engineUsed r <> "Basic Fallback" ->
              exists ts',
                storedUnder (fastKey input) r ts' (predictionCache s'))
          /\ forall s3,
               JS.mapGet (balancedKey input) (predictionCache s3) = None ->
               generateBalancedPrediction input s3
               = balancedCompute input (balancedKey input) s3).
Proof.
  split.
  - intros (e & Hget & Hts & Hres). subst ts.
    assert (Hrun : getCachedPrediction (tierKey tier input) s2
                   = (Ok (if dateNow (tick s2) - timestamp e <? CACHE_TTL
                          then Some (markFromCache r1) else None),
                      advance s2)).
    { rewrite getCached_run, Hget, Hres. reflexivity. }
    split; intros Ht.
    + apply Z.ltb_lt in Ht.
      destruct tier; simpl in *;
        [rewrite fastTier_run | rewrite balancedTier_run];
        unfold lookupAt; rewrite Hrun, Hget, Ht; simpl; now rewrite Hres.
    + apply Z.ltb_ge in Ht. split; [rewrite Hrun, Ht; reflexivity|].
      destruct tier; simpl in *;
        [rewrite fastTier_run | rewrite balancedTier_run];
        unfold lookupAt; rewrite Hrun, Hget, Ht; reflexivity.
  - intros s el err Hsz Habs Hel Hml.
    assert (Hmiss : forall s3,
               JS.mapGet (balancedKey input) (predictionCache s3) = None ->
               generateBalancedPrediction input s3
               = balancedCompute input (balancedKey input) s3).
    { intros s3 H3. rewrite balancedTier_run. unfold lookupAt.
      now rewrite getCached_run, H3. }
    rewrite (Hmiss s Habs), balancedCompute_run, Hel, Hml.
    set (s1 := {| predictionCache := predictionCache s;
                  tick := (3 + tick s)%nat |}).
    destruct (fastTier_total input s1) as (r & s' & Hrun).
    exists r, s'. split; [exact Hrun|]. split.
    { pose proof (fastTier_keeps_absent input s1 (balancedKey input)) as H.
      rewrite Hrun in H. apply H; [|exact Habs].
      unfold fastKey, balancedKey. simpl. discriminate. }
    split; [|exact Hmiss].
    intros Hengine.
    exact (fast_result_stored_unless_fallback input s1 r s' Hsz Hrun Hengine).
Qed.

(** ** Eviction order *)

Lemma bornInOrder_ext b b' lo hi ks :
  (forall k, In k ks -> b' k = b k) ->
  bornInOrder b lo hi ks -> bornInOrder b' lo hi ks.
Proof.
  revert lo. induction ks as [|k ks IH]; intros lo Hext H; simpl in *; auto.
  destruct H as (n & Hb & Hn & Hrest). exists n. split.
  - rewrite Hext; auto.
  - split; [exact Hn|]. apply IH; auto.
Qed.

Lemma bornInOrder_weaken b lo lo' hi hi' ks :
  (lo' <= lo)%nat -> (hi <= hi')%nat ->
  bornInOrder b lo hi ks -> bornInOrder b lo' hi' ks.
Proof.
  revert lo lo'. induction ks as [|k ks IH]; intros lo lo' Hlo Hhi H;
    simpl in *; auto.
  destruct H as (n & Hb & Hn & Hrest). exists n.
  split; [exact Hb|]. split; [lia|]. apply (IH (S n)); auto.
Qed.

Lemma bornInOrder_bounds b lo hi ks k :
  bornInOrder b lo hi ks -> In k ks ->
  exists n, b k = Some n /\ (lo <= n < hi)%nat.
Proof.
  revert lo. induction ks as [|k0 ks IH]; intros lo H Hin; simpl in *;
    [contradiction|].
  destruct H as (n & Hb & Hn & Hrest). destruct Hin as [->|Hin].
  - exists n. auto.
  - destruct (IH _ Hrest Hin) as (m & Hm & Hbm). exists m. split; auto. lia.
Qed.

(** The first key of an ordered list does not occur again. *)
Lemma bornInOrder_head_fresh b lo hi k ks :
  bornInOrder b lo hi (k :: ks) -> ~ In k ks.
Proof.
  simpl. intros (n & Hb & Hn & Hrest) Hin.
  destruct (bornInOrder_bounds _ _ _ _ _ Hrest Hin) as (m & Hm & Hbm).
  rewrite Hb in Hm. injection Hm as ->. lia.
Qed.

Lemma bornInOrder_snoc b lo hi ks k :
  bornInOrder b lo hi ks -> b k = Some hi -> (lo <= hi)%nat ->
  bornInOrder b lo (S hi) (ks ++ [k])%list.
Proof.
  revert lo. induction ks as [|k0 ks IH]; intros lo H Hk Hlo; simpl in *.
  - exists hi. split; [exact Hk|]. split; [lia | exact I].
  - destruct H as (n & Hb & Hn & Hrest). exists n.
    split; [exact Hb|]. split; [lia|]. apply IH; auto. lia.
Qed.

Lemma stepBirths_kept n (before after : Cache) b k :
  In k (JS.mapKeys after) -> In k (JS.mapKeys before) ->
  stepBirths n before after b k = b k.
Proof.
  intros Ha Hb. unfold stepBirths.
  apply mapHas_true_in in Ha, Hb. now rewrite Ha, Hb.
Qed.

Lemma stepBirths_new n (before after : Cache) b k :
  In k (JS.mapKeys after) -> ~ In k (JS.mapKeys before) ->
  stepBirths n before after b k = Some n.
Proof.
  intros Ha Hb. unfold stepBirths.
  apply mapHas_true_in in Ha. apply mapHas_false_notin in Hb.
  now rewrite Ha, Hb.
Qed.

(** The keys after a write: those of the map after [set], without the
    first one when the size went past the capacity. *)
Lemma cacheResultAt_keys key r now (c : Cache) :
  let written := JS.mapSet key {| result := r; timestamp := now |} c in
  (JS.mapSize written <= CACHE_CAPACITY
   /\ cacheResultAt key r now c = written)
  \/ (CACHE_CAPACITY < JS.mapSize written
      /\ exists oldest rest,
          JS.mapKeys written = oldest :: rest
          /\ cacheResultAt key r now c = JS.mapDelete oldest written).
Proof.
  intros written. unfold cacheResultAt. fold written.
  destruct (CACHE_CAPACITY <? JS.mapSize written) eqn:E.
  - right. apply Z.ltb_lt in E. split; [exact E|].
    destruct (JS.mapKeys written) as [|oldest rest] eqn:Ek.
    + exfalso. destruct written; [|discriminate].
      unfold JS.mapSize, CACHE_CAPACITY in E. simpl in E. lia.
    + eauto.
  - left. apply Z.ltb_ge in E. auto.
Qed.

(** One write keeps the keys ordered by insertion. *)
Lemma cacheResultAt_bornInOrder key r now (c : Cache) b n :
  JS.mapSize c <= CACHE_CAPACITY ->
  bornInOrder b 0 n (JS.mapKeys c) ->
  bornInOrder (stepBirths n c (cacheResultAt key r now c) b) 0 (S n)
    (JS.mapKeys (cacheResultAt key r now c)).
Proof.
  intros Hsz Hord.
  destruct (in_dec string_dec key (JS.mapKeys c)) as [Hin|Hnin].
  - (* overwrite in place: same keys, no eviction *)
    assert (Hc : JS.mapKeys (cacheResultAt key r now c) = JS.mapKeys c).
    { destruct (cacheResultAt_keys key r now c) as [[_ ->]|[Hgt _]].
      - now apply mapKeys_mapSet_present.
      - exfalso. unfold JS.mapSize in *.
        rewrite (length_mapSet_present key {| result := r; timestamp := now |} c Hin) in Hgt. lia. }
    rewrite Hc. apply (bornInOrder_ext b).
    + intros k Hk. apply stepBirths_kept; [rewrite Hc|]; exact Hk.
    + apply (bornInOrder_weaken b 0 0 n (S n)); auto.
  - (* a new key goes last; the first key may leave *)
    set (bX := fun k => if String.eqb k key then Some n else b k).
    assert (HX : bornInOrder bX 0 (S n) (JS.mapKeys c ++ [key])%list).
    { apply bornInOrder_snoc; [| unfold bX; now rewrite String.eqb_refl | lia].
      apply (bornInOrder_ext b); [|exact Hord].
      intros k Hk. unfold bX.
      destruct (String.eqb k key) eqn:E; auto.
      apply String.eqb_eq in E. subst. contradiction. }
    assert (Hagree : forall k,
               In k (JS.mapKeys (cacheResultAt key r now c)) ->
               In k (JS.mapKeys c ++ [key])%list ->
               stepBirths n c (cacheResultAt key r now c) b k = bX k).
    { intros k Hafter Hk. unfold bX.
      destruct (String.eqb k key) eqn:E.
      - apply String.eqb_eq in E. subst. now apply stepBirths_new.
      - apply String.eqb_neq in E. apply stepBirths_kept; auto.
        apply in_app_or in Hk. destruct Hk as [Hk|[Hk|[]]]; congruence. }
    pose proof (mapKeys_mapSet_absent key
                  {| result := r; timestamp := now |} c Hnin) as Hkeys.
    destruct (cacheResultAt_keys key r now c)
      as [[_ Heq]|[_ (oldest & rest & Hk & Heq)]].
    + assert (Hc : JS.mapKeys (cacheResultAt key r now c)
                   = (JS.mapKeys c ++ [key])%list) by now rewrite Heq.
      rewrite Hc. apply (bornInOrder_ext bX); [|exact HX].
      intros k Hin. apply Hagree; [rewrite Hc|]; exact Hin.
    + rewrite Hkeys in Hk. rewrite Hk in HX.
      pose proof (bornInOrder_head_fresh _ _ _ _ _ HX) as Hfresh.
      assert (Hc : JS.mapKeys (cacheResultAt key r now c) = rest).
      { rewrite Heq. apply mapKeys_mapDelete_head; [|exact Hfresh].
        now rewrite Hkeys. }
      rewrite Hc. apply (bornInOrder_ext bX).
      * intros k Hin. apply Hagree; [rewrite Hc; exact Hin|].
        rewrite Hk. now right.
      * simpl in HX. destruct HX as (n0 & _ & _ & HX).
        apply (bornInOrder_weaken bX (S n0) 0 (S n) (S n)); auto; lia.
Qed.

Lemma stepOp_cache op s :
  predictionCache (snd (stepOp op s))
  = match op with
    | OpGet _ => predictionCache s
    | OpPut key r =>
        cacheResultAt key r (dateNow (tick s)) (predictionCache s)
    | OpClear => []
    end.
Proof.
  destruct op as [key|key r|]; simpl; auto.
  unfold bind. rewrite getCached_run.
  destruct (JS.mapGet key (predictionCache s)); reflexivity.
Qed.

(** Every operation keeps the cache within capacity and its keys in
    insertion order. *)
Lemma runHistory_invariant ops : forall n s b,
  JS.mapSize (predictionCache s) <= CACHE_CAPACITY ->
  bornInOrder b 0 n (JS.mapKeys (predictionCache s)) ->
  let sb := runHistory ops n s b in
  JS.mapSize (predictionCache (fst sb)) <= CACHE_CAPACITY
  /\ bornInOrder (snd sb) 0 (n + List.length ops)
       (JS.mapKeys (predictionCache (fst sb))).
Proof.
  induction ops as [|op ops IH]; intros n s b Hsz Hord; simpl.
  - rewrite Nat.add_0_r. auto.
  - replace (n + S (List.length ops))%nat with (S n + List.length ops)%nat
      by lia.
    apply IH; [now apply stepOp_size|].
    rewrite stepOp_cache. destruct op as [key|key r|].
    + apply (bornInOrder_ext b).
      * intros k Hk. now apply stepBirths_kept.
      * apply (bornInOrder_weaken b 0 0 n (S n)); auto.
    + now apply cacheResultAt_bornInOrder.
    + exact I.
Qed.

(** C9.  Run any history of cache reads, writes and clears on a fresh
    predictor, and let the next write push the map past its capacity.
    The write appends its key at the end of the iteration order and
    deletes the key that is first in that order; every other key keeps
    its place.  The deleted key is the earliest-inserted key present:
    its insertion precedes the insertion of every key that remains.
    A read never changes the cache, so reading an entry does not
    protect it from eviction. *)
Theorem eviction_removes_first_inserted
    (ops : list CacheOp) (key : string) (r : FastPredictionResult) :
  let s := fst (runHistory ops 0 initialState noBirths) in
  let b := snd (runHistory ops 0 initialState noBirths) in
  let written :=
    JS.mapSet key {| result := r; timestamp := dateNow (tick s) |}
      (predictionCache s) in
  let s' := snd (cacheResult key r s) in
  let b' :=
    stepBirths (List.length ops) (predictionCache s) (predictionCache s') b in
  CACHE_CAPACITY < JS.mapSize written ->
  exists oldest older,
    JS.mapKeys (predictionCache s) = oldest :: older
    /\ JS.mapKeys written = (oldest :: older ++ [key])%list
    /\ JS.mapKeys (predictionCache s') = (older ++ [key])%list
    /\ ~ In oldest (older ++ [key])%list
    /\ (exists n0,
          b oldest = Some n0
          /\ forall k, In k (older ++ [key])%list ->
               exists n, b' k = Some n /\ (n0 < n)%nat)
    /\ (forall k s0,
          predictionCache (snd (getCachedPrediction k s0))
          = predictionCache s0).
Proof.
  intros s b written s' b' Hpast.
  destruct (runHistory_invariant ops 0 initialState noBirths) as [Hsz Hord].
  { unfold JS.mapSize, CACHE_CAPACITY. simpl. lia. }
  { exact I. }
  fold s in Hsz, Hord. fold b in Hord. simpl in Hord.
  set (c := predictionCache s) in *.
  set (e := {| result := r; timestamp := dateNow (tick s) |}) in *.
  assert (Hnin : ~ In key (JS.mapKeys c)).
  { intros Hin. unfold written, JS.mapSize in *.
    rewrite (length_mapSet_present key e c Hin) in Hpast. lia. }
  pose proof (mapKeys_mapSet_absent key e c Hnin) as Hkeys.
  fold written in Hkeys.
  destruct (JS.mapKeys c) as [|oldest older] eqn:Hc.
  { exfalso. destruct c; [|discriminate].
    unfold written, JS.mapSize, CACHE_CAPACITY in Hpast. simpl in Hpast. lia. }
  assert (Hfresh : ~ In oldest (older ++ [key])%list).
  { intros Hin. apply in_app_or in Hin. destruct Hin as [Hin|[Hin|[]]].
    - exact (bornInOrder_head_fresh _ _ _ _ _ Hord Hin).
    - apply Hnin. left. symmetry. exact Hin. }
  assert (Hafter : predictionCache s' = JS.mapDelete oldest written).
  { unfold s'. rewrite putCached_run. simpl. fold c.
    destruct (cacheResultAt_keys key r (dateNow (tick s)) c)
      as [[Hle _]|[_ (o & rest & Hk & Heq)]].
    - fold e in Hle. fold written in Hle. lia.
    - fold e in Hk, Heq. fold written in Hk, Heq.
      rewrite Hkeys in Hk. simpl in Hk. injection Hk as <- _. exact Heq. }
  assert (Hkeys' : JS.mapKeys (predictionCache s') = (older ++ [key])%list).
  { rewrite Hafter. apply mapKeys_mapDelete_head; [exact Hkeys | exact Hfresh]. }
  exists oldest, older. split; [reflexivity|]. split; [exact Hkeys|].
  split; [exact Hkeys'|]. split; [exact Hfresh|]. split.
  - simpl in Hord. destruct Hord as (n0 & Hb0 & Hn0 & Hrest).
    exists n0. split; [exact Hb0|]. intros k Hk.
    assert (Hka : In k (JS.mapKeys (predictionCache s')))
      by (rewrite Hkeys'; exact Hk).
    apply in_app_or in Hk. destruct Hk as [Hk|[<-|[]]].
    + destruct (bornInOrder_bounds _ _ _ _ _ Hrest Hk) as (m & Hm & Hbm).
      exists m. split; [|lia]. unfold b'. rewrite stepBirths_kept; auto.
      fold c. rewrite Hc. now right.
    + exists (List.length ops). split; [|lia].
      unfold b'. apply stepBirths_new; auto. fold c. now rewrite Hc.
  - intros k s0. apply getCached_keeps_cache.
Qed.

(** ** More on the [Map] model *)

Lemma In_mapSet {V : Type} (k k' : string) (v e : V) (m : JS.Map V) :
  In (k, e) (JS.mapSet k' v m) -> (k = k' /\ e = v) \/ In (k, e) m.
Proof.
  induction m as [|[k0 v0] m IH]; simpl.
  - intros [H|[]]. injection H as <- <-. now left.
  - destruct (String.eqb k' k0) eqn:E; simpl.
    + apply String.eqb_eq in E. subst k0.
      intros [H|H]; [injection H as <- <-; now left | right; now right].
    + intros [H|H]; [right; now left|].
      destruct (IH H) as [?|?]; [now left | right; now right].
Qed.

Lemma In_mapDelete {V : Type} (k k' : string) (e : V) (m : JS.Map V) :
  In (k, e) (JS.mapDelete k' m) -> In (k, e) m.
Proof. unfold JS.mapDelete. intros H. now apply filter_In in H. Qed.

Lemma mapGet_In {V : Type} (k : string) (e : V) (m : JS.Map V) :
  JS.mapGet k m = Some e -> In (k, e) m.
Proof.
  induction m as [|[k0 v0] m IH]; simpl; [discriminate|].
  destruct (String.eqb k k0) eqn:E.
  - apply String.eqb_eq in E. subst. intros H. injection H as <-. now left.
  - intros H. right. auto.
Qed.

Lemma NoDup_mapSet {V : Type} (k : string) (v : V) (m : JS.Map V) :
  NoDup (JS.mapKeys m) -> NoDup (JS.mapKeys (JS.mapSet k v m)).
Proof.
  intros Hnd. destruct (in_dec string_dec k (JS.mapKeys m)) as [Hin|Hnin].
  - now rewrite mapKeys_mapSet_present.
  - rewrite mapKeys_mapSet_absent by exact Hnin.
    apply NoDup_app; [exact Hnd | repeat constructor; auto |].
    intros x Hx [<-|[]]. contradiction.
Qed.

Lemma NoDup_mapDelete {V : Type} (k : string) (m : JS.Map V) :
  NoDup (JS.mapKeys m) -> NoDup (JS.mapKeys (JS.mapDelete k m)).
Proof. intros H. rewrite mapKeys_mapDelete. now apply NoDup_filter. Qed.

(** In a map with distinct keys, deleting a present key removes
    exactly one entry. *)
Lemma length_mapDelete_present {V : Type} (k : string) (m : JS.Map V) :
  NoDup (JS.mapKeys m) -> In k (JS.mapKeys m) ->
  S (List.length (JS.mapDelete k m)) = List.length m.
Proof.
  induction m as [|[k0 v0] m IH]; simpl; [tauto|].
  intros Hnd Hin. inversion Hnd as [|? ? Hk0 Hnd']; subst.
  destruct (String.eqb k k0) eqn:E; simpl.
  - apply String.eqb_eq in E. subst k0. f_equal.
    transitivity (List.length (JS.mapKeys (JS.mapDelete k m))).
    + unfold JS.mapKeys. symmetry. apply length_map.
    + rewrite mapKeys_mapDelete, filter_notin_id by exact Hk0.
      apply length_map.
  - apply String.eqb_neq in E. destruct Hin as [Hin|Hin]; [congruence|].
    f_equal. now apply IH.
Qed.

Lemma length_mapSet_absent {V : Type} (k : string) (v : V) (m : JS.Map V) :
  ~ In k (JS.mapKeys m) ->
  List.length (JS.mapSet k v m) = S (List.length m).
Proof.
  intros H. apply (mapKeys_mapSet_absent k v) in H.
  transitivity (List.length (JS.mapKeys (JS.mapSet k v m))).
  - unfold JS.mapKeys. symmetry. apply length_map.
  - rewrite H, length_app. unfold JS.mapKeys. rewrite length_map.
    simpl. lia.
Qed.

(** ** The cache keys *)

Lemma lastAscii_app (a b : string) :
  lastAscii (a ++ b)
  = match lastAscii b with
    | Some d => Some d
    | None => lastAscii a
    end.
Proof.
  induction a as [|c a IH]; simpl.
  - destruct (lastAscii b); reflexivity.
  - rewrite IH. destruct (lastAscii b); reflexivity.
Qed.

Lemma lastAscii_fastKey (i : PredictionInput) :
  lastAscii (fastKey i) = lastAscii (formatText (format i)).
Proof.
  unfold fastKey. rewrite !lastAscii_app.
  destruct (format i); reflexivity.
Qed.

(** The fast key ends with the format, and the three format texts end
    with different characters. *)
Lemma fastKey_format (i j : PredictionInput) :
  fastKey i = fastKey j -> format i = format j.
Proof.
  intros H. apply (f_equal lastAscii) in H.
  rewrite !lastAscii_fastKey in H.
  destruct (format i), (format j); simpl in H; congruence.
Qed.

(** A fast key starts with [f], a balanced key with [b]. *)
Lemma fastKey_balancedKey (i j : PredictionInput) :
  fastKey i <> balancedKey j.
Proof. unfold fastKey, balancedKey. simpl. discriminate. Qed.


(** ** What every predictor in use keeps true of its cache *)

Lemma cacheResultAt_In key r now (c : Cache) k e :
  In (k, e) (cacheResultAt key r now c) ->
  (k = key /\ e = {| result := r; timestamp := now |}) \/ In (k, e) c.
Proof.
  intros H.
  destruct (cacheResultAt_keys key r now c)
    as [[_ Heq]|[_ (oldest & rest & _ & Heq)]]; rewrite Heq in H.
  - now apply In_mapSet.
  - apply In_mapDelete in H. now apply In_mapSet.
Qed.

Lemma cacheResultAt_NoDup key r now (c : Cache) :
  NoDup (JS.mapKeys c) -> NoDup (JS.mapKeys (cacheResultAt key r now c)).
Proof.
  intros H.
  destruct (cacheResultAt_keys key r now c)
    as [[_ Heq]|[_ (oldest & rest & _ & Heq)]]; rewrite Heq.
  - now apply NoDup_mapSet.
  - now apply NoDup_mapDelete, NoDup_mapSet.
Qed.

Lemma cacheInvariant_same_cache s s' :
  predictionCache s' = predictionCache s ->
  cacheInvariant s -> cacheInvariant s'.
Proof. unfold cacheInvariant. intros ->. auto. Qed.

Lemma cacheInvariant_write key r now s t :
  fastEntry key r \/ balancedEntry key r ->
  cacheInvariant s ->
  cacheInvariant
    {| predictionCache := cacheResultAt key r now (predictionCache s);
       tick := t |}.
Proof.
  intros Hr (Hp & Hnd & Hsz). unfold cacheInvariant. simpl.
  split; [|split].
  - intros k e Hin. apply cacheResultAt_In in Hin.
    destruct Hin as [[-> ->]|Hin]; [exact Hr | now apply Hp].
  - now apply cacheResultAt_NoDup.
  - now apply cacheResultAt_size.
Qed.

Lemma cacheInvariant_initial t :
  cacheInvariant {| predictionCache := []; tick := t |}.
Proof.
  unfold cacheInvariant, cacheProvenance. simpl.
  split; [intros k e []|]. split; [constructor|].
  unfold JS.mapSize, CACHE_CAPACITY. simpl. lia.
Qed.

Lemma lookupAt_In key now (c : Cache) r :
  lookupAt key now c = Some r ->
  exists e, In (key, e) c /\ r = markFromCache (result e).
Proof.
  unfold lookupAt. destruct (JS.mapGet key c) as [e|] eqn:G; [|discriminate].
  destruct (_ <? _); [|discriminate]. intros H. injection H as <-.
  exists e. split; [now apply mapGet_In | reflexivity].
Qed.

Lemma fastCompute_origin input s :
  cacheInvariant s ->
  cacheInvariant (snd (fastCompute input (fastKey input) s))
  /\ returns (fastOrigin input) (fastCompute input (fastKey input) s).
Proof.
  intros Hinv. rewrite fastCompute_run.
  destruct (calculateWinProbability _ _ _ _) as [el|err]; cbv zeta.
  - split.
    + apply cacheInvariant_write; [|exact Hinv]. left.
      now exists input, el, (dateNow (S (S (tick s))) - dateNow (tick s)).
    + unfold returns, fastOrigin. simpl. right. left. eauto.
  - split.
    + now apply (cacheInvariant_same_cache s).
    + unfold returns, fastOrigin. simpl. left. eauto.
Qed.

Lemma fastTier_origin input s :
  cacheInvariant s ->
  cacheInvariant (snd (generateFastPrediction input s))
  /\ returns (fastOrigin input) (generateFastPrediction input s).
Proof.
  intros Hinv. rewrite fastTier_run.
  pose proof (getCached_keeps_cache (fastKey input) s) as Hkeep.
  assert (Hinv1 : cacheInvariant (snd (getCachedPrediction (fastKey input) s)))
    by now apply (cacheInvariant_same_cache s).
  destruct (lookupAt _ _ _) as [r|] eqn:L.
  - split; [exact Hinv1|]. unfold returns. simpl.
    apply lookupAt_In in L. destruct L as (e & Hin & ->).
    destruct Hinv as (Hp & _).
    destruct (Hp _ _ Hin) as [(i & el & dt & Hk & Hr)|(i & en & dt & Hk & _)].
    + right. right. exists i, el, dt. rewrite Hr. auto.
    + exfalso. exact (fastKey_balancedKey input i Hk).
  - now apply fastCompute_origin.
Qed.

Lemma fastOrigin_Origin input r : fastOrigin input r -> Origin input r.
Proof.
  intros [(dt & ->)|[(el & dt & ->)|(i & el & dt & Hk & ->)]].
  - now apply (FromFallback input _ dt).
  - now apply (FreshFast input _ el dt).
  - now apply (CachedFast input _ i el dt).
Qed.

Lemma returns_weaken {A S : Type} (P Q : A -> Prop) (o : Outcome A * S) :
  (forall a, P a -> Q a) -> returns P o -> returns Q o.
Proof. unfold returns. destruct (fst o); auto. Qed.

Lemma balancedTier_origin input s :
  cacheInvariant s ->
  cacheInvariant (snd (generateBalancedPrediction input s))
  /\ returns (Origin input) (generateBalancedPrediction input s).
Proof.
  intros Hinv. rewrite balancedTier_run.
  pose proof (getCached_keeps_cache (balancedKey input) s) as Hkeep.
  set (s1 := snd (getCachedPrediction (balancedKey input) s)) in *.
  assert (Hinv1 : cacheInvariant s1)
    by now apply (cacheInvariant_same_cache s).
  assert (Hfast : forall t,
             cacheInvariant
               (snd (generateFastPrediction input
                       {| predictionCache := predictionCache s1; tick := t |}))
             /\ returns (Origin input)
                  (generateFastPrediction input
                     {| predictionCache := predictionCache s1; tick := t |})).
  { intros t.
    destruct (fastTier_origin input
                {| predictionCache := predictionCache s1; tick := t |})
      as [H1 H2]; [now apply (cacheInvariant_same_cache s1)|].
    split; [exact H1|].
    eapply returns_weaken; [apply fastOrigin_Origin | exact H2]. }
  destruct (lookupAt _ _ _) as [r|] eqn:L.
  - split; [exact Hinv1|]. unfold returns. simpl.
    apply lookupAt_In in L. destruct L as (e & Hin & ->).
    destruct Hinv as (Hp & _).
    destruct (Hp _ _ Hin) as [(i & el & dt & Hk & Hr)|(i & en & dt & Hk & Hr)].
    + exfalso. symmetry in Hk. exact (fastKey_balancedKey i input Hk).
    + apply (CachedBalanced input _ i en dt); [auto | now rewrite Hr].
  - rewrite balancedCompute_run.
    destruct (calculateWinProbability _ _ _ _) as [base|err]; [|apply Hfast].
    destruct (generateEnhancedPrediction _ _ _) as [en|err]; [|apply Hfast].
    cbv zeta. split.
    + apply cacheInvariant_write; [|exact Hinv1]. right.
      now exists input, en,
        (dateNow (S (S (S (tick s1)))) - dateNow (tick s1)).
    + unfold returns. simpl.
      now apply (FreshBalanced input _ en
                   (dateNow (S (S (S (tick s1)))) - dateNow (tick s1))).
Qed.

Lemma smartTier_origin input tc s :
  cacheInvariant s ->
  cacheInvariant (snd (generateSmartPrediction input tc s))
  /\ returns (Origin input) (generateSmartPrediction input tc s).
Proof.
  intros Hinv.
  assert (Hfast : cacheInvariant (snd (generateFastPrediction input s))
                  /\ returns (Origin input) (generateFastPrediction input s)).
  { destruct (fastTier_origin input s Hinv) as [H1 H2]. split; [exact H1|].
    eapply returns_weaken; [apply fastOrigin_Origin | exact H2]. }
  pose proof (balancedTier_origin input s Hinv) as Hbal.
  destruct tc; simpl; auto.
  destruct (isImportantMatch toLowerCase input); auto.
Qed.

Lemma predict_origin input mode s :
  cacheInvariant s ->
  cacheInvariant (snd (predict input mode s))
  /\ returns (Origin input) (predict input mode s).
Proof.
  intros Hinv. destruct mode; simpl.
  - destruct (fastTier_origin input s Hinv) as [H1 H2]. split; [exact H1|].
    eapply returns_weaken; [apply fastOrigin_Origin | exact H2].
  - now apply balancedTier_origin.
  - now apply (smartTier_origin input TCBalanced).
Qed.

Lemma bind_ret_tt_state {A} (m : M A) s :
  returns (fun _ => True) (m s) ->
  snd ((m ;;; ret tt)%pred s) = snd (m s).
Proof.
  unfold returns, bind, ret. destruct (m s) as [[a|e] s']; simpl; tauto.
Qed.

Lemma runCall_invariant c s :
  cacheInvariant s -> cacheInvariant (snd (runCall c s)).
Proof.
  intros Hinv. destruct c as [i|i|i tc|i m| |]; simpl.
  - destruct (fastTier_origin i s Hinv) as [H1 H2].
    rewrite bind_ret_tt_state; [exact H1|].
    eapply returns_weaken; [|exact H2]. auto.
  - destruct (balancedTier_origin i s Hinv) as [H1 H2].
    rewrite bind_ret_tt_state; [exact H1|].
    eapply returns_weaken; [|exact H2]. auto.
  - destruct (smartTier_origin i tc s Hinv) as [H1 H2].
    rewrite bind_ret_tt_state; [exact H1|].
    eapply returns_weaken; [|exact H2]. auto.
  - destruct (predict_origin i m s Hinv) as [H1 H2].
    rewrite bind_ret_tt_state; [exact H1|].
    eapply returns_weaken; [|exact H2]. auto.
  - apply cacheInvariant_initial.
  - exact Hinv.
Qed.

Lemma runCalls_invariant cs : forall s,
  cacheInvariant s -> cacheInvariant (runCalls cs s).
Proof.
  induction cs as [|c cs IH]; intros s Hinv; simpl; auto.
  apply IH. now apply runCall_invariant.
Qed.

Lemma reachable_invariant cs : cacheInvariant (runCalls cs initialState).
Proof. apply runCalls_invariant. apply cacheInvariant_initial. Qed.


(** ** Beyond the specification: the cache in use *)

(** X1.  In every state a predictor reaches from a fresh start through
    its public operations, each cache entry was built by the tier that
    owns its key (a fast result under a fast key, a balanced result
    under a balanced key); the static fallback is never stored, no
    stored result carries the [fromCache] flag, and no key occurs
    twice. *)
Theorem cache_holds_only_tier_results (cs : list ApiCall) :
  let c := predictionCache (runCalls cs initialState) in
  Forall (fun ke =>
            (fastEntry (fst ke) (result (snd ke))
             \/ balancedEntry (fst ke) (result (snd ke)))
            /\ engineUsed (result (snd ke)) <> "Basic Fallback"
            /\ fromCache (result (snd ke)) = None) c
  /\ NoDup (JS.mapKeys c).
Proof.
  cbv zeta. destruct (reachable_invariant cs) as (Hp & Hnd & _).
  split; [|exact Hnd]. apply Forall_forall. intros [k e] Hin. simpl.
  pose proof (Hp k e Hin) as H. split; [exact H|].
  destruct H as [(i & el & dt & _ & ->)|(i & en & dt & _ & ->)];
    simpl; split; (discriminate || reflexivity).
Qed.

Lemma Origin_facts input r :
  Origin input r ->
  In (accuracy r) accuracyTable
  /\ (fromCache r = Some true -> engineUsed r <> "Basic Fallback")
  /\ (fromCache r = None \/ fromCache r = Some true)
  /\ In (engineUsed r)
       ["Basic Fallback"; "Elo Rating System"; "Elo + ML Ensemble"].
Proof.
  unfold accuracyTable.
  intros [dt ->|el dt ->|en dt ->|i el dt _ ->|i en dt _ ->]; simpl.
  - repeat split; auto; discriminate.
  - repeat split; auto; try discriminate. destruct (format input); simpl; auto 10.
  - repeat split; auto; try discriminate. destruct (format input); simpl; auto 10.
  - repeat split; auto; try discriminate. destruct (format i); simpl; auto 10.
  - repeat split; auto; try discriminate. destruct (format i); simpl; auto 10.
Qed.

(** X2.  In every reachable state, [predict] returns (it does not
    throw) a result whose accuracy is one of the six engine constants
    65, 72, 75, 78, 79, 82 and whose engine is one of the three engine
    names; a result flagged [fromCache] is never the static fallback,
    and the flag is either absent or [true]. *)
Theorem served_result_is_an_engine_result
    (cs : list ApiCall) (input : PredictionInput) (mode : Mode) :
  returns
    (fun r =>
       In (accuracy r) accuracyTable
       /\ (fromCache r = Some true -> engineUsed r <> "Basic Fallback")
       /\ (fromCache r = None \/ fromCache r = Some true)
       /\ In (engineUsed r)
            ["Basic Fallback"; "Elo Rating System"; "Elo + ML Ensemble"])
    (predict input mode (runCalls cs initialState)).
Proof.
  destruct (predict_origin input mode _ (reachable_invariant cs)) as [_ H].
  eapply returns_weaken; [apply Origin_facts | exact H].
Qed.

(** X3.  In every reachable state the fast tier returns either the
    static fallback or a rating result for the requested format: its
    accuracy is the fast constant of the input's format (78, 75 or 72)
    and its risk factors are those of that format, also when the result
    is served from the cache.  It never returns a result of the
    balanced engine. *)
Theorem fast_tier_reports_requested_format
    (cs : list ApiCall) (input : PredictionInput) :
  returns
    (fun r =>
       (engineUsed r = "Basic Fallback" /\ accuracy r = 65)
       \/ (engineUsed r = "Elo Rating System"
           /\ accuracy r = fastAccuracy (format input)
           /\ confidence r = 0.75%Q
           /\ riskFactors r
              = match format input with
                | Test => ["Weather dependency"; "Match duration"]
                | _ => []
                end))
    (generateFastPrediction input (runCalls cs initialState)).
Proof.
  destruct (fastTier_origin input _ (reachable_invariant cs)) as [_ H].
  eapply returns_weaken; [|exact H]. clear H.
  intros r [(dt & ->)|[(el & dt & ->)|(i & el & dt & Hk & ->)]]; simpl.
  - left. auto.
  - right. auto.
  - right. apply fastKey_format in Hk. rewrite Hk. auto.
Qed.

(** The size of the cache after a write, for a cache with distinct
    keys that is within capacity. *)
Lemma cacheResultAt_size_law key r now (c : Cache) :
  NoDup (JS.mapKeys c) -> JS.mapSize c <= CACHE_CAPACITY ->
  JS.mapSize (cacheResultAt key r now c)
  = if JS.mapHas key c then JS.mapSize c
    else Z.min (JS.mapSize c + 1) CACHE_CAPACITY.
Proof.
  intros Hnd Hsz. unfold JS.mapSize, CACHE_CAPACITY in *.
  destruct (JS.mapHas key c) eqn:Hhas.
  - apply mapHas_true_in in Hhas.
    pose proof (length_mapSet_present key
                  {| result := r; timestamp := now |} c Hhas) as Hlen.
    destruct (cacheResultAt_keys key r now c)
      as [[_ ->]|[Hgt _]]; unfold JS.mapSize, CACHE_CAPACITY in *.
    + now rewrite Hlen.
    + rewrite Hlen in Hgt. lia.
  - apply mapHas_false_notin in Hhas.
    pose proof (length_mapSet_absent key
                  {| result := r; timestamp := now |} c Hhas) as Hlen.
    destruct (cacheResultAt_keys key r now c)
      as [[Hle ->]|[Hgt (oldest & rest & Hk & ->)]];
      unfold JS.mapSize, CACHE_CAPACITY in *.
    + rewrite Hlen in *. lia.
    + assert (Hin : In oldest
                      (JS.mapKeys
                         (JS.mapSet key {| result := r; timestamp := now |} c)))
        by (rewrite Hk; now left).
      pose proof (length_mapDelete_present oldest _
                    (NoDup_mapSet key {| result := r; timestamp := now |}
                       c Hnd) Hin) as Hdel.
      rewrite Hlen in *. lia.
Qed.

(** X4.  In every reachable state, a cache write under a key that is
    present leaves the size as it is, and a write under a new key
    grows the size by one up to 100 and then keeps it at exactly 100:
    an eviction removes one entry, never more. *)
Theorem cache_size_after_write
    (cs : list ApiCall) (key : string) (r : FastPredictionResult) :
  let s := runCalls cs initialState in
  JS.mapSize (predictionCache (snd (cacheResult key r s)))
  = if JS.mapHas key (predictionCache s)
    then JS.mapSize (predictionCache s)
    else Z.min (JS.mapSize (predictionCache s) + 1) 100.
Proof.
  cbv zeta. destruct (reachable_invariant cs) as (_ & Hnd & Hsz).
  rewrite putCached_run. simpl.
  now apply cacheResultAt_size_law.
Qed.

(** X5.  A write under a key that is present refreshes the entry in
    place: the iteration order does not change.  So when the first key
    of a full cache is recomputed and the next write brings a new key,
    the entry that was just refreshed is the one evicted. *)
Theorem refreshed_first_entry_is_evicted_next
    (cs : list ApiCall) (key : string) (rest : list string)
    (r r' : FastPredictionResult) (now now' : Z) (k' : string) :
  let c := predictionCache (runCalls cs initialState) in
  let refreshed := cacheResultAt key r now c in
  JS.mapKeys c = key :: rest ->
  JS.mapSize c = CACHE_CAPACITY ->
  ~ In k' (key :: rest) ->
  JS.mapKeys refreshed = key :: rest
  /\ JS.mapGet key refreshed = Some {| result := r; timestamp := now |}
  /\ JS.mapKeys (cacheResultAt k' r' now' refreshed) = (rest ++ [k'])%list
  /\ JS.mapGet key (cacheResultAt k' r' now' refreshed) = None.
Proof.
  intros c refreshed Hkeys Hfull Hnew.
  destruct (reachable_invariant cs) as (_ & Hnd & _). fold c in Hnd.
  assert (Hin : In key (JS.mapKeys c)) by (rewrite Hkeys; now left).
  assert (Href : refreshed
                 = JS.mapSet key {| result := r; timestamp := now |} c).
  { unfold refreshed.
    destruct (cacheResultAt_keys key r now c) as [[_ ->]|[Hgt _]]; auto.
    exfalso. unfold JS.mapSize in *.
    rewrite (length_mapSet_present key _ c Hin) in Hgt. lia. }
  assert (Hrk : JS.mapKeys refreshed = key :: rest)
    by (rewrite Href, mapKeys_mapSet_present; auto).
  assert (Hrsz : JS.mapSize refreshed = CACHE_CAPACITY).
  { rewrite Href. unfold JS.mapSize in *.
    now rewrite (length_mapSet_present key _ c Hin). }
  split; [exact Hrk|]. split; [rewrite Href; apply mapGet_mapSet_same|].
  assert (Hnew' : ~ In k' (JS.mapKeys refreshed)) by now rewrite Hrk.
  pose proof (mapKeys_mapSet_absent k'
                {| result := r'; timestamp := now' |} refreshed Hnew') as Hk2.
  rewrite Hrk in Hk2. simpl in Hk2.
  assert (Hfresh : ~ In key (rest ++ [k'])%list).
  { rewrite Hkeys in Hnd. inversion Hnd as [|? ? Hk Hnd']; subst.
    intros H. apply in_app_or in H. destruct H as [H|[H|[]]]; [tauto|].
    apply Hnew. left. symmetry. exact H. }
  assert (Hevict : cacheResultAt k' r' now' refreshed
                   = JS.mapDelete key
                       (JS.mapSet k' {| result := r'; timestamp := now' |}
                          refreshed)).
  { destruct (cacheResultAt_keys k' r' now' refreshed)
      as [[Hle _]|[_ (oldest & rest' & Hk & Heq)]].
    - exfalso. unfold JS.mapSize in *.
      rewrite (length_mapSet_absent k' _ refreshed Hnew') in Hle.
      unfold CACHE_CAPACITY in *. lia.
    - rewrite Hk2 in Hk. injection Hk as <- _. exact Heq. }
  split.
  - rewrite Hevict. now apply mapKeys_mapDelete_head.
  - rewrite Hevict. apply mapGet_mapDelete_same.
Qed.

(** X6.  A computation that ended in the static fallback is not
    remembered: when the fast tier finds no entry and the rating call
    throws, it returns the fallback and leaves the cache exactly as it
    was, so the next call for the same input consults the rating
    provider again. *)
Theorem failed_computation_is_not_cached
    (input : PredictionInput) (s : PState) (err : string) :
  JS.mapGet (fastKey input) (predictionCache s) = None ->
  calculateWinProbability (S (tick s)) (team1Id input) (team2Id input)
    (format input) = Throw err ->
  exists elapsed s',
    generateFastPrediction input s
    = (Ok (generateBasicFallback input elapsed), s')
    /\ predictionCache s' = predictionCache s
    /\ forall s2,
         predictionCache s2 = predictionCache s' ->
         generateFastPrediction input s2
         = fastCompute input (fastKey input) s2.
Proof.
  intros Habs Hthrow.
  assert (Hmiss : forall s2,
             predictionCache s2 = predictionCache s ->
             generateFastPrediction input s2
             = fastCompute input (fastKey input) s2).
  { intros s2 Hc. rewrite fastTier_run. unfold lookupAt.
    rewrite getCached_run, Hc, Habs. reflexivity. }
  rewrite (Hmiss s eq_refl), fastCompute_run, Hthrow.
  do 2 eexists. split; [reflexivity|]. split; [reflexivity|].
  simpl. exact Hmiss.
Qed.

(** What a write under [key] does to the entry under another key [k]
    of a cache within capacity: the entry is deleted when the write
    evicts and [k] is the first key, and is left as it was otherwise. *)
Lemma cacheResultAt_other key r now (c : Cache) k :
  JS.mapSize c <= CACHE_CAPACITY -> k <> key ->
  JS.mapGet k (cacheResultAt key r now c)
  = if writeEvicts key c && isOldestKey k c then None else JS.mapGet k c.
Proof.
  intros Hsz Hne. unfold writeEvicts, isOldestKey.
  set (e := {| result := r; timestamp := now |}).
  assert (Hset : JS.mapGet k (JS.mapSet key e c) = JS.mapGet k c)
    by now apply mapGet_mapSet_other.
  unfold JS.mapSize, CACHE_CAPACITY in *.
  destruct (JS.mapHas key c) eqn:Hhas.
  - rewrite andb_false_r. cbn [andb].
    apply mapHas_true_in in Hhas.
    destruct (cacheResultAt_keys key r now c) as [[_ ->]|[Hgt _]];
      [exact Hset|].
    exfalso. unfold JS.mapSize, CACHE_CAPACITY in Hgt. fold e in Hgt.
    rewrite (length_mapSet_present key e c Hhas) in Hgt. lia.
  - rewrite andb_true_r.
    apply mapHas_false_notin in Hhas.
    pose proof (length_mapSet_absent key e c Hhas) as Hlen.
    pose proof (mapKeys_mapSet_absent key e c Hhas) as Hkeys.
    destruct (cacheResultAt_keys key r now c)
      as [[Hle ->]|[Hgt (oldest & rest & Hk & ->)]];
      unfold JS.mapSize, CACHE_CAPACITY in *; fold e in Hle || fold e in Hgt.
    + rewrite Hlen in Hle.
      destruct (Z.eqb_spec (Z.of_nat (List.length c)) 100) as [Heq|_];
        [lia | exact Hset].
    + fold e in Hk. rewrite Hlen in Hgt.
      destruct (Z.eqb_spec (Z.of_nat (List.length c)) 100) as [_|Hneq];
        [|lia].
      cbn [andb]. rewrite Hkeys in Hk.
      destruct (JS.mapKeys c) as [|k0 ks] eqn:Hc.
      * exfalso. destruct c; [simpl in Hgt; lia | discriminate].
      * simpl in Hk. injection Hk as <- _.
        destruct (String.eqb k0 k) eqn:E.
        -- apply String.eqb_eq in E. subst k0. apply mapGet_mapDelete_same.
        -- apply String.eqb_neq in E.
           rewrite mapGet_mapDelete_other by congruence. exact Hset.
Qed.

(** X7.  The two tiers never share a cache key, so one tier's write
    never alters an entry of the other tier; but the cache is one
    [Map], and it can delete it.  In every reachable state, after a
    write under a fast key a lookup under a balanced key finds what it
    found before, except when the write evicts (the cache holds 100
    entries and the fast key is new) and that balanced key is the
    first key of the cache: then the entry is gone.  The same holds
    with the two tiers exchanged. *)
Theorem tiers_interfere_only_by_eviction
    (cs : list ApiCall) (i j : PredictionInput) (r : FastPredictionResult) :
  let s := runCalls cs initialState in
  let c := predictionCache s in
  String.eqb (fastKey i) (balancedKey j) = false
  /\ JS.mapGet (balancedKey j)
       (predictionCache (snd (cacheResult (fastKey i) r s)))
     = (if writeEvicts (fastKey i) c && isOldestKey (balancedKey j) c
        then None else JS.mapGet (balancedKey j) c)
  /\ JS.mapGet (fastKey i)
       (predictionCache (snd (cacheResult (balancedKey j) r s)))
     = (if writeEvicts (balancedKey j) c && isOldestKey (fastKey i) c
        then None else JS.mapGet (fastKey i) c).
Proof.
  cbv zeta. pose proof (fastKey_balancedKey i j) as Hne.
  destruct (reachable_invariant cs) as (_ & _ & Hsz).
  split; [now apply String.eqb_neq|].
  rewrite !putCached_run. cbn [snd predictionCache].
  split; apply cacheResultAt_other; auto.
Qed.

(** A stored, unexpired entry under the fast key of [j] is what the
    fast tier returns for [j]. *)
Lemma fast_tier_hit j s r ts :
  storedUnder (fastKey j) r ts (predictionCache s) ->
  dateNow (tick s) - ts < CACHE_TTL ->
  generateFastPrediction j s = (Ok (markFromCache r), advance s).
Proof.
  intros (e & Hget & <- & Hres) Hlt. apply Z.ltb_lt in Hlt.
  rewrite fastTier_run. unfold lookupAt.
  rewrite getCached_run, Hget, Hlt. simpl. now rewrite Hres.
Qed.

Lemma fast_tier_replays_for_equal_key i j s0 r1 s1 :
  fastKey i = fastKey j ->
  JS.mapSize (predictionCache s0) <= CACHE_CAPACITY ->
  generateFastPrediction i s0 = (Ok r1, s1) ->
  engineUsed r1 <> "Basic Fallback" ->
  exists ts,
    storedUnder (fastKey j) r1 ts (predictionCache s1)
    /\ (dateNow (tick s1) - ts < CACHE_TTL ->
        generateFastPrediction j s1 = (Ok (markFromCache r1), advance s1)).
Proof.
  intros Hk Hsz Hrun Hengine.
  destruct (fast_result_stored_unless_fallback i s0 r1 s1 Hsz Hrun Hengine)
    as [ts Hst].
  rewrite Hk in Hst. exists ts. split; [exact Hst|].
  now apply fast_tier_hit.
Qed.

(** X8.  The fast key is built from the two team ids and the format
    only.  A fast prediction for one venue, tournament and series
    context is therefore served, while its entry is unexpired, to a
    request for the same teams and format at any other venue, in any
    other tournament or series context. *)
Theorem fast_tier_serves_any_venue
    (i j : PredictionInput) (s0 s1 : PState) (r1 : FastPredictionResult) :
  team1Id i = team1Id j -> team2Id i = team2Id j -> format i = format j ->
  JS.mapSize (predictionCache s0) <= CACHE_CAPACITY ->
  generateFastPrediction i s0 = (Ok r1, s1) ->
  engineUsed r1 <> "Basic Fallback" ->
  exists ts,
    storedUnder (fastKey j) r1 ts (predictionCache s1)
    /\ (dateNow (tick s1) - ts < CACHE_TTL ->
        generateFastPrediction j s1 = (Ok (markFromCache r1), advance s1)).
Proof.
  intros H1 H2 H3 Hsz Hrun Hengine.
  apply (fast_tier_replays_for_equal_key i j s0 r1 s1); auto.
  unfold fastKey. now rewrite H1, H2, H3.
Qed.

Lemma string_app_assoc (a b c : string) : (a ++ b) ++ c = a ++ b ++ c.
Proof. induction a as [|x a IH]; simpl; [reflexivity | now rewrite IH]. Qed.

Lemma fastKey_regroup (a b c : string) (f : Format) :
  "fast_" ++ (a ++ "_" ++ b) ++ "_" ++ c ++ "_" ++ formatText f
  = "fast_" ++ a ++ "_" ++ (b ++ "_" ++ c) ++ "_" ++ formatText f.
Proof. rewrite !string_app_assoc. reflexivity. Qed.

(** X9.  The fast key joins the team ids with underscores and the ids
    may contain underscores themselves, so the key does not determine
    the teams: the pair ([a_b], [c]) and the pair ([a], [b_c]) have the
    same key, and a fast prediction for the first pair is served from
    the cache to a request for the second. *)
Theorem fast_key_does_not_separate_team_ids
    (a b c : string) (i j : PredictionInput) (s0 s1 : PState)
    (r1 : FastPredictionResult) :
  team1Id i = a ++ "_" ++ b -> team2Id i = c ->
  team1Id j = a -> team2Id j = b ++ "_" ++ c ->
  format i = format j ->
  JS.mapSize (predictionCache s0) <= CACHE_CAPACITY ->
  generateFastPrediction i s0 = (Ok r1, s1) ->
  engineUsed r1 <> "Basic Fallback" ->
  fastKey i = fastKey j
  /\ exists ts,
      storedUnder (fastKey j) r1 ts (predictionCache s1)
      /\ (dateNow (tick s1) - ts < CACHE_TTL ->
          generateFastPrediction j s1 = (Ok (markFromCache r1), advance s1)).
Proof.
  intros H1 H2 H3 H4 Hf Hsz Hrun Hengine.
  assert (Hk : fastKey i = fastKey j).
  { unfold fastKey. rewrite H1, H2, H3, H4, Hf. apply fastKey_regroup. }
  split; [exact Hk|].
  now apply (fast_tier_replays_for_equal_key i j s0 r1 s1).
Qed.

(** X10.  [clearCache] forgets everything at once: afterwards the
    statistics report size 0 and both tiers, for every input, go
    straight to their computation without reading the clock for a
    lookup. *)
Theorem clear_cache_forgets_everything (s : PState) (input : PredictionInput) :
  let s' := snd (clearCache s) in
  fst (getCacheStats s') = Ok {| size := 0; hitRate := 0.85 |}
  /\ tick s' = tick s
  /\ generateFastPrediction input s'
     = fastCompute input (fastKey input) s'
  /\ generateBalancedPrediction input s'
     = balancedCompute input (balancedKey input) s'.
Proof.
  cbv zeta. split; [reflexivity|]. split; [reflexivity|]. split.
  - rewrite fastTier_run. unfold lookupAt. now rewrite getCached_run.
  - rewrite balancedTier_run. unfold lookupAt. now rewrite getCached_run.
Qed.

End Predictor.

(** * The properties on concrete runs

    The texts of these runs are made of ASCII characters, on which
    [toLowerCase] is [JS.lowerAsciiText]. *)

Import Scenario.

(** C1.  A rating provider that reports no draw mass (0.6 / 0.4 / 0, a
    distribution that satisfies the invariant) makes the fast tier
    return 0.6 / 0.4 / 0.02: the zero is replaced by 0.02, the sum is
    1.02, and the result is outside the invariant.  The balanced tier
    does the same with the features provider's 0.65 / 0.35 / 0. *)
Theorem zero_draw_breaks_probability_sum :
  validDistribution 0.6 0.4 0
  /\ validDistribution 0.65 0.35 0
  /\ (exists r s',
        generateFastPrediction clock eloZeroDraw friendly initialState
        = (Ok r, s')
        /\ (team1WinProb r + team2WinProb r + drawProb r == 1.02)%Q
        /\ ~ validResult r)
  /\ (exists r s',
        generateBalancedPrediction clock eloZeroDraw mlZeroDraw friendly
          initialState = (Ok r, s')
        /\ (team1WinProb r + team2WinProb r + drawProb r == 1.02)%Q
        /\ ~ validResult r).
Proof.
  split; [unfold validDistribution; repeat split; lra|].
  split; [unfold validDistribution; repeat split; lra|].
  split.
  - do 2 eexists. split; [vm_compute; reflexivity|].
    split; [reflexivity|].
    unfold validResult, validDistribution. simpl. lra.
  - do 2 eexists. split; [vm_compute; reflexivity|].
    split; [reflexivity|].
    unfold validResult, validDistribution. simpl. lra.
Qed.

(** C2, the claim as worded fails: a tournament text that carries
    "semi" (and nothing else from the vocabulary) is important by the
    claim's test, yet smart mode runs the fast tier for it and not the
    balanced tier. *)
Lemma semi_in_tournament_goes_fast :
  claimedImportant JS.lowerAsciiText semiTournament = true
  /\ predict JS.lowerAsciiText clock eloSteady mlSteady semiTournament
       ModeSmart initialState
     = generateFastPrediction clock eloSteady semiTournament initialState
  /\ predict JS.lowerAsciiText clock eloSteady mlSteady semiTournament
       ModeSmart initialState
     <> generateBalancedPrediction clock eloSteady mlSteady semiTournament
          initialState.
Proof.
  split; [reflexivity|]. split; [reflexivity|].
  vm_compute. discriminate.
Qed.

(** C4, the claim as worded fails: with the time constraint
    ['balanced'] a match without importance markers is handed to the
    fast tier, not to the balanced tier; with markers it goes to the
    balanced tier.  The constraint does consult the markers. *)
Lemma balanced_constraint_consults_markers :
  generateSmartPrediction JS.lowerAsciiText clock eloSteady mlSteady
    friendly TCBalanced initialState
  = generateFastPrediction clock eloSteady friendly initialState
  /\ generateSmartPrediction JS.lowerAsciiText clock eloSteady mlSteady
       friendly TCBalanced initialState
     <> generateBalancedPrediction clock eloSteady mlSteady friendly
          initialState
  /\ generateSmartPrediction JS.lowerAsciiText clock eloSteady mlSteady
       worldCupFinal TCBalanced initialState
     = generateBalancedPrediction clock eloSteady mlSteady worldCupFinal
         initialState.
Proof.
  split; [reflexivity|]. split; [|reflexivity].
  vm_compute. discriminate.
Qed.

(** C3, the claim as worded fails: after one successful fast
    prediction both providers go down; a balanced prediction for the
    same input, made ten seconds after the first, calls the rating
    provider, which throws, and then returns the cached fast result
    (accuracy 78, no risk factors) instead of the static fallback. *)
Lemma cached_result_served_while_providers_down :
  let s1 :=
    snd (predict JS.lowerAsciiText clock (eloUntil 10) mlDown friendly
           ModeFast initialState) in
  let s2 := {| predictionCache := predictionCache s1; tick := 10 |} in
  ratingsDownFrom (eloUntil 10) 10
  /\ exists r s',
      predict JS.lowerAsciiText clock (eloUntil 10) mlDown friendly
        ModeBalanced s2 = (Ok r, s')
      /\ tick s' = 13%nat
      /\ engineUsed r = "Elo Rating System"
      /\ fromCache r = Some true
      /\ accuracy r = 78 /\ ~ accuracy r < 70
      /\ riskFactors r = [].
Proof.
  cbv zeta. split.
  - intros n a b f Hn. unfold eloUntil.
    destruct (Nat.ltb_spec n 10); [lia|]. eauto.
  - do 2 eexists. split; [vm_compute; reflexivity|]. simpl.
    repeat split. lia.
Qed.

(** C5, the claim as worded fails: a balanced call whose features
    provider throws returns a fast result, which is cached (under the
    fast key); a second balanced call one second later, well inside
    the TTL, finds the features provider working, computes a balanced
    result and returns it without [fromCache]. *)
Lemma degraded_balanced_result_not_replayed :
  exists r1 s1 r2 s2 ts,
    generateBalancedPrediction clock eloSteady (mlFrom 5) friendly
      initialState = (Ok r1, s1)
    /\ storedUnder (fastKey friendly) r1 ts (predictionCache s1)
    /\ clock (tick s1) - ts < CACHE_TTL
    /\ generateBalancedPrediction clock eloSteady (mlFrom 5) friendly s1
       = (Ok r2, s2)
    /\ r2 <> markFromCache r1
    /\ fromCache r2 = None
    /\ engineUsed r1 = "Elo Rating System"
    /\ engineUsed r2 = "Elo + ML Ensemble".
Proof.
  do 4 eexists. exists 6000.
  split; [vm_compute; reflexivity|].
  split.
  { eexists. split; [vm_compute; reflexivity|]. split; reflexivity. }
  split; [vm_compute; reflexivity|].
  split; [vm_compute; reflexivity|].
  split; [discriminate|]. repeat split.
Qed.

(** ** Instances *)

(** C10 on a cache whose only entry is ten minutes old: the read
    answers [null], and the statistics still count the entry. *)
Lemma stale_entry_still_counted :
  JS.mapGet "k" (predictionCache staleState) = Some staleEntry
  /\ CACHE_TTL <= clockJump 0 (tick staleState) - timestamp staleEntry
  /\ fst (getCachedPrediction (clockJump 0) "k" staleState) = Ok None
  /\ fst (getCacheStats staleState)
     = Ok {| size := 1; hitRate := 0.85 |}.
Proof.
  assert (Hold : CACHE_TTL
                 <= clockJump 0 (tick staleState) - timestamp staleEntry)
    by (vm_compute; discriminate).
  split; [reflexivity|]. split; [exact Hold|]. split.
  - exact (proj1 (proj2 (cache_stats_static_hit_rate (clockJump 0) staleState)
                   "k" staleEntry eq_refl Hold)).
  - reflexivity.
Defined.

(** C2 on the two tournaments the specification names, with a
    [toLowerCase] that is the conversion of ASCII texts. *)
Lemma final_goes_balanced_and_friendly_goes_fast :
  JS.lowersAscii JS.lowerAsciiText
  /\ predict JS.lowerAsciiText clock eloSteady mlSteady worldCupFinal
       ModeSmart
     = generateBalancedPrediction clock eloSteady mlSteady worldCupFinal
  /\ predict JS.lowerAsciiText clock eloSteady mlSteady friendly ModeSmart
     = generateFastPrediction clock eloSteady friendly.
Proof.
  assert (Hascii : JS.lowersAscii JS.lowerAsciiText)
    by (intros s _; reflexivity).
  pose proof (proj2 (proj2 (smart_mode_routes_on_field_markers
                              JS.lowerAsciiText clock eloSteady mlSteady
                              friendly)) Hascii) as [Hfinal [Hfriendly _]].
  split; [exact Hascii|]. split.
  - exact (Hfinal "cricket_india" "cricket_australia" "Eden Gardens" T20 None).
  - exact (Hfriendly "cricket_india" "cricket_australia" "Eden Gardens" T20
             None).
Defined.

(** C4 on a friendly with the time constraint ['balanced']. *)
Lemma friendly_with_balanced_constraint_goes_fast :
  JS.lowersAscii JS.lowerAsciiText
  /\ generateSmartPrediction JS.lowerAsciiText clock eloSteady mlSteady
       friendly TCBalanced
     = generateFastPrediction clock eloSteady friendly.
Proof.
  assert (Hascii : JS.lowersAscii JS.lowerAsciiText)
    by (intros s _; reflexivity).
  split; [exact Hascii|].
  exact (proj2 (proj2 (proj2 (proj2
           (time_constraint_dispatch JS.lowerAsciiText clock eloSteady
              mlSteady friendly)))) Hascii
           "cricket_india" "cricket_australia" "Eden Gardens" T20).
Defined.

(** C6 on a fresh predictor whose features provider is down. *)
Lemma balanced_with_features_down_is_fast :
  generateBalancedPrediction clock eloSteady mlDown friendly initialState
  = generateFastPrediction clock eloSteady friendly
      {| predictionCache := []; tick := 3 |}.
Proof.
  exact (proj1 (balanced_degrades_to_fast clock eloSteady mlDown friendly
                  initialState initialState
                  {| eloTeam1WinProb := 0.6; eloTeam2WinProb := 0.38;
                     eloDrawProb := 0.02 |}
                  "features unavailable" eq_refl eq_refl eq_refl)).
Defined.

(** C3 on a fresh predictor with both providers down, and on a
    predictor that holds an unexpired balanced result when the rating
    provider goes down: mode [fast] returns the static fallback, mode
    [balanced] the cached result. *)
Lemma fresh_predictor_falls_back :
  let s1 :=
    snd (predict JS.lowerAsciiText clock (eloUntil 10) mlSteady friendly
           ModeBalanced initialState) in
  let s2 := {| predictionCache := predictionCache s1; tick := 10 |} in
  (exists elapsed s',
     predict JS.lowerAsciiText clock eloDown mlDown friendly ModeBalanced
       initialState
     = (Ok (generateBasicFallback friendly elapsed), s')
     /\ accuracy (generateBasicFallback friendly elapsed) < 70
     /\ riskFactors (generateBasicFallback friendly elapsed) <> []
     /\ engineUsed (generateBasicFallback friendly elapsed)
        = "Basic Fallback")
  /\ ratingsDownFrom (eloUntil 10) (tick s2)
  /\ lookupAt (balancedKey friendly) (clock (tick s2)) (predictionCache s2)
     = Some (markFromCache (balancedResult friendly enhanced 3000))
  /\ (exists elapsed s',
        predict JS.lowerAsciiText clock (eloUntil 10) mlSteady friendly
          ModeFast s2
        = (Ok (generateBasicFallback friendly elapsed), s'))
  /\ predict JS.lowerAsciiText clock (eloUntil 10) mlSteady friendly
       ModeBalanced s2
     = (Ok (markFromCache (balancedResult friendly enhanced 3000)),
        advance s2).
Proof.
  cbv zeta.
  assert (Hdown : ratingsDownFrom (eloUntil 10) 10).
  { intros n a b f Hn. unfold eloUntil.
    destruct (Nat.ltb_spec n 10); [lia|]. eauto. }
  split.
  { apply (proj1 (proj2 (predict_never_throws JS.lowerAsciiText clock eloDown
                           mlDown friendly ModeBalanced initialState))).
    - intros n a b f _. exists "ratings unavailable". reflexivity.
    - intros n _. reflexivity.
    - intros n _. reflexivity. }
  split; [exact Hdown|]. split; [reflexivity|]. split.
  - exact (proj1 (proj2 (proj2
             (predict_never_throws JS.lowerAsciiText clock (eloUntil 10)
                mlSteady friendly ModeFast
                {| predictionCache :=
                     predictionCache
                       (snd (predict JS.lowerAsciiText clock (eloUntil 10)
                               mlSteady friendly ModeBalanced initialState));
                   tick := 10 |}))) Hdown).
  - exact (proj1 (proj2 (proj2
             (predict_never_throws JS.lowerAsciiText clock (eloUntil 10)
                mlSteady friendly ModeBalanced
                {| predictionCache :=
                     predictionCache
                       (snd (predict JS.lowerAsciiText clock (eloUntil 10)
                               mlSteady friendly ModeBalanced initialState));
                   tick := 10 |}))) Hdown).
Defined.

(** C5 on fast calls in a row: a second call is served from the entry
    the first one wrote three seconds earlier, and so is a call made
    after a prediction for another team has changed the cache.  A
    balanced call whose features provider is down leaves nothing under
    the balanced key. *)
Lemma second_fast_call_replays_first :
  let first :=
    generateFastPrediction clock eloSteady friendly initialState in
  let r1 := fastResult friendly
              {| eloTeam1WinProb := 0.6; eloTeam2WinProb := 0.38;
                 eloDrawProb := 0.02 |} 2000 in
  let other :=
    generateFastPrediction clock eloSteady (teamMatch 1) (snd first) in
  first = (Ok r1, snd first)
  /\ storedUnder (fastKey friendly) r1 3000 (predictionCache (snd first))
  /\ clock (tick (snd first)) - 3000 < CACHE_TTL
  /\ generateFastPrediction clock eloSteady friendly (snd first)
     = (Ok (markFromCache r1), advance (snd first))
  /\ JS.mapSize (predictionCache (snd other)) = 2
  /\ storedUnder (fastKey friendly) r1 3000 (predictionCache (snd other))
  /\ clock (tick (snd other)) - 3000 < CACHE_TTL
  /\ generateFastPrediction clock eloSteady friendly (snd other)
     = (Ok (markFromCache r1), advance (snd other))
  /\ (exists r s',
        generateBalancedPrediction clock eloSteady mlDown friendly
          initialState = (Ok r, s')
        /\ JS.mapGet (balancedKey friendly) (predictionCache s') = None
        /\ (engineUsed r <> "Basic Fallback" ->
            exists ts',
              storedUnder (fastKey friendly) r ts' (predictionCache s'))
        /\ forall s3,
             JS.mapGet (balancedKey friendly) (predictionCache s3) = None ->
             generateBalancedPrediction clock eloSteady mlDown friendly s3
             = balancedCompute clock eloSteady mlDown friendly
                 (balancedKey friendly) s3).
Proof.
  cbv zeta.
  assert (Hfirst :
            runTier clock eloSteady mlSteady FastTier friendly initialState
            = (Ok (fastResult friendly
                     {| eloTeam1WinProb := 0.6; eloTeam2WinProb := 0.38;
                        eloDrawProb := 0.02 |} 2000),
               snd (generateFastPrediction clock eloSteady friendly
                      initialState)))
    by reflexivity.
  assert (Hstored :
            storedUnder (tierKey FastTier friendly)
              (fastResult friendly
                 {| eloTeam1WinProb := 0.6; eloTeam2WinProb := 0.38;
                    eloDrawProb := 0.02 |} 2000)
              3000
              (predictionCache
                 (snd (generateFastPrediction clock eloSteady friendly
                         initialState)))).
  { eexists. split; [reflexivity|]. split; reflexivity. }
  assert (Hsoon :
            clock (tick (snd (generateFastPrediction clock eloSteady friendly
                                initialState))) - 3000 < CACHE_TTL)
    by reflexivity.
  assert (Hstored' :
            storedUnder (tierKey FastTier friendly)
              (fastResult friendly
                 {| eloTeam1WinProb := 0.6; eloTeam2WinProb := 0.38;
                    eloDrawProb := 0.02 |} 2000)
              3000
              (predictionCache
                 (snd (generateFastPrediction clock eloSteady (teamMatch 1)
                         (snd (generateFastPrediction clock eloSteady
                                 friendly initialState)))))).
  { eexists. split; [reflexivity|]. split; reflexivity. }
  assert (Hsoon' :
            clock (tick (snd (generateFastPrediction clock eloSteady
                                (teamMatch 1)
                                (snd (generateFastPrediction clock eloSteady
                                        friendly initialState)))))
            - 3000 < CACHE_TTL)
    by reflexivity.
  split; [exact Hfirst|]. split; [exact Hstored|]. split; [exact Hsoon|].
  split.
  { exact (proj1 (proj1 (repeated_call_replays_cached_result clock eloSteady
                           mlSteady FastTier friendly _ 3000 _) Hstored)
             Hsoon). }
  split; [reflexivity|]. split; [exact Hstored'|]. split; [exact Hsoon'|].
  split.
  { exact (proj1 (proj1 (repeated_call_replays_cached_result clock eloSteady
                           mlSteady FastTier friendly _ 3000 _) Hstored')
             Hsoon'). }
  apply (proj2 (repeated_call_replays_cached_result clock eloSteady mlDown
                  BalancedTier friendly sample 0 initialState)
           initialState
           {| eloTeam1WinProb := 0.6; eloTeam2WinProb := 0.38;
              eloDrawProb := 0.02 |}
           "features unavailable").
  - vm_compute. discriminate.
  - reflexivity.
  - reflexivity.
  - reflexivity.
Defined.

(** C9 on a cache filled with a hundred distinct keys: the next new
    key evicts the first of them. *)
Lemma hundred_and_first_key_evicts_first :
  let s := fst (runHistory clock (distinctPuts 100) 0 initialState noBirths) in
  let s' := snd (cacheResult clock (unaryKey 100) sample s) in
  exists oldest older,
    JS.mapKeys (predictionCache s) = oldest :: older
    /\ JS.mapKeys (predictionCache s') = (older ++ [unaryKey 100])%list
    /\ ~ In oldest (older ++ [unaryKey 100])%list.
Proof.
  cbv zeta.
  assert (Hpast :
            CACHE_CAPACITY
            < JS.mapSize
                (JS.mapSet (unaryKey 100)
                   {| result := sample;
                      timestamp :=
                        clock (tick (fst (runHistory clock (distinctPuts 100)
                                            0 initialState noBirths))) |}
                   (predictionCache
                      (fst (runHistory clock (distinctPuts 100) 0
                              initialState noBirths)))))
    by (vm_compute; reflexivity).
  destruct (eviction_removes_first_inserted clock (distinctPuts 100)
              (unaryKey 100) sample Hpast)
    as (oldest & older & H1 & _ & H3 & H4 & _).
  exists oldest, older. auto.
Defined.

(** * Beyond the predictor *)

(** ** Dashboard statistics *)

(** Two different literals cannot both equal the same text. *)
Ltac eqb_clash :=
  match goal with
  | H1 : String.eqb ?x _ = true, H2 : String.eqb ?x _ = true |- _ =>
      apply String.eqb_eq in H1; rewrite H1 in H2;
      vm_compute in H2; discriminate H2
  end.

Lemma countWhere_cons p f l :
  Dashboard.countWhere p (f :: l)
  = (if p f then 1 else 0) + Dashboard.countWhere p l.
Proof.
  unfold Dashboard.countWhere. cbn [filter].
  destruct (p f); [cbn [List.length]; rewrite Nat2Z.inj_succ; lia | lia].
Qed.

Lemma countWhere_bounds p l :
  0 <= Dashboard.countWhere p l <= Z.of_nat (List.length l).
Proof.
  unfold Dashboard.countWhere. pose proof (filter_length_le p l). lia.
Qed.

(** X11.  The dashboard counts add up: every fixture is counted once
    as live, upcoming or completed, or has a status the dashboard does
    not count, so the three status counts sum to the total exactly when
    no fixture has another status; the cricket and tennis counts never
    exceed the total.  The handler answers 500 only when the storage
    call fails. *)
Theorem dashboard_counts_add_up
    (allFixtures : list Fx.Fixture) (isoNow : string) :
  let s := Dashboard.stats allFixtures isoNow in
  Dashboard.totalFixtures s
  = Dashboard.liveMatches s + Dashboard.upcomingMatches s
    + Dashboard.completedMatches s
    + Dashboard.countWhere (fun f => negb (Dashboard.countedStatus f))
        allFixtures
  /\ (Dashboard.liveMatches s + Dashboard.upcomingMatches s
      + Dashboard.completedMatches s = Dashboard.totalFixtures s
      <-> Forall (fun f => Dashboard.countedStatus f = true) allFixtures)
  /\ 0 <= Dashboard.cricketFixtures s + Dashboard.tennisFixtures s
     <= Dashboard.totalFixtures s
  /\ Dashboard.statsRoute (Ok allFixtures) isoNow = Dashboard.Json s
  /\ (forall e, Dashboard.statsRoute (Throw e) isoNow
                = Dashboard.Failed 500 "Failed to fetch stats").
Proof.
  cbv zeta. simpl.
  assert (Hsum :
            Z.of_nat (List.length allFixtures)
            = Dashboard.countWhere
                (fun f => String.eqb (Fx.status f) "live") allFixtures
              + Dashboard.countWhere
                  (fun f => String.eqb (Fx.status f) "upcoming") allFixtures
              + Dashboard.countWhere
                  (fun f => String.eqb (Fx.status f) "completed") allFixtures
              + Dashboard.countWhere
                  (fun f => negb (Dashboard.countedStatus f)) allFixtures).
  { induction allFixtures as [|f l IH]; [reflexivity|].
    rewrite !countWhere_cons. simpl List.length. rewrite Nat2Z.inj_succ, IH.
    unfold Dashboard.countedStatus.
    destruct (String.eqb (Fx.status f) "live") eqn:E1;
      destruct (String.eqb (Fx.status f) "upcoming") eqn:E2;
      destruct (String.eqb (Fx.status f) "completed") eqn:E3;
      cbn [orb negb]; try lia; eqb_clash. }
  assert (Hother :
            Dashboard.countWhere
              (fun f => negb (Dashboard.countedStatus f)) allFixtures = 0
            <-> Forall (fun f => Dashboard.countedStatus f = true)
                  allFixtures).
  { clear Hsum. induction allFixtures as [|f l IH].
    - split; [constructor | reflexivity].
    - rewrite countWhere_cons.
      pose proof (countWhere_bounds
                    (fun f => negb (Dashboard.countedStatus f)) l) as Hb.
      destruct (Dashboard.countedStatus f) eqn:E; cbn [negb]; split; intros H.
      + constructor; [exact E | apply IH; lia].
      + inversion H as [|? ? _ Hl]; subst. apply IH in Hl. lia.
      + lia.
      + inversion H; subst. congruence. }
  split; [exact Hsum|]. split.
  { rewrite <- Hother. lia. }
  split.
  { assert (Hsports :
              Dashboard.countWhere
                (fun f => String.eqb (Fx.sport f) "cricket") allFixtures
              + Dashboard.countWhere
                  (fun f => String.eqb (Fx.sport f) "tennis") allFixtures
              <= Z.of_nat (List.length allFixtures)).
    { clear Hsum Hother. induction allFixtures as [|f l IH];
        [unfold Dashboard.countWhere; simpl; lia|].
      rewrite !countWhere_cons. simpl List.length. rewrite Nat2Z.inj_succ.
      destruct (String.eqb (Fx.sport f) "cricket") eqn:E1;
        destruct (String.eqb (Fx.sport f) "tennis") eqn:E2; try lia.
      eqb_clash. }
    pose proof (countWhere_bounds
                  (fun f => String.eqb (Fx.sport f) "cricket") allFixtures).
    pose proof (countWhere_bounds
                  (fun f => String.eqb (Fx.sport f) "tennis") allFixtures).
    lia. }
  split; reflexivity.
Qed.

(** ** Request logging *)

(** X12.  Whatever the request, a line handed to [log] has at most 80
    code units.  A line of at most 80 units is logged as it is; a
    longer one is logged as its first 79 units followed by the
    ellipsis.  Requests whose path does not start with [/api] are not
    logged. *)
Theorem logged_line_fits_80
    (method path statusCode duration : RequestLog.CodeUnits)
    (captured : option RequestLog.CodeUnits) :
  let full := RequestLog.fullLine method path statusCode duration captured in
  match RequestLog.logged method path statusCode duration captured with
  | Some line =>
      RequestLog.startsWith path (RequestLog.ofText "/api") = true
      /\ (List.length line <= 80)%nat
      /\ ((List.length full <= 80)%nat -> line = full)
      /\ ((80 < List.length full)%nat ->
          List.length line = 80%nat
          /\ line = (firstn 79 full ++ [8230%N])%list)
  | None => RequestLog.startsWith path (RequestLog.ofText "/api") = false
  end.
Proof.
  cbv zeta. unfold RequestLog.logged.
  destruct (RequestLog.startsWith path (RequestLog.ofText "/api"));
    [|reflexivity].
  set (full := RequestLog.fullLine method path statusCode duration captured).
  unfold RequestLog.clip, RequestLog.ellipsis.
  destruct (Nat.ltb_spec 80 (List.length full)) as [Hlong|Hshort].
  - assert (Hlen : List.length (firstn 79 full ++ [8230%N])%list = 80%nat).
    { rewrite length_app, firstn_length_le by lia. reflexivity. }
    split; [reflexivity|]. split; [lia|]. split; [lia|]. auto.
  - split; [reflexivity|]. split; [exact Hshort|]. split; [auto | lia].
Qed.

(** ** The sports API service *)

Section SportsFacts.

Variable env : Sports.Env.

Lemma orText_nonempty (a : option string) (d : string) :
  d <> "" -> Sports.orText a d <> "".
Proof.
  intros Hd. unfold Sports.orText, Sports.orElse, Sports.truthyText.
  destruct a as [[|c s]|]; simpl; auto. discriminate.
Qed.

Lemma categoryOf_known (m : Sports.EntitySportMatch) :
  In (Sports.categoryOf env m) ["international"; "domestic"; "t20"].
Proof.
  unfold Sports.categoryOf.
  destruct (Sports.truthyText _); [|simpl; auto].
  destruct (Sports.competition m) as [c|]; [|simpl; auto].
  destruct (Sports.isText _ _); [simpl; auto|].
  destruct (JS.truthy _); simpl; auto.
Qed.

Lemma statusOf_known (m : Sports.EntitySportMatch) :
  In (Sports.statusOf m) ["upcoming"; "live"; "completed"].
Proof.
  unfold Sports.statusOf.
  destruct (String.eqb _ "live"); [simpl; auto|].
  destruct (String.eqb _ "result"); simpl; auto.
Qed.

Lemma truthy_orOpt_mentions (lower : string -> string)
    (a b : option string) (w : string) :
  JS.truthy (JS.orOpt (optIncludes lower a w) (optIncludes lower b w))
  = mentions lower a w || mentions lower b w.
Proof.
  unfold optIncludes, mentions.
  destruct a as [x|], b as [y|]; simpl;
    repeat match goal with
           | |- context [JS.includes ?s ?t] => destruct (JS.includes s t)
           end; reflexivity.
Qed.

(** X13.  The category of a converted match follows the competition:
    it is [domestic] exactly when the competition's category is the
    text [domestic]; it is [t20] exactly when the competition has some
    other non-empty category and its title or abbreviation contains
    "t20" in any letter case; in every other case, also when the
    competition or its category is missing, it is [international].  A
    domestic T20 league is therefore filed under [domestic]. *)
Theorem converted_category_rule (m : Sports.EntitySportMatch) :
  let category := Sports.opt (Sports.competition m) Sports.Competition.category in
  let title := Sports.opt (Sports.competition m) Sports.Competition.title in
  let abbr := Sports.opt (Sports.competition m) Sports.Competition.abbr in
  (Sports.categoryOf env m = "domestic" <-> category = Some "domestic")
  /\ (Sports.categoryOf env m = "t20"
      <-> Sports.truthyText category = true
          /\ category <> Some "domestic"
          /\ mentions (Sports.toLowerCase env) title "t20"
             || mentions (Sports.toLowerCase env) abbr "t20" = true)
  /\ In (Sports.categoryOf env m) ["international"; "domestic"; "t20"].
Proof.
  cbv zeta. split; [|split; [|apply categoryOf_known]].
  - unfold Sports.categoryOf, Sports.opt.
    destruct (Sports.competition m) as [c|]; simpl;
      [|split; discriminate].
    destruct (Sports.Competition.category c) as [s|]; simpl;
      [|split; discriminate].
    destruct (String.eqb s "domestic") eqn:E.
    + apply String.eqb_eq in E. subst. simpl. split; reflexivity.
    + apply String.eqb_neq in E.
      destruct s as [|ch s]; simpl.
      * split; [discriminate | congruence].
      * rewrite truthy_orOpt_mentions.
        destruct (_ || _); split; (discriminate || congruence).
  - unfold Sports.categoryOf, Sports.opt.
    destruct (Sports.competition m) as [c|]; simpl;
      [|split; [discriminate | intros (H & _); discriminate]].
    destruct (Sports.Competition.category c) as [s|]; simpl;
      [|split; [discriminate | intros (H & _); discriminate]].
    destruct (String.eqb s "domestic") eqn:E.
    + apply String.eqb_eq in E. subst. simpl.
      split; [discriminate | intros (_ & H & _); congruence].
    + apply String.eqb_neq in E.
      destruct s as [|ch s]; simpl.
      * split; [discriminate | intros (H & _); discriminate].
      * rewrite truthy_orOpt_mentions.
        destruct (_ || _); split.
        -- intros _. repeat split. congruence.
        -- reflexivity.
        -- discriminate.
        -- intros (_ & _ & H). discriminate.
Qed.

(** The conversion either converts every match, in order, or throws at
    the first match whose date is invalid. *)
Lemma convert_run (ms : list Sports.EntitySportMatch) : forall t,
  match Sports.convertEntitySportMatchesToFixtures env t ms with
  | (Ok fs, t') =>
      Forall (fun m => Sports.isoDateOf env (Sports.date_start m) <> None) ms
      /\ t' = (t + 2 * List.length ms)%nat
      /\ List.length fs = List.length ms
      /\ map Fx.externalId fs
         = map (fun m => Some (Sports.numberText env (Sports.mid m))) ms
      /\ map Fx.id fs
         = map (fun m =>
                  "entitysport_" ++ Sports.numberText env (Sports.mid m))
             ms
      /\ map Fx.category fs = map (Sports.categoryOf env) ms
      /\ Forall (fun f =>
                   Fx.sport f = "cricket"
                   /\ In (Fx.category f) ["international"; "domestic"; "t20"]
                   /\ In (Fx.status f) ["upcoming"; "live"; "completed"]
                   /\ Fx.team1 f <> "" /\ Fx.team2 f <> ""
                   /\ Fx.venue f <> "" /\ Fx.tournament f <> ""
                   /\ Fx.series f <> None /\ Fx.series f <> Some "") fs
  | (Throw _, _) =>
      Exists (fun m => Sports.isoDateOf env (Sports.date_start m) = None) ms
  end.
Proof.
  induction ms as [|m ms IH]; intros t; simpl.
  - repeat split; auto; lia.
  - destruct (Sports.isoDateOf env (Sports.date_start m)) as [d|] eqn:Ed;
      [|now left].
    specialize (IH (S (S t))).
    destruct (Sports.convertEntitySportMatchesToFixtures env (S (S t)) ms)
      as [[fs|e] t'].
    + destruct IH as (H1 & H2 & H3 & H4 & H5 & H5' & H6).
      split; [constructor; [congruence | exact H1]|].
      split; [lia|]. split; [simpl; lia|].
      split; [simpl; now rewrite H4|]. split; [simpl; now rewrite H5|].
      split; [simpl; now rewrite H5'|].
      constructor; [|exact H6]. simpl.
      split; [reflexivity|]. split; [apply categoryOf_known|].
      split; [apply statusOf_known|].
      repeat split; try (apply orText_nonempty; discriminate);
        try discriminate.
      intros H. injection H as H. revert H.
      apply orText_nonempty. discriminate.
    + now right.
Qed.

(** X14.  [convertEntitySportMatchesToFixtures] is all or nothing: it
    returns one fixture per match, in the order of the matches, when
    every match has a valid start date, and it throws, returning no
    fixture at all, as soon as one match has an invalid start date.
    The external id of a converted fixture is the text the host prints
    for the number [mid], and its id is that text after
    [entitysport_]. *)
Theorem conversion_is_all_or_nothing
    (t : nat) (ms : list Sports.EntitySportMatch) :
  match fst (Sports.convertEntitySportMatchesToFixtures env t ms) with
  | Ok fs =>
      Forall (fun m => Sports.isoDateOf env (Sports.date_start m) <> None) ms
      /\ List.length fs = List.length ms
      /\ map Fx.externalId fs
         = map (fun m => Some (Sports.numberText env (Sports.mid m))) ms
      /\ map Fx.id fs
         = map (fun m =>
                  "entitysport_" ++ Sports.numberText env (Sports.mid m))
             ms
  | Throw _ =>
      Exists (fun m => Sports.isoDateOf env (Sports.date_start m) = None) ms
  end.
Proof.
  pose proof (convert_run ms t) as H.
  destruct (Sports.convertEntitySportMatchesToFixtures env t ms)
    as [[fs|e] t']; simpl; [|exact H].
  destruct H as (H1 & _ & H3 & H4 & H5 & _). auto.
Qed.

(** X15.  Every converted fixture is presentable: the sport is
    cricket, the category and the status come from the closed
    vocabularies of the dashboard, and the team names, venue,
    tournament and series are never empty, whatever the upstream match
    leaves out. *)
Theorem converted_fixtures_are_complete
    (t : nat) (ms : list Sports.EntitySportMatch) :
  match fst (Sports.convertEntitySportMatchesToFixtures env t ms) with
  | Ok fs =>
      Forall (fun f =>
                Fx.sport f = "cricket"
                /\ In (Fx.category f) ["international"; "domestic"; "t20"]
                /\ In (Fx.status f) ["upcoming"; "live"; "completed"]
                /\ Fx.team1 f <> "" /\ Fx.team2 f <> ""
                /\ Fx.venue f <> "" /\ Fx.tournament f <> ""
                /\ Fx.series f <> None /\ Fx.series f <> Some "") fs
  | Throw _ => True
  end.
Proof.
  pose proof (convert_run ms t) as H.
  destruct (Sports.convertEntitySportMatchesToFixtures env t ms)
    as [[fs|e] t']; simpl; [|exact I].
  destruct H as (_ & _ & _ & _ & _ & _ & H). exact H.
Qed.

(** *** The mock fixtures *)

Lemma lastAscii_suffix (a b c d : string) :
  lastAscii d <> None ->
  lastAscii (a ++ b ++ c ++ d) = lastAscii d.
Proof.
  intros H. rewrite !lastAscii_app.
  destruct (lastAscii d); [reflexivity | contradiction].
Qed.

(** The ids [<prefix><category>_<i>] of eight rounds are distinct:
    they end with different digits. *)
Lemma round_ids_distinct (a category : string) (n : nat) :
  (n <= 8)%nat ->
  NoDup (map (fun i => a ++ category ++ "_" ++ decimal i) (seq 0 n)).
Proof.
  intros Hn. apply (NoDup_map_inv lastAscii). rewrite map_map.
  assert (Hsame : map (fun i => lastAscii (a ++ category ++ "_" ++ decimal i))
                    (seq 0 n)
                  = map (fun i => lastAscii (decimal i)) (seq 0 n)).
  { apply map_ext_in. intros i Hi. apply in_seq in Hi.
    apply lastAscii_suffix.
    do 8 (destruct i as [|i]; [vm_compute; discriminate|]). lia. }
  rewrite Hsame.
  do 9 (destruct n as [|n];
        [vm_compute; repeat constructor; simpl; intuition discriminate|]).
  lia.
Qed.

Lemma mock_cricket_selection (t : nat) (category : string) :
  (exists teams tours,
      Sports.generateMockCricketFixtures env t category
      = (Ok (map (Sports.mockCricketFixture env t category teams tours)
               (seq 0 8)), (t + 24)%nat)
      /\ (JS.mapGet category Sports.cricketTeams = None ->
          Sports.inherited env category = false
          /\ Sports.generateMockCricketFixtures env t "international"
             = (Ok (map (Sports.mockCricketFixture env t "international"
                           teams tours) (seq 0 8)), (t + 24)%nat)))
  \/ (exists e,
        Sports.generateMockCricketFixtures env t category = (Throw e, S t)
        /\ JS.mapGet category Sports.cricketTeams = None
        /\ Sports.inherited env category = true).
Proof.
  unfold Sports.generateMockCricketFixtures, Sports.orDefault, Sports.lookup.
  simpl.
  destruct (String.eqb category "international") eqn:E1.
  { left. do 2 eexists. split; [reflexivity | discriminate]. }
  destruct (String.eqb category "domestic") eqn:E2.
  { left. do 2 eexists. split; [reflexivity | discriminate]. }
  destruct (String.eqb category "t20") eqn:E3.
  { left. do 2 eexists. split; [reflexivity | discriminate]. }
  destruct (Sports.inherited env category) eqn:Ei.
  - right. eexists. repeat split.
  - left. do 2 eexists. split; [reflexivity|]. intros _. split; reflexivity.
Qed.

(** X16.  [generateMockCricketFixtures] returns eight fixtures for any
    category that does not name an inherited property: their ids are
    pairwise distinct, the first is live and the other seven are
    upcoming, the start times run from 14:00 to 19:00, and every
    fixture carries the requested category, also when the category is
    unknown, in which case the teams and tournaments are those of
    [international].  It throws only for a category that is not in its
    table and names an inherited property. *)
Theorem mock_cricket_fixtures_shape (t : nat) (category : string) :
  match fst (Sports.generateMockCricketFixtures env t category) with
  | Ok fs =>
      List.length fs = 8%nat
      /\ NoDup (map Fx.id fs)
      /\ map Fx.status fs = "live" :: repeat "upcoming" 7
      /\ map Fx.time fs
         = ["14:00"; "15:00"; "16:00"; "17:00"; "18:00"; "19:00"; "14:00";
            "15:00"]
      /\ Forall (fun f => Fx.category f = category /\ Fx.sport f = "cricket")
           fs
      /\ (JS.mapGet category Sports.cricketTeams = None ->
          exists international,
            fst (Sports.generateMockCricketFixtures env t "international")
            = Ok international
            /\ map (fun f => (Fx.team1 f, Fx.team2 f, Fx.tournament f,
                              Fx.venue f)) fs
               = map (fun f => (Fx.team1 f, Fx.team2 f, Fx.tournament f,
                                Fx.venue f)) international)
  | Throw _ =>
      JS.mapGet category Sports.cricketTeams = None
      /\ Sports.inherited env category = true
  end.
Proof.
  destruct (mock_cricket_selection t category)
    as [(teams & tours & -> & Hunknown)|(e & -> & H1 & H2)];
    simpl fst; [|exact (conj H1 H2)].
  split; [reflexivity|]. split.
  { exact (round_ids_distinct "cricket_" category 8 (le_n 8)). }
  split; [reflexivity|]. split; [reflexivity|]. split.
  { repeat constructor. }
  intros Hnone. destruct (Hunknown Hnone) as [_ Hint].
  exists (map (Sports.mockCricketFixture env t "international" teams tours)
            (seq 0 8)).
  split; [|reflexivity].
  transitivity
    (fst (Sports.generateMockCricketFixtures env t "international"));
    [reflexivity | now rewrite Hint].
Qed.

Lemma mock_tennis_selection (t : nat) (category : string) :
  (exists players tours,
      Sports.generateMockTennisFixtures env t category
      = (Ok (map (Sports.mockTennisFixture env t category players tours)
               (seq 0 6)), (t + 18)%nat)
      /\ (JS.mapGet category Sports.tennisPlayers = None ->
          Sports.inherited env category = false
          /\ Sports.generateMockTennisFixtures env t "atp"
             = (Ok (map (Sports.mockTennisFixture env t "atp" players tours)
                      (seq 0 6)), (t + 18)%nat)))
  \/ (exists e,
        Sports.generateMockTennisFixtures env t category = (Throw e, S t)
        /\ JS.mapGet category Sports.tennisPlayers = None
        /\ Sports.inherited env category = true).
Proof.
  unfold Sports.generateMockTennisFixtures, Sports.orDefault, Sports.lookup.
  simpl.
  destruct (String.eqb category "atp") eqn:E1.
  { left. do 2 eexists. split; [reflexivity | discriminate]. }
  destruct (String.eqb category "wta") eqn:E2.
  { left. do 2 eexists. split; [reflexivity | discriminate]. }
  destruct (String.eqb category "itf") eqn:E3.
  { left. do 2 eexists. split; [reflexivity | discriminate]. }
  destruct (Sports.inherited env category) eqn:Ei.
  - right. eexists. repeat split.
  - left. do 2 eexists. split; [reflexivity|]. intros _. split; reflexivity.
Qed.

(** X17.  [fetchTennisFixtures] never contacts a provider: for any
    category that does not name an inherited property it returns six
    mock fixtures with pairwise distinct ids, the first live and the
    rest upcoming, one per day from today on, all carrying the
    requested category and the sport [tennis]; an unknown category
    gets the players of [atp].  It throws only for a category outside
    its table that names an inherited property. *)
Theorem tennis_fixtures_are_mock_data (t : nat) (category : string) :
  match fst (Sports.fetchTennisFixtures env t category) with
  | Ok fs =>
      List.length fs = 6%nat
      /\ NoDup (map Fx.id fs)
      /\ map Fx.status fs = "live" :: repeat "upcoming" 5
      /\ map Fx.date fs
         = map (fun i => Sports.dayText env (Sports.newDate env (t + 3 * i))
                           (Z.of_nat i)) (seq 0 6)
      /\ Forall (fun f => Fx.category f = category /\ Fx.sport f = "tennis")
           fs
      /\ (JS.mapGet category Sports.tennisPlayers = None ->
          exists atp,
            fst (Sports.fetchTennisFixtures env t "atp") = Ok atp
            /\ map (fun f => (Fx.team1 f, Fx.team2 f, Fx.tournament f)) fs
               = map (fun f => (Fx.team1 f, Fx.team2 f, Fx.tournament f)) atp)
  | Throw _ =>
      JS.mapGet category Sports.tennisPlayers = None
      /\ Sports.inherited env category = true
  end.
Proof.
  unfold Sports.fetchTennisFixtures.
  destruct (mock_tennis_selection t category)
    as [(players & tours & -> & Hunknown)|(e & -> & H1 & H2)];
    simpl fst; [|exact (conj H1 H2)].
  split; [reflexivity|]. split.
  { refine (round_ids_distinct "tennis_" category 6 _). lia. }
  split; [reflexivity|]. split; [reflexivity|]. split.
  { repeat constructor. }
  intros Hnone. destruct (Hunknown Hnone) as [_ Hint].
  exists (map (Sports.mockTennisFixture env t "atp" players tours) (seq 0 6)).
  split; [|reflexivity].
  transitivity (fst (Sports.generateMockTennisFixtures env t "atp"));
    [reflexivity | now rewrite Hint].
Qed.

(** *** Fetching cricket fixtures *)

Lemma mock_cricket_ok (t : nat) (category : string) :
  Sports.inherited env category = false ->
  exists fs,
    Sports.generateMockCricketFixtures env t category = (Ok fs, (t + 24)%nat)
    /\ List.length fs = 8%nat.
Proof.
  intros Hi.
  destruct (mock_cricket_selection t category)
    as [(teams & tours & H & _)|(e & _ & _ & H)]; [|congruence].
  eexists. split; [exact H | reflexivity].
Qed.

Lemma convert_valid (t : nat) (ms : list Sports.EntitySportMatch) :
  Forall (fun m => Sports.isoDateOf env (Sports.date_start m) <> None) ms ->
  exists fs,
    Sports.convertEntitySportMatchesToFixtures env t ms
    = (Ok fs, (t + 2 * List.length ms)%nat)
    /\ map Fx.category fs = map (Sports.categoryOf env) ms.
Proof.
  intros Hvalid. pose proof (convert_run ms t) as H.
  destruct (Sports.convertEntitySportMatchesToFixtures env t ms)
    as [[fs|e] t'].
  - destruct H as (_ & -> & _ & _ & _ & Hc & _). eauto.
  - exfalso. apply Exists_exists in H. destruct H as (m & Hin & Hm).
    rewrite Forall_forall in Hvalid. exact (Hvalid m Hin Hm).
Qed.

(** X18.  For every category that does not name an inherited property,
    and whatever the EntitySport client, the date conversion and the
    prediction service do, [fetchCricketFixtures] does not throw and
    does not return an empty list. *)
Theorem cricket_fetch_always_delivers (t : nat) (category : string) :
  Sports.inherited env category = false ->
  exists fs t',
    Sports.fetchCricketFixtures env t category = (Ok fs, t') /\ fs <> [].
Proof.
  intros Hi.
  assert (Hmock : forall t0, exists fs t',
             Sports.generateMockCricketFixtures env t0 category = (Ok fs, t')
             /\ fs <> []).
  { intros t0. destruct (mock_cricket_ok t0 category Hi) as (fs & H & Hlen).
    exists fs, (t0 + 24)%nat. split; [exact H|].
    intros ->. discriminate. }
  unfold Sports.fetchCricketFixtures, Sports.fetchCricketAttempt.
  destruct (Sports.getUpcomingMatches env) as [ms|e]; [|apply Hmock].
  destruct (Sports.convertEntitySportMatchesToFixtures env t ms)
    as [[all|e] t1]; [|apply Hmock].
  set (filtered := if String.eqb category "all" then all
                   else filter (fun fixture =>
                                  String.eqb (Fx.category fixture) category)
                          all).
  destruct (Nat.ltb_spec 0 (List.length filtered)) as [Hpos|Hzero].
  - do 2 eexists. split; [reflexivity|].
    intros H. apply (f_equal (@List.length _)) in H.
    rewrite length_map in H. simpl in H. lia.
  - destruct (Hmock t1) as (fs & t' & -> & Hne). eauto.
Qed.

(** X19.  One match with an invalid start date is enough to lose every
    match of the upstream answer: the conversion throws, and
    [fetchCricketFixtures] returns exactly what
    [generateMockCricketFixtures] produces for the category. *)
Theorem one_invalid_date_yields_mock_fixtures
    (t : nat) (category : string) (ms : list Sports.EntitySportMatch) :
  Sports.getUpcomingMatches env = Ok ms ->
  Exists (fun m => Sports.isoDateOf env (Sports.date_start m) = None) ms ->
  exists t1,
    Sports.fetchCricketFixtures env t category
    = Sports.generateMockCricketFixtures env t1 category.
Proof.
  intros Hup Hbad.
  unfold Sports.fetchCricketFixtures, Sports.fetchCricketAttempt.
  rewrite Hup. pose proof (convert_run ms t) as H.
  destruct (Sports.convertEntitySportMatchesToFixtures env t ms)
    as [[all|e] t1].
  - exfalso. destruct H as (Hvalid & _).
    apply Exists_exists in Hbad. destruct Hbad as (m & Hin & Hm).
    rewrite Forall_forall in Hvalid. exact (Hvalid m Hin Hm).
  - now exists t1.
Qed.

Lemma filter_category_empty (category : string)
    (ms : list Sports.EntitySportMatch) : forall all,
  map Fx.category all = map (Sports.categoryOf env) ms ->
  Forall (fun m => Sports.categoryOf env m <> category) ms ->
  filter (fun fixture => String.eqb (Fx.category fixture) category) all = [].
Proof.
  induction ms as [|m ms IH]; intros all Hcat Hnone;
    destruct all as [|f all]; try discriminate; [reflexivity|].
  simpl in Hcat. injection Hcat as Hf Hrest.
  inversion Hnone as [|? ? Hm Hnone']; subst. simpl.
  destruct (String.eqb (Fx.category f) category) eqn:E.
  - apply String.eqb_eq in E. congruence.
  - now apply IH.
Qed.

(** X20.  A request for a category that no upstream match is filed
    under (any category other than [all], [international], [domestic]
    and [t20] is such a category) is answered with the mock fixtures of
    that category, not with an empty list. *)
Theorem unmatched_category_yields_mock_fixtures
    (t : nat) (category : string) (ms : list Sports.EntitySportMatch) :
  Sports.getUpcomingMatches env = Ok ms ->
  Forall (fun m => Sports.isoDateOf env (Sports.date_start m) <> None) ms ->
  category <> "all" ->
  Forall (fun m => Sports.categoryOf env m <> category) ms ->
  Sports.inherited env category = false ->
  Sports.fetchCricketFixtures env t category
  = Sports.generateMockCricketFixtures env (t + 2 * List.length ms) category
  /\ exists fs,
      fst (Sports.fetchCricketFixtures env t category) = Ok fs
      /\ List.length fs = 8%nat.
Proof.
  intros Hup Hvalid Hall Hnone Hi.
  destruct (convert_valid t ms Hvalid) as (all & Hconv & Hcat).
  destruct (mock_cricket_ok (t + 2 * List.length ms) category Hi)
    as (fs & Hmock & Hlen).
  assert (Hempty : filter (fun fixture =>
                             String.eqb (Fx.category fixture) category) all
                   = []).
  { now apply (filter_category_empty category ms). }
  assert (Hfetch : Sports.fetchCricketFixtures env t category
                   = Sports.generateMockCricketFixtures env
                       (t + 2 * List.length ms) category).
  { unfold Sports.fetchCricketFixtures, Sports.fetchCricketAttempt.
    rewrite Hup, Hconv.
    apply String.eqb_neq in Hall. rewrite Hall, Hempty.
    change (0 <? List.length (@nil Fx.Fixture))%nat with false. cbv iota.
    now rewrite Hmock. }
  split; [exact Hfetch|]. exists fs. rewrite Hfetch, Hmock. auto.
Qed.

End SportsFacts.

(** ** The dashboard pages *)

(** X21.  The page of today's matches lists only fixtures dated today
    that are upcoming or live, so a completed match never appears; the
    cricket and tennis counts it shows never exceed the total, and
    they add up to the total when every fixture is cricket or
    tennis. *)
Theorem todays_matches_counts
    (todayStr : string) (allFixtures : list Fx.Fixture) :
  let today := Client.getTodaysMatches todayStr allFixtures in
  Forall (fun f =>
            Fx.date f = todayStr
            /\ (Fx.status f = "upcoming" \/ Fx.status f = "live")
            /\ Fx.status f <> "completed"
            /\ In f allFixtures) today
  /\ (List.length (Client.cricketMatches today)
      + List.length (Client.tennisMatches today)
      <= List.length today <= List.length allFixtures)%nat
  /\ (Forall (fun f => Fx.sport f = "cricket" \/ Fx.sport f = "tennis")
        allFixtures ->
      (List.length (Client.cricketMatches today)
       + List.length (Client.tennisMatches today))%nat
      = List.length today).
Proof.
  cbv zeta. split; [|split].
  - apply Forall_forall. intros f Hf.
    apply filter_In in Hf. destruct Hf as [Hin Hf]. cbv zeta in Hf.
    apply andb_true_iff in Hf. destruct Hf as [Hd Hs].
    apply String.eqb_eq in Hd. apply orb_true_iff in Hs.
    repeat rewrite String.eqb_eq in Hs.
    repeat split; auto.
    destruct Hs as [->| ->]; discriminate.
  - split; [|apply filter_length_le].
    unfold Client.cricketMatches, Client.tennisMatches.
    induction (Client.getTodaysMatches todayStr allFixtures) as [|f l IH];
      [simpl; lia|].
    simpl.
    destruct (String.eqb (Fx.sport f) "cricket") eqn:E1;
      destruct (String.eqb (Fx.sport f) "tennis") eqn:E2; simpl; try lia.
    eqb_clash.
  - intros Hsports.
    assert (Hsub : Forall (fun f => Fx.sport f = "cricket"
                                    \/ Fx.sport f = "tennis")
                     (Client.getTodaysMatches todayStr allFixtures)).
    { apply Forall_forall. intros f Hf. apply filter_In in Hf.
      rewrite Forall_forall in Hsports. now apply Hsports. }
    unfold Client.cricketMatches, Client.tennisMatches.
    induction Hsub as [|f l Hf _ IH]; [reflexivity|].
    simpl.
    destruct (String.eqb (Fx.sport f) "cricket") eqn:E1;
      destruct (String.eqb (Fx.sport f) "tennis") eqn:E2; simpl; try lia.
    + eqb_clash.
    + apply String.eqb_neq in E1, E2. tauto.
Qed.

Lemma quickFormat_not_test (category : string) :
  Client.quickFormat category = T20 \/ Client.quickFormat category = ODI.
Proof.
  unfold Client.quickFormat.
  destruct (String.eqb category "t20"); auto.
  destruct (String.eqb category "international"); auto.
Qed.

(** X22.  The Quick Predict button asks the fast tier for format [t20]
    or [odi], never [test]: the category [international] is sent as
    [odi] and every other category, [domestic] included, as [t20].  In
    every reachable state of the predictor the answer therefore has
    accuracy 78, 75 or, for the static fallback, 65, and an answer that
    is not the fallback carries no risk factors. *)
Theorem quick_predict_never_asks_for_test
    (toLowerCase : JS.CaseConversion)
    (dateNow : nat -> Z)
    (calculateWinProbability :
       nat -> string -> string -> Format -> Outcome EloResult)
    (generateEnhancedPrediction :
       nat -> PredictionInput -> BaseProbs -> Outcome ComprehensivePrediction)
    (slug : string -> string) (cs : list ApiCall) (fixture : Fx.Fixture) :
  let input := Client.quickPredictInput slug fixture in
  (format input = T20 \/ format input = ODI)
  /\ (format input = ODI <-> Fx.category fixture = "international")
  /\ returns
       (fun r =>
          (engineUsed r = "Basic Fallback" /\ accuracy r = 65)
          \/ (engineUsed r = "Elo Rating System"
              /\ In (accuracy r) [75; 78]
              /\ riskFactors r = []))
       (generateFastPrediction dateNow calculateWinProbability input
          (runCalls toLowerCase dateNow calculateWinProbability
             generateEnhancedPrediction cs initialState)).
Proof.
  cbv zeta. pose proof (quickFormat_not_test (Fx.category fixture)) as Hfmt.
  split; [exact Hfmt|]. split.
  { simpl. unfold Client.quickFormat.
    destruct (String.eqb (Fx.category fixture) "t20") eqn:E1.
    - split; [discriminate|]. intros H. rewrite H in E1. discriminate.
    - destruct (String.eqb (Fx.category fixture) "international") eqn:E2.
      + apply String.eqb_eq in E2. tauto.
      + apply String.eqb_neq in E2. split; [discriminate | tauto]. }
  destruct (fastTier_origin dateNow calculateWinProbability
              (Client.quickPredictInput slug fixture) _
              (reachable_invariant toLowerCase dateNow calculateWinProbability
                 generateEnhancedPrediction cs)) as [_ H].
  eapply returns_weaken; [|exact H]. clear H.
  intros r [(dt & ->)|[(el & dt & ->)|(i & el & dt & Hk & ->)]]; simpl.
  - left. auto.
  - right. split; [reflexivity|]. destruct Hfmt as [-> | ->]; simpl; auto.
  - right. split; [reflexivity|]. apply fastKey_format in Hk.
    simpl in Hk. rewrite Hk. destruct Hfmt as [-> | ->]; simpl; auto.
Qed.

(** ** Instances of the properties beyond the specification *)

Import SportsScenario.

(** X5 on a cache filled by fast predictions for a hundred teams: the
    first team's entry is refreshed and then evicted by the next new
    key. *)
Lemma refreshed_entry_evicted_in_full_cache :
  let c :=
    predictionCache
      (runCalls JS.lowerAsciiText clock eloSteady mlSteady
         (distinctCalls 100) initialState) in
  let key := fastKey (teamMatch 0) in
  let refreshed := cacheResultAt key sample 500000 c in
  JS.mapSize c = CACHE_CAPACITY
  /\ JS.mapGet key refreshed = Some {| result := sample; timestamp := 500000 |}
  /\ JS.mapGet key (cacheResultAt "fast_new" sample 500001 refreshed) = None.
Proof.
  cbv zeta.
  assert (Hkeys :
            JS.mapKeys
              (predictionCache
                 (runCalls JS.lowerAsciiText clock eloSteady mlSteady
                    (distinctCalls 100)
                    initialState))
            = fastKey (teamMatch 0)
              :: map (fun i => fastKey (teamMatch i)) (seq 1 99))
    by (vm_compute; reflexivity).
  assert (Hfull :
            JS.mapSize
              (predictionCache
                 (runCalls JS.lowerAsciiText clock eloSteady mlSteady
                    (distinctCalls 100)
                    initialState))
            = CACHE_CAPACITY)
    by (vm_compute; reflexivity).
  assert (Hnew : ~ In "fast_new"
                     (fastKey (teamMatch 0)
                      :: map (fun i => fastKey (teamMatch i)) (seq 1 99))).
  { intros Hin.
    assert (H : existsb (String.eqb "fast_new")
                  (fastKey (teamMatch 0)
                   :: map (fun i => fastKey (teamMatch i)) (seq 1 99))
                = true).
    { apply existsb_exists. exists "fast_new".
      split; [exact Hin | apply String.eqb_refl]. }
    vm_compute in H. discriminate H. }
  destruct (refreshed_first_entry_is_evicted_next JS.lowerAsciiText clock
              eloSteady mlSteady
              (distinctCalls 100) (fastKey (teamMatch 0))
              (map (fun i => fastKey (teamMatch i)) (seq 1 99))
              sample sample 500000 500001 "fast_new" Hkeys Hfull Hnew)
    as (_ & H2 & _ & H4).
  split; [exact Hfull|]. split; [exact H2 | exact H4].
Defined.

(** X6 on a fresh predictor whose rating provider is down. *)
Lemma fallback_leaves_cache_empty :
  exists elapsed s',
    generateFastPrediction clock eloDown friendly initialState
    = (Ok (generateBasicFallback friendly elapsed), s')
    /\ predictionCache s' = predictionCache initialState.
Proof.
  destruct (failed_computation_is_not_cached clock eloDown friendly
              initialState "ratings unavailable" eq_refl eq_refl)
    as (elapsed & s' & H1 & H2 & _).
  exists elapsed, s'. split; [exact H1 | exact H2].
Defined.

(** X8: a fast prediction made for a friendly is served to a request
    for the World Cup final of the same teams. *)
Lemma friendly_result_served_for_final :
  let first := generateFastPrediction clock eloSteady friendly initialState in
  exists r1 ts,
    fst first = Ok r1
    /\ storedUnder (fastKey worldCupFinal) r1 ts (predictionCache (snd first))
    /\ (clock (tick (snd first)) - ts < CACHE_TTL ->
        generateFastPrediction clock eloSteady worldCupFinal (snd first)
        = (Ok (markFromCache r1), advance (snd first))).
Proof.
  cbv zeta.
  assert (Hsz : JS.mapSize (predictionCache initialState) <= CACHE_CAPACITY)
    by (vm_compute; discriminate).
  assert (Hengine :
            engineUsed
              (fastResult friendly
                 {| eloTeam1WinProb := 0.6; eloTeam2WinProb := 0.38;
                    eloDrawProb := 0.02 |} 2000)
            <> "Basic Fallback")
    by (simpl; discriminate).
  destruct (fast_tier_serves_any_venue clock eloSteady friendly worldCupFinal
              initialState
              (snd (generateFastPrediction clock eloSteady friendly
                      initialState))
              (fastResult friendly
                 {| eloTeam1WinProb := 0.6; eloTeam2WinProb := 0.38;
                    eloDrawProb := 0.02 |} 2000)
              eq_refl eq_refl eq_refl Hsz eq_refl Hengine)
    as (ts & H1 & H2).
  eexists. exists ts. split; [reflexivity|]. split; [exact H1 | exact H2].
Defined.

(** X9: the teams [x_y] against [z] and the teams [x] against [y_z]
    share one fast key. *)
Lemma two_pairs_one_key :
  pairMatch "x_y" "z" <> pairMatch "x" "y_z"
  /\ fastKey (pairMatch "x_y" "z") = fastKey (pairMatch "x" "y_z").
Proof.
  assert (Hsz : JS.mapSize (predictionCache initialState) <= CACHE_CAPACITY)
    by (vm_compute; discriminate).
  assert (Hengine :
            engineUsed
              (fastResult (pairMatch "x_y" "z")
                 {| eloTeam1WinProb := 0.6; eloTeam2WinProb := 0.38;
                    eloDrawProb := 0.02 |} 2000)
            <> "Basic Fallback")
    by (simpl; discriminate).
  split; [discriminate|].
  exact (proj1 (fast_key_does_not_separate_team_ids clock eloSteady
                  "x" "y" "z" (pairMatch "x_y" "z") (pairMatch "x" "y_z")
                  initialState
                  (snd (generateFastPrediction clock eloSteady
                          (pairMatch "x_y" "z") initialState))
                  (fastResult (pairMatch "x_y" "z")
                     {| eloTeam1WinProb := 0.6; eloTeam2WinProb := 0.38;
                        eloDrawProb := 0.02 |} 2000)
                  eq_refl eq_refl eq_refl eq_refl eq_refl Hsz eq_refl
                  Hengine)).
Defined.

(** X18 with two upstream matches and the category [all]. *)
Lemma both_upstream_matches_delivered :
  exists fs t',
    Sports.fetchCricketFixtures (envWith (Ok twoMatches)) 0 "all"
    = (Ok fs, t')
    /\ fs <> [].
Proof.
  exact (cricket_fetch_always_delivers (envWith (Ok twoMatches)) 0 "all"
           eq_refl).
Defined.

(** X19 with one valid and one invalid start date. *)
Lemma bad_date_gives_mock_fixtures :
  exists t1,
    Sports.fetchCricketFixtures (envWith (Ok oneBadDate)) 0 "all"
    = Sports.generateMockCricketFixtures (envWith (Ok oneBadDate)) t1 "all".
Proof.
  apply (one_invalid_date_yields_mock_fixtures (envWith (Ok oneBadDate)) 0
           "all" oneBadDate eq_refl).
  right. left. reflexivity.
Defined.

(** X20 with two domestic matches and a request for [t20]. *)
Lemma t20_request_gets_mock_fixtures :
  Sports.fetchCricketFixtures (envWith (Ok twoMatches)) 0 "t20"
  = Sports.generateMockCricketFixtures (envWith (Ok twoMatches)) 4 "t20".
Proof.
  refine (proj1 (unmatched_category_yields_mock_fixtures
                   (envWith (Ok twoMatches)) 0 "t20" twoMatches
                   eq_refl _ _ _ eq_refl)).
  - repeat constructor; discriminate.
  - discriminate.
  - repeat constructor; discriminate.
Defined.
